(** * Wholecoiner: the swap execution orchestrator, embedded and verified

    A shallow embedding of the server routes and client helpers that turn an
    investment intent into on-chain steps and reconcile them into the ledger:

    - [lib/goalValidation.js]                  goal state machine helpers
    - [app/api/goals/[id]/route.js]            PATCH / DELETE of a goal
    - [app/api/invest/execute/route.js]        submit, confirm, stamp, credit
    - [app/api/invest/prepare/route.js]        simulated on-ramp and quote
    - [app/api/internal/solana-transfer]       admin prepare / submit / refresh
    - [components/SwapCard.js]                 amount conversion, slippage choice

    Handlers are written in a state-and-exception monad over a [World] (the
    database, the transactions handed to the network, the log).  Everything a
    handler awaits from outside the repository (session, RPC node, wallet
    library, database faults) is an oracle of the per-request [Env].

    Amounts held in the database are exact rationals ([Q]) wherever a property
    only concerns order and addition; the client-side conversion to base
    units, where rounding is the whole point, is modelled on IEEE-754
    binary64 ([PrimFloat]), the number type of the source language. *)

From Stdlib Require Import ZArith QArith Qround String Ascii List Bool Lia.
From Stdlib Require Import Floats DecimalString.
From stdpp Require Import base option gmap strings.

Import ListNotations.
Open Scope string_scope.

(* ------------------------------------------------------------------------- *)
(** ** Source-language helpers *)
(* ------------------------------------------------------------------------- *)

Module Js.

(** [!s] for a value that is a string or missing. *)
Definition falsy_str (s : option string) : bool :=
  match s with
  | None => true
  | Some s => String.eqb s EmptyString
  end.

(** [!n] for a value that is a number or missing. *)
Definition falsy_num (n : option Z) : bool :=
  match n with
  | None => true
  | Some n => Z.eqb n 0
  end.

Definition is_upper (c : ascii) : bool :=
  (65 <=? nat_of_ascii c)%nat && (nat_of_ascii c <=? 90)%nat.
Definition is_lower (c : ascii) : bool :=
  (97 <=? nat_of_ascii c)%nat && (nat_of_ascii c <=? 122)%nat.
Definition is_digit (c : ascii) : bool :=
  (48 <=? nat_of_ascii c)%nat && (nat_of_ascii c <=? 57)%nat.

(** One character of the class [[A-Za-z0-9+/=]]. *)
Definition base64_char (c : ascii) : bool :=
  is_upper c || is_lower c || is_digit c
  || Ascii.eqb c "+" || Ascii.eqb c "/" || Ascii.eqb c "=".

(** [/^[A-Za-z0-9+/=]+$/.test(s)] *)
Definition base64_regex (s : string) : bool :=
  negb (String.eqb s EmptyString) && forallb base64_char (list_ascii_of_string s).

Definition lower_char (c : ascii) : ascii :=
  if is_upper c then ascii_of_nat (nat_of_ascii c + 32) else c.

(** [s.toLowerCase()] on ASCII text. *)
Fixpoint toLowerCase (s : string) : string :=
  match s with
  | EmptyString => EmptyString
  | String c r => String (lower_char c) (toLowerCase r)
  end.

(** [s.includes(p)] *)
(** A whole number written out, as a template literal does. *)
Definition numberToString (z : Z) : string :=
  NilZero.string_of_int (Z.to_int z).

Fixpoint includes (s p : string) : bool :=
  String.prefix p s
  || match s with
     | EmptyString => false
     | String _ r => includes r p
     end.

End Js.

(* ------------------------------------------------------------------------- *)
(** ** Errors thrown by the handlers *)
(* ------------------------------------------------------------------------- *)

Module Errors.

(** The error values the routes throw or receive.  [Foreign] is anything
    raised by code outside the repository (RPC client, wallet library,
    database driver): such a value carries a name and a message and has no
    [statusCode]. *)
Inductive Thrown : Type :=
| ValidationError (message : string)
| AuthenticationError (message : string)
| AuthorizationError (message : string)
| SwapErrors (code : string)
| GoalErrors (code : string)
| Foreign (name message : string).

Definition err_name (e : Thrown) : string :=
  match e with
  | ValidationError _ => "ValidationError"
  | AuthenticationError _ => "AuthenticationError"
  | AuthorizationError _ => "AuthorizationError"
  | SwapErrors _ => "SwapError"
  | GoalErrors _ => "GoalError"
  | Foreign n _ => n
  end.

Definition err_message (e : Thrown) : string :=
  match e with
  | ValidationError m | AuthenticationError m | AuthorizationError m => m
  | SwapErrors c | GoalErrors c => c
  | Foreign _ m => m
  end.

Definition isAuthenticationError (e : Thrown) : bool :=
  match e with AuthenticationError _ => true | _ => false end.

Definition isAuthorizationError (e : Thrown) : bool :=
  match e with AuthorizationError _ => true | _ => false end.

Definition isValidationError (e : Thrown) : bool :=
  match e with ValidationError _ => true | _ => false end.

(** Modelled from the spec: [lib/errors.js] is not among the sources, so the
    [statusCode] and [code] carried by each error class follow the table of
    the external-interface section: VALIDATION_ERROR (400), AUTH_ERROR
    (401/403).  The swap and goal error factories keep the code they are
    named after and are client errors (400).  A [Foreign] value has neither
    field. *)
Definition err_statusCode (e : Thrown) : option Z :=
  match e with
  | ValidationError _ => Some 400%Z
  | AuthenticationError _ => Some 401%Z
  | AuthorizationError _ => Some 403%Z
  | SwapErrors _ => Some 400%Z
  | GoalErrors _ => Some 400%Z
  | Foreign _ _ => None
  end.

Definition err_code (e : Thrown) : option string :=
  match e with
  | ValidationError _ => Some "VALIDATION_ERROR"
  | AuthenticationError _ => Some "AUTH_ERROR"
  | AuthorizationError _ => Some "AUTH_ERROR"
  | SwapErrors c => Some c
  | GoalErrors c => Some c
  | Foreign _ _ => None
  end.

End Errors.
Export Errors.


(* ------------------------------------------------------------------------- *)
(** ** Persistent data *)
(* ------------------------------------------------------------------------- *)

Module Data.

Inductive GoalStatus : Type := ACTIVE | PAUSED | COMPLETED.

Inductive Frequency : Type := DAILY | WEEKLY | MONTHLY.

Inductive TransactionType : Type := ONRAMP | SWAP.

Inductive TransferState : Type :=
  PREPARED | SUBMITTED | CONFIRMED | FAILED.

Record User : Type := mkUser {
  u_id : string;
  u_email : option string;
  u_walletAddress : option string
}.

Record Goal : Type := mkGoal {
  g_id : string;
  g_userId : string;
  g_coin : string;
  g_targetAmount : Q;
  g_investedAmount : Q;
  g_amountPerInterval : Q;
  g_frequency : Frequency;
  g_status : GoalStatus
}.

(** The [meta] column of a transaction row. *)
Record TxnMeta : Type := mkTxnMeta {
  m_state : string;
  m_quoteId : option string;
  m_simulated : bool;
  m_userWalletAddress : option string
}.

Record Transaction : Type := mkTransaction {
  t_id : string;
  t_goalId : string;
  t_batchId : string;
  t_type : TransactionType;
  t_provider : string;
  t_network : string;
  t_txnHash : option string;
  t_amountUsd : option Q;
  t_amountCrypto : Q;
  t_tokenMint : string;
  t_meta : TxnMeta
}.

(** The [metadata] column of an internal transfer: every key the route ever
    writes, each one absent until written. *)
Record TransferMetadata : Type := mkTransferMetadata {
  md_feeEstimateLamports : option Z;
  md_lastValidBlockHeight : option Z;
  md_recentBlockhash : option string;
  md_preparedAt : option string;
  md_refreshCount : option Z;
  md_lastRefreshReason : option string;
  md_refreshedAt : option string;
  md_submittedAt : option string;
  md_adminUserId : option string;
  md_requestId : option string;
  md_failureAt : option string;
  md_error : option string
}.

Definition emptyMetadata : TransferMetadata :=
  mkTransferMetadata None None None None None None None None None None None None.

Record InternalTransfer : Type := mkInternalTransfer {
  it_batchId : string;
  it_adminUserId : string;
  it_sourceUserId : option string;
  it_sourceAddress : string;
  it_destinationAddress : string;
  it_lamports : Z;
  it_memo : option string;
  it_signature : option string;
  it_state : TransferState;
  it_metadata : option TransferMetadata
}.

(** The database.  [transactions] is a table in insertion order;
    [internalTransfers] is keyed by [batchId], on which the migration
    declares a unique index.  [unique_batch_type] says whether the
    [transactions] table carries a unique index on [(batchId, type)]: the
    schema file is not among the sources, so it is left open. *)
Record Db : Type := mkDb {
  users : gmap string User;
  goals : gmap string Goal;
  transactions : list Transaction;
  internalTransfers : gmap string InternalTransfer;
  unique_batch_type : bool
}.

(** Only what the handlers write at the warning and error levels is kept:
    informational and debug lines are not part of the model. *)
Inductive LogLevel : Type := LWarn | LError.

(** What a request can touch: the database, the raw transactions it handed
    to the network, and the log. *)
Record World : Type := mkWorld {
  db : Db;
  submitted : list string;
  logs : list (LogLevel * string)
}.

Definition status_eqb (a b : GoalStatus) : bool :=
  match a, b with
  | ACTIVE, ACTIVE | PAUSED, PAUSED | COMPLETED, COMPLETED => true
  | _, _ => false
  end.

Definition type_eqb (a b : TransactionType) : bool :=
  match a, b with
  | ONRAMP, ONRAMP | SWAP, SWAP => true
  | _, _ => false
  end.

Definition with_db (w : World) (d : Db) : World :=
  mkWorld d (submitted w) (logs w).

Definition with_goals (d : Db) (g : gmap string Goal) : Db :=
  mkDb (users d) g (transactions d) (internalTransfers d) (unique_batch_type d).

Definition with_transactions (d : Db) (t : list Transaction) : Db :=
  mkDb (users d) (goals d) t (internalTransfers d) (unique_batch_type d).

Definition with_internalTransfers (d : Db) (t : gmap string InternalTransfer) : Db :=
  mkDb (users d) (goals d) (transactions d) t (unique_batch_type d).

End Data.
Export Data.


(* ------------------------------------------------------------------------- *)
(** ** The handler monad and the outside world *)
(* ------------------------------------------------------------------------- *)

Module Handler.

Inductive Result (A : Type) : Type :=
| Ok (a : A)
| Err (e : Thrown).
Arguments Ok {A} a.
Arguments Err {A} e.

(** A computation that may change the world and may throw. *)
Definition M (A : Type) : Type := World -> World * Result A.

Definition ret {A : Type} (a : A) : M A := fun w => (w, Ok a).

Definition throw {A : Type} (e : Thrown) : M A := fun w => (w, Err e).

Definition bind {A B : Type} (m : M A) (k : A -> M B) : M B :=
  fun w =>
    match m w with
    | (w', Ok a) => k a w'
    | (w', Err e) => (w', Err e)
    end.

(** [try { m } catch (error) { h error }] *)
Definition try_catch {A : Type} (m : M A) (h : Thrown -> M A) : M A :=
  fun w =>
    match m w with
    | (w', Ok a) => (w', Ok a)
    | (w', Err e) => h e w'
    end.

(** An awaited call into the outside world whose outcome the environment
    decides. *)
Definition await {A : Type} (r : Result A) : M A := fun w => (w, r).

(** [if (c) throw e;] *)
Definition throw_if (c : bool) (e : Thrown) : M unit :=
  if c then throw e else ret tt.

Definition logger (lvl : LogLevel) (msg : string) : M unit :=
  fun w => (mkWorld (db w) (submitted w) (logs w ++ [(lvl, msg)]), Ok tt).

Definition get_db : M Db := fun w => (w, Ok (db w)).

Definition put_db (d : Db) : M unit := fun w => (with_db w d, Ok tt).

Notation "x <-- m ;; k" := (bind m (fun x => k))
  (at level 100, m at level 99, right associativity).
Notation "m ;;; k" := (bind m (fun _ => k))
  (at level 100, right associativity).

(** The places where a handler talks to the database. *)
Inductive DbOp : Type :=
| UserFindUnique
| GoalFindFirst
| GoalIncrement
| GoalSetStatus
| GoalUpdate
| GoalDelete
| TransactionFindFirst
| TransactionUpdate
| TransactionCreate
| TransferFindUnique
| TransferUpdate.

Definition dbop_index (op : DbOp) : nat :=
  match op with
  | UserFindUnique => 0
  | GoalFindFirst => 1
  | GoalIncrement => 2
  | GoalSetStatus => 3
  | GoalUpdate => 4
  | GoalDelete => 5
  | TransactionFindFirst => 6
  | TransactionUpdate => 7
  | TransactionCreate => 8
  | TransferFindUnique => 9
  | TransferUpdate => 10
  end.

Definition dbop_eqb (a b : DbOp) : bool :=
  Nat.eqb (dbop_index a) (dbop_index b).

(** What the wallet library reads out of a serialized transaction. *)
Record TxInfo : Type := mkTxInfo {
  tx_recentBlockhash : option string;
  tx_feePayer : option string
}.

(** The result of building an unsigned transfer against the current
    blockhash. *)
Record UnsignedTransfer : Type := mkUnsignedTransfer {
  ut_unsignedTransaction : string;
  ut_recentBlockhash : string;
  ut_lastValidBlockHeight : Z;
  ut_feeEstimateLamports : option Z
}.

Record TokenInfo : Type := mkTokenInfo {
  tk_mint : string;
  tk_decimals : nat
}.

(** Everything one request observes of the outside world.  [getTokenMint]
    and [TOKEN_MINTS] are the token table of [lib/tokens.js], [getTokenInfo]
    the one of [lib/prices.js]; neither file is among the sources, so the
    tables are left open. *)
Record Env : Type := mkEnv {
  session_sub : option string;
  requestId : string;
  now : string;
  getNetwork : string;
  newRowId : string;
  nanoid : string;
  dbFault : DbOp -> option Thrown;
  bufferLength : string -> nat;
  deserialize : string -> Result TxInfo;
  getSlot : Result Z;
  sendRawTransaction : string -> Result string;
  confirmTransaction : string -> Result unit;
  getLatestBlockhash : Result (string * Z);
  buildTransfer : string -> string -> Z -> Result UnsignedTransfer;
  sendInvestmentNotification : Result unit;
  checkRateLimit : bool;
  getBalance : Result Z;
  getSwapQuote : Result (Z * string);
  getSwapTransaction : Result (string * Z);
  ensureOutputAccount : Result unit;
  getTokenMint : string -> Result TokenInfo;
  TOKEN_MINTS : string -> TokenInfo;
  getTokenInfo : string -> option TokenInfo;
  randomUUID : string;
  adminEmailAllowlist : list string;
  adminUserIdAllowlist : list string
}.

(** A database call: it throws what the environment says it throws. *)
Definition faulty {A : Type} (env : Env) (op : DbOp) (m : M A) : M A :=
  match dbFault env op with
  | Some e => throw e
  | None => m
  end.

Definition notFound : Thrown :=
  Foreign "PrismaClientKnownRequestError" "Record to update not found.".

Definition uniqueViolation : Thrown :=
  Foreign "PrismaClientKnownRequestError" "Unique constraint failed".

(** [prisma.$transaction(async (tx) => m)]: the writes of [m] are kept only
    if [m] returns. *)
Definition prisma_transaction {A : Type} (m : M A) : M A :=
  fun w =>
    match m w with
    | (w', Ok a) => (w', Ok a)
    | (w', Err e) => (with_db w' (db w), Err e)
    end.

Definition prisma_user_findUnique (env : Env) (id : string) : M (option User) :=
  faulty env UserFindUnique
    (d <-- get_db ;; ret (users d !! id)).

(** [prisma.goal.findFirst({ where: { id, userId } })] *)
Definition prisma_goal_findFirst (env : Env) (id userId : string)
  : M (option Goal) :=
  faulty env GoalFindFirst
    (d <-- get_db ;;
     ret (match goals d !! id with
          | Some g => if String.eqb (g_userId g) userId then Some g else None
          | None => None
          end)).

(** [prisma.goal.update] at the call site [op], applying [f] to the row. *)
Definition prisma_goal_update (env : Env) (op : DbOp) (id : string)
    (f : Goal -> Goal) : M Goal :=
  faulty env op
    (d <-- get_db ;;
     match goals d !! id with
     | None => throw notFound
     | Some g =>
         put_db (with_goals d (<[id := f g]> (goals d))) ;;;
         ret (f g)
     end).

Definition increment (amount : Q) (g : Goal) : Goal :=
  mkGoal (g_id g) (g_userId g) (g_coin g) (g_targetAmount g)
         (g_investedAmount g + amount)%Q
         (g_amountPerInterval g) (g_frequency g) (g_status g).

Definition set_status (s : GoalStatus) (g : Goal) : Goal :=
  mkGoal (g_id g) (g_userId g) (g_coin g) (g_targetAmount g)
         (g_investedAmount g) (g_amountPerInterval g) (g_frequency g) s.

Definition matches (batchId : string) (ty : TransactionType) (t : Transaction)
  : bool :=
  String.eqb (t_batchId t) batchId && type_eqb (t_type t) ty.

(** [prisma.transaction.findFirst({ where: { batchId, type } })] *)
Definition prisma_transaction_findFirst (env : Env) (batchId : string)
    (ty : TransactionType) : M (option Transaction) :=
  faulty env TransactionFindFirst
    (d <-- get_db ;; ret (List.find (matches batchId ty) (transactions d))).

(** [prisma.transaction.update({ where: { id }, data })] *)
Definition prisma_transaction_update (env : Env) (id : string)
    (f : Transaction -> Transaction) : M Transaction :=
  faulty env TransactionUpdate
    (d <-- get_db ;;
     match List.find (fun t => String.eqb (t_id t) id) (transactions d) with
     | None => throw notFound
     | Some t =>
         put_db (with_transactions d
                   (List.map (fun r => if String.eqb (t_id r) id then f r else r)
                             (transactions d))) ;;;
         ret (f t)
     end).

(** [prisma.transaction.create({ data })] *)
Definition prisma_transaction_create (env : Env) (row : Transaction)
  : M Transaction :=
  faulty env TransactionCreate
    (d <-- get_db ;;
     if unique_batch_type d
        && existsb (matches (t_batchId row) (t_type row)) (transactions d)
     then throw uniqueViolation
     else put_db (with_transactions d (transactions d ++ [row])) ;;; ret row).

Definition prisma_internalTransfer_findUnique (env : Env) (batchId : string)
  : M (option InternalTransfer) :=
  faulty env TransferFindUnique
    (d <-- get_db ;; ret (internalTransfers d !! batchId)).

Definition prisma_internalTransfer_update (env : Env) (batchId : string)
    (f : InternalTransfer -> InternalTransfer) : M InternalTransfer :=
  faulty env TransferUpdate
    (d <-- get_db ;;
     match internalTransfers d !! batchId with
     | None => throw notFound
     | Some r =>
         put_db (with_internalTransfers d
                   (<[batchId := f r]> (internalTransfers d))) ;;;
         ret (f r)
     end).

(** [requireAuth(request)] of [lib/auth.js]. *)
Definition requireAuth (env : Env) : M User :=
  if Js.falsy_str (session_sub env)
  then throw (AuthenticationError "Session not found")
  else
    user <-- prisma_user_findUnique env (default EmptyString (session_sub env)) ;;
    match user with
    | None => throw (AuthenticationError "User not found")
    | Some u => ret u
    end.

End Handler.
Export Handler.


(* ------------------------------------------------------------------------- *)
(** ** HTTP responses *)
(* ------------------------------------------------------------------------- *)

Module Http.

(** The refreshed or prepared transfer handed back to the admin console. *)
Record TransferPayload : Type := mkTransferPayload {
  tp_fromAddress : string;
  tp_toAddress : string;
  tp_lamports : Z;
  tp_amountSol : float;
  tp_memo : option string;
  tp_unsignedTransaction : string;
  tp_feeEstimateLamports : option Z;
  tp_lastValidBlockHeight : Z;
  tp_recentBlockhash : string
}.

Inductive Payload : Type :=
| NoPayload
| GoalPayload (g : Goal) (progressPercentage : Q)
| DeletedPayload
| ExecutePayload (btcAmount : Q) (transactionHash : string)
| PreparePayload (estimatedBtc : Q) (swapTransaction : string)
    (lastValidBlockHeight : Z) (batchId : string)
| SubmittedPayload (batchId signature : string)
| RefreshedPayload (batchId : string) (transfer : TransferPayload).

Record Response : Type := mkResponse {
  r_status : Z;
  r_success : bool;
  r_retryable : bool;
  r_code : option string;
  r_message : option string;
  r_payload : Payload
}.

Definition success (status : Z) (p : Payload) : Response :=
  mkResponse status true false None None p.

(** The tail of every route's [catch] block: authentication errors first
    (and authorization errors where the route names them), then anything
    carrying a [statusCode], then the generic 500. *)
Definition errorResponse (withAuthorization : bool) (fallback : string)
    (error : Thrown) : Response :=
  if isAuthenticationError error
     || (withAuthorization && isAuthorizationError error)
  then mkResponse (if Js.falsy_num (err_statusCode error) then 401%Z
                   else default 401%Z (err_statusCode error))
                  false false
                  (Some (if Js.falsy_str (err_code error) then "AUTH_ERROR"
                         else default "AUTH_ERROR" (err_code error)))
                  (Some (err_message error)) NoPayload
  else if negb (Js.falsy_num (err_statusCode error))
  then mkResponse (default 500%Z (err_statusCode error)) false false
                  (err_code error) (Some (err_message error)) NoPayload
  else mkResponse 500%Z false false (Some "INTERNAL_ERROR") (Some fallback)
                  NoPayload.

End Http.
Export Http.

(* ------------------------------------------------------------------------- *)
(** ** lib/goalValidation.js *)
(* ------------------------------------------------------------------------- *)

Module GoalValidation.

Definition statusName (s : GoalStatus) : string :=
  match s with
  | ACTIVE => "ACTIVE"
  | PAUSED => "PAUSED"
  | COMPLETED => "COMPLETED"
  end.

Definition statusOfName (s : string) : option GoalStatus :=
  if String.eqb s "ACTIVE" then Some ACTIVE
  else if String.eqb s "PAUSED" then Some PAUSED
  else if String.eqb s "COMPLETED" then Some COMPLETED
  else None.

Definition INVALID_STATUS_TRANSITION : Thrown :=
  GoalErrors "INVALID_STATUS_TRANSITION".

(** The table [validTransitions] of the source. *)
Definition validTransitions (currentStatus : GoalStatus) : list string :=
  match currentStatus with
  | ACTIVE => ["PAUSED"]
  | PAUSED => ["ACTIVE"]
  | COMPLETED => []
  end.

Definition validateStatusTransition (currentStatus : GoalStatus)
    (newStatus : string) : Result unit :=
  if String.eqb newStatus "COMPLETED"
  then Err INVALID_STATUS_TRANSITION
  else if negb (existsb (String.eqb newStatus) (validTransitions currentStatus))
  then Err INVALID_STATUS_TRANSITION
  else Ok tt.

(** [Math.round(x)] on an exact number. *)
Definition round (x : Q) : Z := Qfloor (x + (1 # 2))%Q.

Definition calculateProgress (investedAmount targetAmount : Q) : Q :=
  if Qle_bool targetAmount 0 then 0%Q
  else
    let progress := (investedAmount / targetAmount * 100)%Q in
    let rounded := (inject_Z (round (progress * 100)) / 100)%Q in
    if Qle_bool rounded 100 then rounded else 100%Q.

Definition shouldAutoComplete (investedAmount targetAmount : Q) : bool :=
  Qle_bool targetAmount investedAmount.

End GoalValidation.
Export GoalValidation.


(* ------------------------------------------------------------------------- *)
(** ** app/api/goals/[id]/route.js *)
(* ------------------------------------------------------------------------- *)

Module GoalsRoute.

Record PatchBody : Type := mkPatchBody {
  p_amountPerInterval : option Q;
  p_frequency : option string;
  p_status : option string
}.

Definition frequencyOfName (s : string) : option Frequency :=
  if String.eqb s "DAILY" then Some DAILY
  else if String.eqb s "WEEKLY" then Some WEEKLY
  else if String.eqb s "MONTHLY" then Some MONTHLY
  else None.

Definition set_amountPerInterval (a : Q) (g : Goal) : Goal :=
  mkGoal (g_id g) (g_userId g) (g_coin g) (g_targetAmount g)
         (g_investedAmount g) a (g_frequency g) (g_status g).

Definition set_frequency (f : Frequency) (g : Goal) : Goal :=
  mkGoal (g_id g) (g_userId g) (g_coin g) (g_targetAmount g)
         (g_investedAmount g) (g_amountPerInterval g) f (g_status g).

Definition rejectedByDriver : Thrown :=
  Foreign "PrismaClientValidationError" "Invalid value for enum column".

(** The [updates] object built from the request body, as the function it
    applies to the stored row. *)
Definition collectUpdates (goal : Goal) (body : PatchBody) : M (Goal -> Goal) :=
  u1 <-- match p_amountPerInterval body with
         | None => ret (fun g => g)
         | Some a =>
             throw_if (negb (Qle_bool 10 a)) (GoalErrors "INVALID_AMOUNT") ;;;
             ret (set_amountPerInterval a)
         end ;;
  u2 <-- match p_frequency body with
         | None => ret (fun g => g)
         | Some f =>
             match frequencyOfName f with
             | None => throw (GoalErrors "INVALID_FREQUENCY")
             | Some f => ret (set_frequency f)
             end
         end ;;
  u3 <-- match p_status body with
         | None => ret (fun g => g)
         | Some s =>
             await (validateStatusTransition (g_status goal) s) ;;;
             match statusOfName s with
             | None => throw rejectedByDriver
             | Some st => ret (set_status st)
             end
         end ;;
  ret (fun g => u3 (u2 (u1 g))).

Definition PATCH (env : Env) (goalId : string) (body : PatchBody) : M Response :=
  try_catch
    (user <-- requireAuth env ;;
     goal <-- prisma_goal_findFirst env goalId (u_id user) ;;
     match goal with
     | None => throw (GoalErrors "GOAL_NOT_FOUND")
     | Some goal =>
         throw_if (status_eqb (g_status goal) COMPLETED)
                  (GoalErrors "GOAL_ALREADY_COMPLETED") ;;;
         updates <-- collectUpdates goal body ;;
         updatedGoal <-- prisma_goal_update env GoalUpdate goalId updates ;;
         throw_if (negb (bool_decide (is_Some (getTokenInfo env (g_coin updatedGoal)))))
           (Foreign "TypeError" "Cannot read properties of undefined") ;;;
         ret (success 200
                (GoalPayload updatedGoal
                   (calculateProgress (g_investedAmount updatedGoal)
                                      (g_targetAmount updatedGoal))))
     end)
    (fun error =>
       logger LError "Goal update failed" ;;;
       ret (errorResponse true "Failed to update goal" error)).

Definition prisma_goal_delete (env : Env) (id : string) : M unit :=
  faulty env GoalDelete
    (d <-- get_db ;;
     match goals d !! id with
     | None => throw notFound
     | Some _ => put_db (with_goals d (delete id (goals d)))
     end).

Definition DELETE (env : Env) (goalId : string) : M Response :=
  try_catch
    (user <-- requireAuth env ;;
     goal <-- prisma_goal_findFirst env goalId (u_id user) ;;
     match goal with
     | None => throw (GoalErrors "GOAL_NOT_FOUND")
     | Some _ =>
         prisma_goal_delete env goalId ;;;
         ret (success 200 DeletedPayload)
     end)
    (fun error =>
       logger LError "Goal deletion failed" ;;;
       ret (errorResponse true "Failed to delete goal" error)).

End GoalsRoute.

(** *** PATCH, block by block *)

Module GoalsRouteSteps.

Import GoalsRoute.

(** The [try] block of PATCH. *)
Definition PATCH_try (env : Env) (goalId : string) (body : PatchBody)
  : M Response :=
  user <-- requireAuth env ;;
  goal <-- prisma_goal_findFirst env goalId (u_id user) ;;
  match goal with
  | None => throw (GoalErrors "GOAL_NOT_FOUND")
  | Some goal =>
      throw_if (status_eqb (g_status goal) COMPLETED)
               (GoalErrors "GOAL_ALREADY_COMPLETED") ;;;
      updates <-- collectUpdates goal body ;;
      updatedGoal <-- prisma_goal_update env GoalUpdate goalId updates ;;
      throw_if (negb (bool_decide (is_Some (getTokenInfo env (g_coin updatedGoal)))))
        (Foreign "TypeError" "Cannot read properties of undefined") ;;;
      ret (success 200
             (GoalPayload updatedGoal
                (calculateProgress (g_investedAmount updatedGoal)
                                   (g_targetAmount updatedGoal))))
  end.

(** The [catch] block of PATCH. *)
Definition PATCH_catch (error : Thrown) : M Response :=
  logger LError "Goal update failed" ;;;
  ret (errorResponse true "Failed to update goal" error).

(** The checks of the body that come before the status: an amount, when
    given, of at least 10, and a frequency, when given, that is known. *)
Definition amountPasses (body : PatchBody) : Prop :=
  match p_amountPerInterval body with
  | Some a => (10 <= a)%Q
  | None => True
  end.

Definition frequencyPasses (body : PatchBody) : Prop :=
  match p_frequency body with
  | Some f => is_Some (frequencyOfName f)
  | None => True
  end.

End GoalsRouteSteps.

(* ------------------------------------------------------------------------- *)
(** ** app/api/invest/execute/route.js *)
(* ------------------------------------------------------------------------- *)

Module InvestExecute.

Record QuoteResponse : Type := mkQuoteResponse {
  outAmount : Z;
  quoteId : option string
}.

Record Body : Type := mkBody {
  goalId : option string;
  batchId : option string;
  signedTransaction : option string;
  quoteResponse : option QuoteResponse;
  lastValidBlockHeight : option Z
}.

(** The route exists in two revisions that differ only in
    [submitAndConfirm]: the later one refuses a transaction whose validity
    window has already closed before handing it to the network, and writes
    an error line when the transaction cannot be deserialized or
    confirmed. *)
Inductive Revision : Type := Plain | HeightChecked.

(** Modelled from the spec: [fromSmallestUnits] of [lib/tokens.js] is not
    among the sources; it converts base units to the human-readable amount
    with the asset's declared decimal precision, that is, divides by ten to
    the power [decimals] (the same expression the swap card writes inline). *)
Definition fromSmallestUnits (amount : Z) (decimals : nat) : Q :=
  (inject_Z amount / inject_Z (10 ^ Z.of_nat decimals))%Q.

Definition heightExpired (lastValidBlockHeight : option Z) (slot : Z) : bool :=
  negb (Js.falsy_num lastValidBlockHeight)
  && (default 0%Z lastValidBlockHeight <=? slot)%Z.

(** The block-height look before submission: an expired window is a
    validation error; failing to read the height is only a warning. *)
Definition checkBlockHeight (env : Env) (lastValidBlockHeight : option Z)
  : M unit :=
  try_catch
    (slot <-- await (getSlot env) ;;
     if heightExpired lastValidBlockHeight slot
     then logger LError "[INVEST] Block height already exceeded before submission" ;;;
          throw (ValidationError
                   ("Transaction block height expired: current "
                    ++ Js.numberToString slot ++ " >= lastValid "
                    ++ Js.numberToString (default 0%Z lastValidBlockHeight)))
     else ret tt)
    (fun blockHeightError =>
       if isValidationError blockHeightError
       then throw blockHeightError
       else logger LWarn "[INVEST] Failed to get current block height").

(** [connection.sendRawTransaction]: the buffer is handed to the node,
    which answers with a signature or an error. *)
Definition sendRaw (env : Env) (tx : string) : M string :=
  fun w =>
    (mkWorld (db w) (submitted w ++ [tx]) (logs w), sendRawTransaction env tx).

Definition submitAndConfirm (rev : Revision) (env : Env)
    (signedTransaction : option string) (lastValidBlockHeight : option Z)
  : M string :=
  throw_if (Js.falsy_str signedTransaction)
    (ValidationError "Invalid signed transaction: must be a base64 string") ;;;
  let signed := default EmptyString signedTransaction in
  throw_if (negb (Js.base64_regex signed))
    (ValidationError "swapTransaction is not valid base64") ;;;
  throw_if (Nat.eqb (bufferLength env signed) 0)
    (ValidationError "Invalid signed transaction: empty buffer") ;;;
  transaction <-- try_catch (await (deserialize env signed))
                    (fun deserializeError =>
                       match rev with
                       | Plain => ret tt
                       | HeightChecked =>
                           logger LError "[INVEST] Transaction deserialization failed"
                       end ;;;
                       throw (ValidationError
                                ("Transaction deserialization failed: "
                                 ++ err_message deserializeError))) ;;
  let blockhash := tx_recentBlockhash transaction in
  match rev with
  | Plain => ret tt
  | HeightChecked => checkBlockHeight env lastValidBlockHeight
  end ;;;
  signature <-- sendRaw env signed ;;
  try_catch (await (confirmTransaction env signature))
    (fun confirmError =>
       match rev with
       | Plain => throw confirmError
       | HeightChecked =>
           logger LError "[INVEST] Transaction confirmation failed" ;;;
           throw confirmError
       end) ;;;
  ret signature.

(** What the handler has in hand when it reaches the network call. *)
Record Looked : Type := mkLooked {
  lk_goal : Goal;
  lk_batchId : string;
  lk_signed : option string;
  lk_quote : QuoteResponse;
  lk_lastValid : option Z;
  lk_token : TokenInfo;
  lk_outputAmount : Q;
  lk_swap : option Transaction
}.

Definition confirmedMeta (q : QuoteResponse) : TxnMeta :=
  mkTxnMeta "SWAP_CONFIRMED" (quoteId q) false None.

Definition networkName (env : Env) : string :=
  if String.eqb (getNetwork env) "devnet" then "DEVNET" else "MAINNET".

(** The [data] of the update of an existing row. *)
Definition stamp (signature : string) (c : Looked) (t : Transaction)
  : Transaction :=
  mkTransaction (t_id t) (t_goalId t) (t_batchId t) (t_type t) (t_provider t)
    (t_network t) (Some signature) (t_amountUsd t) (lk_outputAmount c)
    (tk_mint (lk_token c)) (confirmedMeta (lk_quote c)).

(** The [data] of the creation of a new row. *)
Definition newSwapRow (env : Env) (signature : string) (c : Looked)
  : Transaction :=
  mkTransaction (newRowId env) (g_id (lk_goal c)) (lk_batchId c) SWAP
    "JUPITER" (networkName env) (Some signature) None (lk_outputAmount c)
    (tk_mint (lk_token c)) (confirmedMeta (lk_quote c)).

(** From authentication to the lookup of the swap row. *)
Definition POST_lookup (env : Env) (body : Body) : M Looked :=
  user <-- requireAuth env ;;
  throw_if (Js.falsy_str (goalId body) || Js.falsy_str (batchId body)
            || Js.falsy_str (signedTransaction body)
            || negb (bool_decide (is_Some (quoteResponse body))))
    (ValidationError
       "Missing required fields: goalId, batchId, signedTransaction, quoteResponse") ;;;
  match quoteResponse body with
  | None => throw (Foreign "TypeError" "quoteResponse is undefined")
  | Some quote =>
      goal <-- prisma_goal_findFirst env (default EmptyString (goalId body)) (u_id user) ;;
      match goal with
      | None => throw (SwapErrors "INVALID_WALLET")
      | Some goal =>
          throw_if (negb (status_eqb (g_status goal) ACTIVE))
            (ValidationError "Goal must be ACTIVE to execute investment") ;;;
          outputTokenInfo <-- await (getTokenMint env (g_coin goal)) ;;
          let outputAmount :=
            fromSmallestUnits (outAmount quote) (tk_decimals outputTokenInfo) in
          swapTransaction <--
            prisma_transaction_findFirst env (default EmptyString (batchId body)) SWAP ;;
          ret (mkLooked goal (default EmptyString (batchId body)) (signedTransaction body)
                        quote (lastValidBlockHeight body) outputTokenInfo
                        outputAmount swapTransaction)
      end
  end.

(** From the network call to the response. *)
Definition POST_settle (rev : Revision) (env : Env) (c : Looked) : M Response :=
  signature <-- submitAndConfirm rev env (lk_signed c) (lk_lastValid c) ;;
  swapTransaction <--
    match lk_swap c with
    | Some existing =>
        prisma_transaction_update env (t_id existing) (stamp signature c)
    | None =>
        prisma_transaction_create env (newSwapRow env signature c)
    end ;;
  updatedGoal <--
    prisma_goal_update env GoalIncrement (g_id (lk_goal c))
      (increment (lk_outputAmount c)) ;;
  updatedGoal <--
    (if Qle_bool (g_targetAmount updatedGoal) (g_investedAmount updatedGoal)
     then prisma_goal_update env GoalSetStatus (g_id (lk_goal c))
            (set_status COMPLETED) ;;;
          ret (set_status COMPLETED updatedGoal)
     else ret updatedGoal) ;;
  let progress :=
    calculateProgress (g_investedAmount updatedGoal) (g_targetAmount updatedGoal) in
  await (sendInvestmentNotification env) ;;;
  ret (success 200 (ExecutePayload (lk_outputAmount c) signature)).

Definition onError (error : Thrown) : M Response :=
  logger LError "[INVEST] Failed to execute investment" ;;;
  ret (errorResponse false "Failed to execute investment" error).

Definition POST (rev : Revision) (env : Env) (body : Body) : M Response :=
  try_catch
    (c <-- POST_lookup env body ;;
     POST_settle rev env c)
    onError.

End InvestExecute.


(* ------------------------------------------------------------------------- *)
(** ** app/api/invest/prepare/route.js *)
(* ------------------------------------------------------------------------- *)

Module InvestPrepare.

Record Body : Type := mkBody {
  goalId : option string;
  amountUsd : option Q
}.

(** The two revisions of the route: the amount is an amount of SOL, or an
    amount of USDC priced at a fixed rate. *)
Inductive Revision : Type := SolInput | UsdcInput.

Definition MIN_AMOUNT (rev : Revision) : Q :=
  match rev with
  | SolInput => (1 # 100)%Q
  | UsdcInput => (1 # 100000)%Q
  end.

Definition SLIPPAGE_BPS : Z := 50.
Definition SOL_FEE_BUFFER : Q := (1 # 100)%Q.
Definition APPROXIMATE_SOL_PRICE_USD : Q := 100%Q.

Definition estimatedSolNeeded (rev : Revision) (amount : Q) : Q :=
  match rev with
  | SolInput => (amount + SOL_FEE_BUFFER)%Q
  | UsdcInput => (amount / APPROXIMATE_SOL_PRICE_USD + SOL_FEE_BUFFER)%Q
  end.

Definition inputCoin (rev : Revision) : string :=
  match rev with
  | SolInput => "SOL"
  | UsdcInput => "USDC"
  end.

(** [!amountUsd || amountUsd < MIN] for a body field that is a number or
    missing. *)
Definition amountRejected (rev : Revision) (amount : option Q) : bool :=
  match amount with
  | None => true
  | Some a => Qeq_bool a 0 || negb (Qle_bool (MIN_AMOUNT rev) a)
  end.

(** Modelled from the spec: [ensureIdempotency] of [lib/idempotency.js] is
    not among the sources.  If a record for [(batchId, kind)] already exists,
    it is returned without running [operation]; otherwise [operation] runs
    and its result is what was persisted; if [operation] fails, nothing is
    persisted. *)
Definition ensureIdempotency (env : Env) (batchId : string)
    (kind : TransactionType) (operation : M Transaction) : M Transaction :=
  existing <-- prisma_transaction_findFirst env batchId kind ;;
  match existing with
  | Some record => ret record
  | None => prisma_transaction operation
  end.

Definition onrampRow (rev : Revision) (env : Env) (goal : Goal)
    (batchId : string) (amount : Q) (mint : string) (wallet : string)
  : Transaction :=
  mkTransaction (newRowId env) (g_id goal) batchId ONRAMP "FAUCET"
    (if String.eqb (getNetwork env) "devnet" then "DEVNET" else "MAINNET")
    (Some ("sim_" ++ nanoid env))
    (Some match rev with
          | SolInput => (amount * 100)%Q
          | UsdcInput => amount
          end)
    amount mint
    (mkTxnMeta "ONRAMP_CONFIRMED" None true (Some wallet)).

Definition onError (error : Thrown) : M Response :=
  logger LError "[INVEST] Failed to prepare investment" ;;;
  ret (errorResponse false "Failed to prepare investment" error).

Definition POST (rev : Revision) (env : Env) (body : Body) : M Response :=
  try_catch
    (user <-- requireAuth env ;;
     throw_if (negb (checkRateLimit env)) (SwapErrors "NETWORK_ERROR") ;;;
     throw_if (Js.falsy_str (goalId body)) (ValidationError "goalId is required") ;;;
     throw_if (amountRejected rev (amountUsd body))
       (ValidationError match rev with
                        | SolInput => "Amount must be at least 0.01 SOL"
                        | UsdcInput => "amountUsd must be at least 0.00001 USDC"
                        end) ;;;
     let amount := default 0%Q (amountUsd body) in
     goal <-- prisma_goal_findFirst env (default EmptyString (goalId body)) (u_id user) ;;
     match goal with
     | None => throw (SwapErrors "INVALID_WALLET")
     | Some goal =>
         throw_if (negb (status_eqb (g_status goal) ACTIVE))
           (ValidationError "Goal must be ACTIVE to invest") ;;;
         throw_if (Js.falsy_str (u_walletAddress user)) (SwapErrors "INVALID_WALLET") ;;;
         let wallet := default EmptyString (u_walletAddress user) in
         let batchId := nanoid env in
         solBalance <-- await (getBalance env) ;;
         throw_if (negb (Qle_bool (estimatedSolNeeded rev amount)
                                  (inject_Z solBalance / 1000000000)%Q))
           (ValidationError "Insufficient SOL balance") ;;;
         let inputMintInfo := TOKEN_MINTS env (inputCoin rev) in
         onrampTransaction <--
           ensureIdempotency env batchId ONRAMP
             (prisma_transaction_create env
                (onrampRow rev env goal batchId amount (tk_mint inputMintInfo) wallet)) ;;
         inputTokenInfo <-- await (getTokenMint env (inputCoin rev)) ;;
         outputTokenInfo <-- await (getTokenMint env (g_coin goal)) ;;
         await (ensureOutputAccount env) ;;;
         quote <-- await (getSwapQuote env) ;;
         swapData <-- await (getSwapTransaction env) ;;
         let outputAmount :=
           InvestExecute.fromSmallestUnits (fst quote) (tk_decimals outputTokenInfo) in
         try_catch (slot <-- await (getSlot env) ;; ret tt)
                   (fun _ => logger LWarn "[INVEST] Failed to get current block height") ;;;
         ret (success 200
                (PreparePayload outputAmount (fst swapData) (snd swapData) batchId))
     end)
    onError.

End InvestPrepare.


(* ------------------------------------------------------------------------- *)
(** ** app/api/internal/solana-transfer/route.js (submit side) *)
(* ------------------------------------------------------------------------- *)

Module InternalTransferRoute.

Record Body : Type := mkBody {
  mode : option string;
  batchId : option string;
  signedTransaction : option string;
  expectedFromAddress : option string
}.

(** [ensureAdmin(user)] of [lib/auth.js], the allowlists already split,
    trimmed and (for emails) lower-cased. *)
Definition ensureAdmin (env : Env) (user : User) : M unit :=
  let isEmailAllowed :=
    match u_email user with
    | None => false
    | Some e =>
        negb (String.eqb e EmptyString)
        && existsb (String.eqb (Js.toLowerCase e)) (adminEmailAllowlist env)
    end in
  let isIdAllowed :=
    negb (String.eqb (u_id user) EmptyString)
    && existsb (String.eqb (u_id user)) (adminUserIdAllowlist env) in
  throw_if (negb isEmailAllowed && negb isIdAllowed)
    (AuthorizationError "Administrator access required").

Definition isBlockhashExpiredError (error : Thrown) : bool :=
  let name := Js.toLowerCase (err_name error) in
  let message := Js.toLowerCase (err_message error) in
  if Js.includes name "transactionexpiredblockheightexceedederror"
  then true
  else Js.includes message "blockhash not found"
       || (Js.includes message "blockhash" && Js.includes message "expired")
       || Js.includes message "block height exceeded".

(** [Number(lamports)] for a stored amount below 2^63 lamports. *)
Definition lamportsNumber (lamports : Z) : float :=
  PrimFloat.of_uint63 (Uint63.of_Z lamports).

(** [amountSol] is [lamportsNumber / LAMPORTS_PER_SOL], a division of the
    source language's numbers. *)
Definition formatTransferResponse (sourceAddress destinationAddress : string)
    (lamports : Z) (memo : option string) (u : UnsignedTransfer)
  : TransferPayload :=
  mkTransferPayload sourceAddress destinationAddress lamports
    (lamportsNumber lamports / lamportsNumber 1000000000)%float
    (if Js.falsy_str memo then None else memo)
    (ut_unsignedTransaction u) (ut_feeEstimateLamports u)
    (ut_lastValidBlockHeight u) (ut_recentBlockhash u).

Definition buildUnsignedTransfer (env : Env)
    (sourceAddress destinationAddress : string) (lamports : Z)
  : M UnsignedTransfer :=
  await (buildTransfer env sourceAddress destinationAddress lamports).

(** [submitTransaction]: send, then read the latest blockhash. *)
Definition submitTransaction (env : Env) (tx : string)
  : M (string * (string * Z)) :=
  signature <-- InvestExecute.sendRaw env tx ;;
  latest <-- await (getLatestBlockhash env) ;;
  ret (signature, latest).

(** The metadata written by a refresh: the previous keys, with the new
    anchor, the new counter and the reason on top. *)
Definition refreshedMetadata (env : Env) (previous : TransferMetadata)
    (u : UnsignedTransfer) : TransferMetadata :=
  let refreshCount :=
    ((if Js.falsy_num (md_refreshCount previous) then 0
      else default 0 (md_refreshCount previous)) + 1)%Z in
  mkTransferMetadata
    (ut_feeEstimateLamports u)
    (Some (ut_lastValidBlockHeight u))
    (Some (ut_recentBlockhash u))
    (md_preparedAt previous)
    (Some refreshCount)
    (Some "BLOCKHASH_EXPIRED")
    (Some (now env))
    (md_submittedAt previous)
    (md_adminUserId previous)
    (md_requestId previous)
    (md_failureAt previous)
    (md_error previous).

Definition refreshRow (m : TransferMetadata) (r : InternalTransfer)
  : InternalTransfer :=
  mkInternalTransfer (it_batchId r) (it_adminUserId r) (it_sourceUserId r)
    (it_sourceAddress r) (it_destinationAddress r) (it_lamports r) (it_memo r)
    None PREPARED (Some m).

Definition refreshExpiredTransfer (env : Env) (batchId adminUserId : string)
  : M TransferPayload :=
  existing <-- prisma_internalTransfer_findUnique env batchId ;;
  match existing with
  | None => throw (ValidationError "Internal transfer not found for refresh")
  | Some existing =>
      let lamportsValue := it_lamports existing in
      throw_if (lamportsValue <=? 0)%Z
        (ValidationError "Stored transfer amount is invalid for refresh") ;;;
      unsignedTransfer <--
        buildUnsignedTransfer env (it_sourceAddress existing)
          (it_destinationAddress existing) lamportsValue ;;
      let previousMetadata := default emptyMetadata (it_metadata existing) in
      let updatedMetadata :=
        refreshedMetadata env previousMetadata unsignedTransfer in
      prisma_internalTransfer_update env batchId (refreshRow updatedMetadata) ;;;
      logger LWarn
        "Internal SOL transfer blockhash expired. Refreshed transaction payload." ;;;
      ret (formatTransferResponse (it_sourceAddress existing)
             (it_destinationAddress existing) lamportsValue (it_memo existing)
             unsignedTransfer)
  end.

Definition submittedRow (env : Env) (signature adminUserId : string)
    (existing : option InternalTransfer) (r : InternalTransfer)
  : InternalTransfer :=
  let previous :=
    default emptyMetadata (mbind it_metadata existing) in
  mkInternalTransfer (it_batchId r) (it_adminUserId r) (it_sourceUserId r)
    (it_sourceAddress r) (it_destinationAddress r) (it_lamports r) (it_memo r)
    (Some signature) SUBMITTED
    (Some (mkTransferMetadata
             (md_feeEstimateLamports previous) (md_lastValidBlockHeight previous)
             (md_recentBlockhash previous) (md_preparedAt previous)
             (md_refreshCount previous) (md_lastRefreshReason previous)
             (md_refreshedAt previous)
             (Some (now env)) (Some adminUserId) (Some (requestId env))
             (md_failureAt previous) (md_error previous))).

(** [markTransferSubmitted]: a failure of the bookkeeping is logged as a
    warning and goes no further. *)
Definition markTransferSubmitted (env : Env) (batchId signature adminUserId : string)
  : M unit :=
  try_catch
    (existing <-- prisma_internalTransfer_findUnique env batchId ;;
     prisma_internalTransfer_update env batchId
       (submittedRow env signature adminUserId existing) ;;;
     ret tt)
    (fun error => logger LWarn "Unable to mark transfer as submitted").

Definition failedRow (env : Env) (error : string)
    (existing : option InternalTransfer) (r : InternalTransfer)
  : InternalTransfer :=
  let previous :=
    default emptyMetadata (mbind it_metadata existing) in
  mkInternalTransfer (it_batchId r) (it_adminUserId r) (it_sourceUserId r)
    (it_sourceAddress r) (it_destinationAddress r) (it_lamports r) (it_memo r)
    (it_signature r) FAILED
    (Some (mkTransferMetadata
             (md_feeEstimateLamports previous) (md_lastValidBlockHeight previous)
             (md_recentBlockhash previous) (md_preparedAt previous)
             (md_refreshCount previous) (md_lastRefreshReason previous)
             (md_refreshedAt previous) (md_submittedAt previous)
             (md_adminUserId previous) (md_requestId previous)
             (Some (now env)) (Some error))).

(** [markTransferFailed]: same shape, with the failure reason stored. *)
Definition markTransferFailed (env : Env) (batchId : string) (error : string)
  : M unit :=
  try_catch
    (existing <-- prisma_internalTransfer_findUnique env batchId ;;
     prisma_internalTransfer_update env batchId (failedRow env error existing) ;;;
     ret tt)
    (fun updateError => logger LWarn "Unable to mark transfer as failed").

Definition expiredResponse (batchId : string) (transfer : TransferPayload)
  : Response :=
  mkResponse 409 false true (Some "BLOCKHASH_EXPIRED")
    (Some "Transaction blockhash expired before submission. A refreshed payload is ready to sign.")
    (RefreshedPayload batchId transfer).

Definition handleSubmitMode (env : Env) (body : Body) (batchId : string)
    (adminUser : User) : M Response :=
  throw_if (Js.falsy_str (signedTransaction body))
    (ValidationError "signedTransaction must be a base64-encoded string") ;;;
  let signed := default EmptyString (signedTransaction body) in
  throw_if (negb (Js.base64_regex signed))
    (ValidationError "signedTransaction must be valid base64") ;;;
  transaction <-- try_catch (await (deserialize env signed))
                    (fun error =>
                       throw (ValidationError
                                ("Failed to deserialize signed transaction: "
                                 ++ err_message error))) ;;
  throw_if (Js.falsy_str (tx_feePayer transaction))
    (ValidationError "Unable to determine fee payer from transaction") ;;;
  throw_if (negb (Js.falsy_str (expectedFromAddress body))
            && negb (bool_decide (expectedFromAddress body = tx_feePayer transaction)))
    (ValidationError "Signed transaction fee payer does not match expected from address") ;;;
  try_catch
    (sent <-- submitTransaction env signed ;;
     markTransferSubmitted env batchId (fst sent) (u_id adminUser) ;;;
     ret (success 201 (SubmittedPayload batchId (fst sent))))
    (fun error =>
       if isBlockhashExpiredError error
       then
         refreshedTransfer <-- refreshExpiredTransfer env batchId (u_id adminUser) ;;
         ret (expiredResponse batchId refreshedTransfer)
       else
         markTransferFailed env batchId
           (if String.eqb (err_message error) EmptyString then "Unknown error"
            else err_message error) ;;;
         throw error).

(** The route entry.  The prepare side is a parameter: only the way the
    entry dispatches to it and catches what it throws matters here.  The
    body of an error answer is built by [formatErrorResponse] of
    [lib/errors.js], which is not among the sources: the answer keeps the
    status, which the route computes itself, and no code or message. *)
Definition POST (env : Env) (handlePrepareMode : string -> User -> M Response)
    (body : Body) : M Response :=
  try_catch
    (user <-- requireAuth env ;;
     ensureAdmin env user ;;;
     let m :=
       Js.toLowerCase
         (if Js.falsy_str (mode body)
          then (if Js.falsy_str (signedTransaction body) then "prepare" else "submit")
          else default EmptyString (mode body)) in
     let batchId :=
       if Js.falsy_str (batchId body) then randomUUID env
       else default EmptyString (batchId body) in
     throw_if (negb (String.eqb m "prepare" || String.eqb m "submit"))
       (ValidationError "mode must be either 'prepare' or 'submit'") ;;;
     throw_if (String.eqb batchId EmptyString) (ValidationError "batchId is required") ;;;
     if String.eqb m "prepare"
     then handlePrepareMode batchId user
     else handleSubmitMode env body batchId user)
    (fun error =>
       logger LError "Internal transfer API failed" ;;;
       ret (mkResponse (if Js.falsy_num (err_statusCode error) then 500%Z
                        else default 500%Z (err_statusCode error))
                       false false None None NoPayload)).

End InternalTransferRoute.


(* ------------------------------------------------------------------------- *)
(** ** components/SwapCard.js: amounts and slippage *)
(* ------------------------------------------------------------------------- *)

Module SwapCard.

(** An integer below 2^63 as a number of the source language. *)
Definition number (z : Z) : float := PrimFloat.of_uint63 (Uint63.of_Z z).

(** [Math.pow(10, d)], exact for the precisions in use. *)
Definition pow10 (d : nat) : float := number (10 ^ Z.of_nat d).

(** [parseFloat] of a decimal literal with [k] fractional digits whose digits
    read as the integer [n]: the nearest number to [n / 10^k], which is what
    the correctly rounded quotient of the two exact operands gives. *)
Definition parseDecimal (n : Z) (k : nat) : float := (number n / pow10 k)%float.

(** [Math.floor] on a finite number; [None] for NaN and the infinities. *)
Definition Math_floor (x : float) : option Z :=
  match Prim2SF x with
  | S754_zero _ => Some 0%Z
  | S754_finite s m e => Some (Z.shiftl (if s then Z.neg m else Z.pos m) e)
  | S754_infinity _ => None
  | S754_nan => None
  end.

(** [decimals || 9] *)
Definition decimalsOr9 (decimals : nat) : nat :=
  if Nat.eqb decimals 0 then 9%nat else decimals.

(** [Math.floor(parseFloat(fromAmount) * Math.pow(10, fromToken.decimals || 9))],
    the amount sent with a quote request. *)
Definition amountInSmallestUnits (fromAmount : float) (decimals : nat)
  : option Z :=
  Math_floor (fromAmount * pow10 (decimalsOr9 decimals))%float.

(** [outAmount / Math.pow(10, decimals)], the way back. *)
Definition amountFromSmallestUnits (units : Z) (decimals : nat) : float :=
  (number units / pow10 (decimalsOr9 decimals))%float.

(** The exact value of a finite number, as a rational. *)
Definition exact (x : float) : option Q :=
  match Prim2SF x with
  | S754_zero _ => Some 0%Q
  | S754_finite s m e =>
      let z := if s then Z.neg m else Z.pos m in
      Some (if (0 <=? e)%Z then inject_Z (z * 2 ^ e)
            else (inject_Z z / inject_Z (2 ^ (- e)))%Q)
  | S754_infinity _ => None
  | S754_nan => None
  end.

Record SlippageOption : Type := mkSlippageOption {
  so_id : string;
  so_value : string;
  so_bps : Z
}.

Definition SLIPPAGE_OPTIONS : list SlippageOption :=
  [ mkSlippageOption "slip1" "0.5%" 50;
    mkSlippageOption "slip2" "1%" 100;
    mkSlippageOption "slip3" "1.5%" 150;
    mkSlippageOption "slip4" "2%" 200 ].

(** [useState(SLIPPAGE_OPTIONS[0])] *)
Definition initialSlippage : SlippageOption :=
  mkSlippageOption "slip1" "0.5%" 50.

(** What can change the selected tolerance: a click on one of the rendered
    options, or a retryable answer of the server carrying [newSlippageBps]. *)
Inductive SlippageEvent : Type :=
| Clicked (index : nat)
| RetryableAnswer (newSlippageBps : option Z).

Definition onSlippageEvent (selected : SlippageOption) (e : SlippageEvent)
  : SlippageOption :=
  match e with
  | Clicked i => default selected (SLIPPAGE_OPTIONS !! i)
  | RetryableAnswer b =>
      if Js.falsy_num b then selected
      else
        match List.find (fun opt => (so_bps opt =? default 0 b)%Z)
                        SLIPPAGE_OPTIONS with
        | Some newSlippageOption => newSlippageOption
        | None => selected
        end
  end.

(** The tolerance a quote request carries after a run of events. *)
Definition selectedAfter (events : list SlippageEvent) : SlippageOption :=
  fold_left onSlippageEvent events initialSlippage.

End SwapCard.

(* ------------------------------------------------------------------------- *)
(** ** The slippage escalation policy *)
(* ------------------------------------------------------------------------- *)

Module SlippagePolicy.

(** The ladder is the list of tolerances the swap card offers. *)
Definition ladder : list Z := List.map SwapCard.so_bps SwapCard.SLIPPAGE_OPTIONS.

Definition ceiling : Z := 200.

Inductive Escalation : Type :=
| Requote (newSlippageBps : Z)
| Terminal.

(** Modelled from the spec: the server side of the escalation
    ([app/api/swap/execute/route.js]) is not among the sources.  On a
    rejection classified as slippage exceeded, the swap is quoted again at
    the next step of the ascending ladder; when no step is left below or at
    the ceiling, the error is terminal and not retryable. *)
Definition escalate (currentBps : Z) : Escalation :=
  match List.find (fun step => (currentBps <? step)%Z && (step <=? ceiling)%Z)
                  ladder with
  | Some step => Requote step
  | None => Terminal
  end.

(** The tolerances requested along a run of consecutive slippage
    rejections, starting from [currentBps], until the policy gives up. *)
Fixpoint escalations (fuel : nat) (currentBps : Z) : list Z :=
  match fuel with
  | O => []
  | S fuel =>
      match escalate currentBps with
      | Requote step => step :: escalations fuel step
      | Terminal => []
      end
  end.

End SlippagePolicy.

(* ------------------------------------------------------------------------- *)
(** ** More source-language helpers *)
(* ------------------------------------------------------------------------- *)

Module JsText.

(** The white space and line terminators of ASCII text. *)
Definition is_space (c : ascii) : bool :=
  ((9 <=? nat_of_ascii c)%nat && (nat_of_ascii c <=? 13)%nat)
  || (nat_of_ascii c =? 32)%nat.

Fixpoint trimStart (s : string) : string :=
  match s with
  | EmptyString => EmptyString
  | String c r => if is_space c then trimStart r else s
  end.

Fixpoint trimEnd (s : string) : string :=
  match s with
  | EmptyString => EmptyString
  | String c r =>
      match trimEnd r with
      | EmptyString => if is_space c then EmptyString else String c EmptyString
      | String c' r' => String c (String c' r')
      end
  end.

(** [s.trim()] *)
Definition trim (s : string) : string := trimEnd (trimStart s).

Definition upper_char (c : ascii) : ascii :=
  if Js.is_lower c then ascii_of_nat (nat_of_ascii c - 32) else c.

(** [s.toUpperCase()] on ASCII text. *)
Fixpoint toUpperCase (s : string) : string :=
  match s with
  | EmptyString => EmptyString
  | String c r => String (upper_char c) (toUpperCase r)
  end.

(** [s.split(sep)] for a separator of one character. *)
Fixpoint split (sep : ascii) (s : string) : list string :=
  match s with
  | EmptyString => [EmptyString]
  | String c r =>
      if Ascii.eqb c sep then EmptyString :: split sep r
      else match split sep r with
           | [] => [String c EmptyString]
           | head :: tail => String c head :: tail
           end
  end.

(** [s.slice(0, n)] *)
Fixpoint sliceTo (n : nat) (s : string) : string :=
  match n, s with
  | S n, String c r => String c (sliceTo n r)
  | _, _ => EmptyString
  end.

(** [s.slice(n)] *)
Fixpoint sliceFrom (n : nat) (s : string) : string :=
  match n, s with
  | S n, String _ r => sliceFrom n r
  | _, _ => s
  end.

(** [s.slice(-n)]: the last [n] characters, and the whole string when [n]
    is 0 (the argument is then [-0], which is 0). *)
Definition sliceLast (n : nat) (s : string) : string :=
  if Nat.eqb n 0 then s else sliceFrom (String.length s - n) s.

End JsText.

(* ------------------------------------------------------------------------- *)
(** ** lib/auth.js: the administrator allowlists of the environment *)
(* ------------------------------------------------------------------------- *)

Module Allowlists.

(** [(process.env.ADMIN_EMAIL_ALLOWLIST || '').split(',')
      .map((value) => value.trim().toLowerCase()).filter(Boolean)] *)
Definition emailAllowlist (raw : option string) : list string :=
  List.filter (fun value => negb (String.eqb value EmptyString))
    (List.map (fun value => Js.toLowerCase (JsText.trim value))
       (JsText.split "," (default EmptyString raw))).

(** [(process.env.ADMIN_USERID_ALLOWLIST || '').split(',')
      .map((value) => value.trim()).filter(Boolean)] *)
Definition idAllowlist (raw : option string) : list string :=
  List.filter (fun value => negb (String.eqb value EmptyString))
    (List.map JsText.trim (JsText.split "," (default EmptyString raw))).

Definition withAllowlists (env : Env) (emails ids : list string) : Env :=
  mkEnv (session_sub env) (requestId env) (now env) (getNetwork env)
        (newRowId env) (nanoid env) (dbFault env)
        (bufferLength env) (deserialize env) (getSlot env)
        (sendRawTransaction env) (confirmTransaction env)
        (getLatestBlockhash env) (buildTransfer env)
        (sendInvestmentNotification env) (checkRateLimit env) (getBalance env)
        (getSwapQuote env) (getSwapTransaction env) (ensureOutputAccount env)
        (getTokenMint env) (TOKEN_MINTS env) (getTokenInfo env)
        (randomUUID env) emails ids.

(** [ensureAdmin(user)] read from the two variables of the process
    environment. *)
Definition ensureAdminFrom (rawEmails rawIds : option string) (env : Env)
    (user : User) : M unit :=
  InternalTransferRoute.ensureAdmin
    (withAllowlists env (emailAllowlist rawEmails) (idAllowlist rawIds)) user.

End Allowlists.

(* ------------------------------------------------------------------------- *)
(** ** Values of a request body *)
(* ------------------------------------------------------------------------- *)

Module JsNumber.

(** A number of the source language as a comparison sees it: a finite
    value, one of the two infinities, or NaN. *)
Inductive Num : Type :=
| Finite (q : Q)
| PosInf
| NegInf
| NaN.

(** [x < y]: false as soon as one side is NaN. *)
Definition ltb (x y : Num) : bool :=
  match x, y with
  | NaN, _ | _, NaN => false
  | Finite a, Finite b => negb (Qle_bool b a)
  | NegInf, NegInf => false
  | NegInf, _ => true
  | Finite _, PosInf => true
  | _, _ => false
  end.

(** [x <= y]: false as soon as one side is NaN. *)
Definition leb (x y : Num) : bool :=
  match x, y with
  | NaN, _ | _, NaN => false
  | Finite a, Finite b => Qle_bool a b
  | NegInf, _ => true
  | _, PosInf => true
  | _, _ => false
  end.

(** A value of a request body as a validation sees it: whether it is
    truthy, and the number it converts to when it is compared with a
    number.  A missing field is not truthy; the number 5 is truthy and 5;
    the text 'abc' is truthy and NaN. *)
Record Value : Type := mkValue {
  truthy : bool;
  toNumber : Num
}.

End JsNumber.

(* ------------------------------------------------------------------------- *)
(** ** lib/goalValidation.js: input of a new goal, estimated completion *)
(* ------------------------------------------------------------------------- *)

Module GoalInput.

Import JsNumber.

(** What [lib/prices.js] answers; the file is not among the sources.
    [maxTarget coin] is the number [getTokenInfo(coin).maxTarget], absent
    when the table has no entry for the coin. *)
Record Pricing : Type := mkPricing {
  isValidCoin : string -> bool;
  maxTarget : string -> option Num;
  getPriceUSD : string -> Result Q
}.

(** The [coin] field: missing, a text, or a value of another type, which
    has no [toUpperCase]. *)
Inductive CoinValue : Type :=
| CoinMissing
| CoinText (s : string)
| CoinOther.

(** [frequency] is the text of the field, absent when the field is missing
    or not a text: [includes] compares with strict equality. *)
Record GoalData : Type := mkGoalData {
  coin : CoinValue;
  targetAmount : Value;
  amountPerInterval : Value;
  frequency : option string
}.

Definition VALID_FREQUENCIES : list string := ["DAILY"; "WEEKLY"; "MONTHLY"].

(** [!x || x <= 0 || x > max] *)
Definition targetRejected (x : Value) (max : Num) : bool :=
  negb (truthy x) || leb (toNumber x) (Finite 0) || ltb max (toNumber x).

(** [!x || x < 10] *)
Definition intervalRejected (x : Value) : bool :=
  negb (truthy x) || ltb (toNumber x) (Finite 10).

Definition validateGoalInput (pr : Pricing) (data : GoalData) : Result string :=
  match coin data with
  | CoinOther => Err (Foreign "TypeError" "coin?.toUpperCase is not a function")
  | CoinMissing => Err (GoalErrors "INVALID_COIN")
  | CoinText coin =>
      let normalizedCoin := JsText.toUpperCase coin in
      if String.eqb normalizedCoin EmptyString
         || negb (isValidCoin pr normalizedCoin)
      then Err (GoalErrors "INVALID_COIN")
      else
        match maxTarget pr normalizedCoin with
        | None => Err (Foreign "TypeError" "Cannot read properties of undefined")
        | Some maxTarget =>
            if targetRejected (targetAmount data) maxTarget
            then Err (GoalErrors "INVALID_AMOUNT")
            else if intervalRejected (amountPerInterval data)
            then Err (GoalErrors "INVALID_AMOUNT")
            else if Js.falsy_str (frequency data)
                    || negb (existsb (String.eqb (default EmptyString (frequency data)))
                                     VALID_FREQUENCIES)
            then Err (GoalErrors "INVALID_FREQUENCY")
            else Ok normalizedCoin
        end
  end.

Record Estimate : Type := mkEstimate {
  monthsToComplete : Z;
  daysFromNow : Z;
  intervalsNeeded : Z;
  totalCostUSD : Z
}.

Definition daysPerInterval (f : Frequency) : Z :=
  match f with
  | DAILY => 1
  | WEEKLY => 7
  | MONTHLY => 30
  end.

(** [calculateEstimatedCompletion]; the estimated date is today plus
    [daysFromNow] days.  A contribution of 0 makes the quotient infinite or
    undefined, which the source sends to the first branch. *)
Definition calculateEstimatedCompletion (env : Env) (pr : Pricing)
    (coin : string) (targetAmount amountPerInterval : Q) (frequency : Frequency)
  : M Estimate :=
  match getTokenInfo env (JsText.toUpperCase coin) with
  | None => throw (GoalErrors "INVALID_COIN")
  | Some tokenInfo =>
      pricePerCoinUSD <-- await (getPriceUSD pr (tk_mint tokenInfo)) ;;
      let totalCostUSD := (targetAmount * pricePerCoinUSD)%Q in
      let intervalsNeeded := Qceiling (totalCostUSD / amountPerInterval) in
      if Qeq_bool amountPerInterval 0 || (intervalsNeeded <=? 0)%Z
      then ret (mkEstimate 0 0 0 (round totalCostUSD))
      else
        let daysToComplete := (intervalsNeeded * daysPerInterval frequency)%Z in
        let monthsToComplete := Qceiling (inject_Z daysToComplete / 30) in
        ret (mkEstimate monthsToComplete daysToComplete intervalsNeeded
                        (round totalCostUSD))
  end.

End GoalInput.

(* ------------------------------------------------------------------------- *)
(** ** app/api/goals/[id]/route.js: GET *)
(* ------------------------------------------------------------------------- *)

Module GoalsRead.

Import GoalInput.

(** The computed fields the answer adds to the goal row. *)
Record Computed : Type := mkComputed {
  progressPercentage : Q;
  tokenMint : string;
  decimals : nat;
  transactionCount : nat;
  remainingAmount : Q;
  estimatedCompletion : option Estimate
}.

(** [Math.max(0, x)] *)
Definition atLeastZero (x : Q) : Q := if Qle_bool x 0 then 0%Q else x.

(** [_count: { select: { transactions: true } }] *)
Definition countTransactions (d : Db) (goal : Goal) : nat :=
  length (List.filter (fun t => String.eqb (t_goalId t) (g_id goal))
                      (transactions d)).

Definition GET (env : Env) (pr : Pricing) (goalId : string)
  : M (Response * option Computed) :=
  try_catch
    (user <-- requireAuth env ;;
     goal <-- prisma_goal_findFirst env goalId (u_id user) ;;
     match goal with
     | None => throw (GoalErrors "GOAL_NOT_FOUND")
     | Some goal =>
         d <-- get_db ;;
         let tokenInfo := getTokenInfo env (g_coin goal) in
         let progressPercentage :=
           calculateProgress (g_investedAmount goal) (g_targetAmount goal) in
         let remainingAmount :=
           atLeastZero (g_targetAmount goal - g_investedAmount goal) in
         estimatedCompletion <--
           (if negb (Qle_bool remainingAmount 0)
               && status_eqb (g_status goal) ACTIVE
            then try_catch
                   (estimate <-- calculateEstimatedCompletion env pr (g_coin goal)
                                   remainingAmount (g_amountPerInterval goal)
                                   (g_frequency goal) ;;
                    ret (Some estimate))
                   (fun e => logger LWarn "ETA calculation failed" ;;; ret None)
            else ret None) ;;
         match tokenInfo with
         | None => throw (Foreign "TypeError" "Cannot read properties of undefined")
         | Some tokenInfo =>
             ret (success 200 (GoalPayload goal progressPercentage),
                  Some (mkComputed progressPercentage (tk_mint tokenInfo)
                          (tk_decimals tokenInfo) (countTransactions d goal)
                          remainingAmount estimatedCompletion))
         end
     end)
    (fun error =>
       logger LError "Goal fetch failed" ;;;
       ret (errorResponse true "Failed to fetch goal" error, None)).

End GoalsRead.

(* ------------------------------------------------------------------------- *)
(** ** app/api/internal/solana-transfer/route.js (prepare side) *)
(* ------------------------------------------------------------------------- *)

Module InternalTransferPrepare.

Import InternalTransferRoute.

(** What the prepare side asks of the outside world besides [Env]:
    [isValidSolanaAddress] of [lib/solana.js], which is not among the
    sources, and the fault the database may raise on the creation of a
    transfer row. *)
Record Outside : Type := mkOutside {
  isValidSolanaAddress : string -> bool;
  transferCreateFault : option Thrown
}.

(** The fields of the request body the prepare side reads; [amountSol] is
    the number [Number.parseFloat] makes of the field. *)
Record PrepareBody : Type := mkPrepareBody {
  fromUserId : option string;
  fromAddress : option string;
  toAddress : option string;
  amountSol : float;
  memo : option string
}.

Definition LAMPORTS_PER_SOL : Z := 1000000000.

(** [Number.isFinite] *)
Definition isFinite (x : float) : bool :=
  match Prim2SF x with
  | S754_zero _ | S754_finite _ _ _ => true
  | S754_infinity _ | S754_nan => false
  end.

(** [Math.round] on a finite number: the nearest integer, a tie going
    up; [None] for NaN and the infinities. *)
Definition Math_round (x : float) : option Z :=
  match SwapCard.exact x with
  | Some q => Some (Qfloor (q + (1 # 2)))
  | None => None
  end.

Definition MAX_SAFE_INTEGER : Z := 2 ^ 53 - 1.

(** [Number.isSafeInteger] of the result of [Math.round]. *)
Definition isSafeInteger (n : option Z) : bool :=
  match n with
  | Some n => (Z.abs n <=? MAX_SAFE_INTEGER)%Z
  | None => false
  end.

Definition resolveSourceWallet (env : Env) (out : Outside)
    (fromUserId fromAddress : option string) : M (option User * string) :=
  let trimmed := JsText.trim <$> fromAddress in
  found <--
    (if Js.falsy_str fromUserId then ret (None, trimmed)
     else
       sourceUser <-- prisma_user_findUnique env (default EmptyString fromUserId) ;;
       match sourceUser with
       | None => throw (ValidationError "Source user not found")
       | Some sourceUser =>
           throw_if (Js.falsy_str (u_walletAddress sourceUser))
             (ValidationError "Source user does not have a linked wallet address") ;;;
           throw_if (negb (Js.falsy_str trimmed)
                     && negb (bool_decide (trimmed = u_walletAddress sourceUser)))
             (ValidationError
                "fromAddress does not match the wallet on record for the user") ;;;
           ret (Some sourceUser, u_walletAddress sourceUser)
       end) ;;
  let resolvedAddress := snd found in
  throw_if (Js.falsy_str resolvedAddress)
    (ValidationError "Source wallet address could not be determined") ;;;
  throw_if (negb (isValidSolanaAddress out (default EmptyString resolvedAddress)))
    (ValidationError "Source wallet address is not a valid Solana address") ;;;
  ret (fst found, default EmptyString resolvedAddress).

(** [prisma.internalTransfer.create({ data })]; the table has a unique
    index on [batchId]. *)
Definition prisma_internalTransfer_create (out : Outside)
    (row : InternalTransfer) : M InternalTransfer :=
  match transferCreateFault out with
  | Some e => throw e
  | None =>
      d <-- get_db ;;
      match internalTransfers d !! it_batchId row with
      | Some _ => throw uniqueViolation
      | None =>
          put_db (with_internalTransfers d
                    (<[it_batchId row := row]> (internalTransfers d))) ;;;
          ret row
      end
  end.

(** The keys the prepare side writes into the metadata, on top of
    [previous]. *)
Definition preparedMetadata (env : Env) (u : UnsignedTransfer)
    (previous : TransferMetadata) : TransferMetadata :=
  mkTransferMetadata
    (ut_feeEstimateLamports u)
    (Some (ut_lastValidBlockHeight u))
    (Some (ut_recentBlockhash u))
    (Some (now env))
    (md_refreshCount previous)
    (md_lastRefreshReason previous)
    (md_refreshedAt previous)
    (md_submittedAt previous)
    (md_adminUserId previous)
    (md_requestId previous)
    (md_failureAt previous)
    (md_error previous).

(** [memo || null] *)
Definition memoOrNull (memo : option string) : option string :=
  if Js.falsy_str memo then None else memo.

Definition upsertTransferRecord (env : Env) (out : Outside)
    (batchId adminUserId : string) (sourceUserId : option string)
    (sourceAddress destinationAddress : string) (lamports : Z)
    (memo : option string) (state : TransferState)
    (metadata : TransferMetadata -> TransferMetadata) : M InternalTransfer :=
  existing <-- prisma_internalTransfer_findUnique env batchId ;;
  match existing with
  | Some existing =>
      prisma_internalTransfer_update env batchId
        (fun r =>
           mkInternalTransfer (it_batchId r) adminUserId sourceUserId
             sourceAddress destinationAddress lamports (memoOrNull memo)
             (it_signature r) state
             (Some (metadata (default emptyMetadata (it_metadata existing)))))
  | None =>
      prisma_internalTransfer_create out
        (mkInternalTransfer batchId adminUserId sourceUserId sourceAddress
           destinationAddress lamports (memoOrNull memo) None state
           (Some (metadata emptyMetadata)))
  end.

Definition handlePrepareMode (env : Env) (out : Outside) (body : PrepareBody)
    (batchId : string) (adminUser : User) : M Response :=
  throw_if (Js.falsy_str (fromUserId body) && Js.falsy_str (fromAddress body))
    (ValidationError "fromUserId or fromAddress is required") ;;;
  throw_if (Js.falsy_str (toAddress body)
            || negb (isValidSolanaAddress out (default EmptyString (toAddress body))))
    (ValidationError "Valid toAddress is required") ;;;
  let toAddress := default EmptyString (toAddress body) in
  let solAmount := amountSol body in
  throw_if (negb (isFinite solAmount) || PrimFloat.leb solAmount 0)
    (ValidationError "amountSol must be a positive number") ;;;
  let lamports :=
    Math_round (solAmount * SwapCard.number LAMPORTS_PER_SOL)%float in
  throw_if (negb (isSafeInteger lamports) || (default 0%Z lamports <=? 0)%Z)
    (ValidationError "amountSol converts to an invalid lamport value") ;;;
  let lamports := default 0%Z lamports in
  source <-- resolveSourceWallet env out (fromUserId body) (fromAddress body) ;;
  let sourceUser := fst source in
  let sourceAddress := snd source in
  unsignedTransfer <--
    buildUnsignedTransfer env sourceAddress toAddress lamports ;;
  upsertTransferRecord env out batchId (u_id adminUser) (u_id <$> sourceUser)
    sourceAddress toAddress lamports (memo body) PREPARED
    (preparedMetadata env unsignedTransfer) ;;;
  ret (success 200
         (RefreshedPayload batchId
            (formatTransferResponse sourceAddress toAddress lamports (memo body)
               unsignedTransfer))).

End InternalTransferPrepare.

(* ------------------------------------------------------------------------- *)
(** ** lib/user.js *)
(* ------------------------------------------------------------------------- *)

Module UserHelpers.

(** One entry of [linkedAccounts]; [address] is absent when the field is
    not a string. *)
Record LinkedAccount : Type := mkLinkedAccount {
  la_type : option string;
  la_walletClient : option string;
  la_address : option string
}.

(** The user object of the authentication provider; [None] in
    [linkedAccounts] when the field is not an array. *)
Record PrivyUser : Type := mkPrivyUser {
  wallet_address : option string;
  linkedAccounts : option (list LinkedAccount)
}.

Definition hasAddress (account : LinkedAccount) : bool :=
  match la_address account with
  | Some a => (0 <? String.length a)%nat
  | None => false
  end.

Definition isWallet (account : LinkedAccount) : bool :=
  bool_decide (la_type account = Some "wallet") && hasAddress account.

Definition isPrivyWallet (account : LinkedAccount) : bool :=
  bool_decide (la_type account = Some "wallet")
  && bool_decide (la_walletClient account = Some "privy")
  && hasAddress account.

Definition getWalletAddressFromPrivy (user : option PrivyUser) : option string :=
  match user with
  | None => None
  | Some user =>
      if negb (Js.falsy_str (wallet_address user)) then wallet_address user
      else
        match linkedAccounts user with
        | None => None
        | Some accounts =>
            match List.find isPrivyWallet accounts with
            | Some privyWallet => la_address privyWallet
            | None =>
                match List.find isWallet accounts with
                | Some anyWallet => la_address anyWallet
                | None => None
                end
            end
        end
  end.

(** [shortenAddress(address, visible)] for a whole number [visible]. *)
Definition shortenAddress (address : option string) (visible : nat) : string :=
  if Js.falsy_str address then EmptyString
  else
    let address := default EmptyString address in
    if (String.length address <=? visible * 2)%nat then address
    else JsText.sliceTo visible address ++ "..." ++ JsText.sliceLast visible address.

End UserHelpers.


(* ------------------------------------------------------------------------- *)
(** ** Vocabulary of the ledger properties *)
(* ------------------------------------------------------------------------- *)

Module Ledger.

Import InvestExecute.

(** Every goal row is stored under its own [id]. *)
Definition keyed (d : Db) : Prop :=
  forall k g, goals d !! k = Some g -> g_id g = k.

(** The transaction rows of a batch and kind. *)
Definition rowsFor (batchId : string) (kind : TransactionType) (d : Db)
  : list Transaction :=
  List.filter (matches batchId kind) (transactions d).

Definition atMostOnePerBatchKind (d : Db) : Prop :=
  forall batchId kind, (length (rowsFor batchId kind d) <= 1)%nat.

(** The goal row after a confirmed swap has been credited. *)
Definition settledGoal (c : Looked) (g0 : Goal) : Goal :=
  let g1 := increment (lk_outputAmount c) g0 in
  if Qle_bool (g_targetAmount g1) (g_investedAmount g1)
  then set_status COMPLETED g1
  else g1.

(** The transaction table after a confirmed swap has been stamped. *)
Definition settledRows (env : Env) (signature : string) (c : Looked)
    (rows : list Transaction) : list Transaction :=
  match lk_swap c with
  | Some existing =>
      List.map (fun r => if String.eqb (t_id r) (t_id existing)
                         then stamp signature c r else r) rows
  | None => (rows ++ [newSwapRow env signature c])%list
  end.

(** The rest of an execute request once its lookups are done. *)
Definition resume (rev : Revision) (env : Env) (looked : Result Looked)
  : M Response :=
  try_catch (c <-- await looked ;; POST_settle rev env c) onError.

(** The world after the [catch] block of the execute route has written its
    error line. *)
Definition failed (w : World) : World :=
  mkWorld (db w) (submitted w)
          (logs w ++ [(LError, "[INVEST] Failed to execute investment")]).

(** Two execute requests in flight at once: both finish their lookups
    before either reaches the network and the writes that follow. *)
Definition overlapped (rev : Revision) (envA : Env) (bodyA : Body)
    (envB : Env) (bodyB : Body) : M (Response * Response) :=
  fun w =>
    let '(wa, la) := POST_lookup envA bodyA w in
    let '(wb, lb) := POST_lookup envB bodyB wa in
    (ra <-- resume rev envA la ;;
     rb <-- resume rev envB lb ;;
     ret (ra, rb)) wb.

(** The requests a client can send to the goal and invest routes. *)
Inductive Request : Type :=
| Execute (rev : InvestExecute.Revision) (env : Env) (body : InvestExecute.Body)
| Prepare (rev : InvestPrepare.Revision) (env : Env) (body : InvestPrepare.Body)
| Patch (env : Env) (goalId : string) (body : GoalsRoute.PatchBody)
| Delete (env : Env) (goalId : string).

Definition handle (r : Request) : M Response :=
  match r with
  | Execute rev env body => InvestExecute.POST rev env body
  | Prepare rev env body => InvestPrepare.POST rev env body
  | Patch env goalId body => GoalsRoute.PATCH env goalId body
  | Delete env goalId => GoalsRoute.DELETE env goalId
  end.

(** Requests served one after the other. *)
Definition serve (rs : list Request) (w : World) : World :=
  fold_left (fun w r => fst (handle r w)) rs w.

(** The credited amount of an execute request is not negative. *)
Definition quoteNonNegative (r : Request) : Prop :=
  match r with
  | Execute _ _ body =>
      match quoteResponse body with
      | Some q => (0 <= outAmount q)%Z
      | None => True
      end
  | _ => True
  end.

Definition isInvest (r : Request) : Prop :=
  match r with
  | Execute _ _ _ | Prepare _ _ _ => True
  | _ => False
  end.

(** The session of the request resolves to [user]. *)
Definition authenticated (env : Env) (d : Db) (user : User) : Prop :=
  exists sub,
    session_sub env = Some sub /\ sub <> EmptyString
    /\ dbFault env UserFindUnique = None
    /\ users d !! sub = Some user.

(** The goal lookup of the request answers with [g], a goal of [user]. *)
Definition ownsGoal (env : Env) (d : Db) (user : User) (gid : option string)
    (g : Goal) : Prop :=
  dbFault env GoalFindFirst = None
  /\ goals d !! default EmptyString gid = Some g
  /\ g_userId g = u_id user.

(** The body of an execute request carries its four required fields. *)
Definition executeWellFormed (body : InvestExecute.Body) : Prop :=
  Js.falsy_str (goalId body) = false
  /\ Js.falsy_str (batchId body) = false
  /\ Js.falsy_str (signedTransaction body) = false
  /\ is_Some (quoteResponse body).

(** The signed payload of a submit request passes every check that comes
    before the network call, and deserializes to [tx]. *)
Definition validSubmission (env : Env) (body : InternalTransferRoute.Body)
    (tx : TxInfo) : Prop :=
  let signed :=
    default EmptyString (InternalTransferRoute.signedTransaction body) in
  Js.falsy_str (InternalTransferRoute.signedTransaction body) = false
  /\ Js.base64_regex signed = true
  /\ deserialize env signed = Ok tx
  /\ Js.falsy_str (tx_feePayer tx) = false
  /\ (Js.falsy_str (InternalTransferRoute.expectedFromAddress body) = true
      \/ InternalTransferRoute.expectedFromAddress body = tx_feePayer tx).

(** The refresh counter stored with a transfer, 0 when it has none. *)
Definition refreshCountOf (r : InternalTransfer) : Z :=
  default 0%Z (mbind md_refreshCount (it_metadata r)).

(** The failure reason stored with a transfer. *)
Definition failureReasonOf (r : InternalTransfer) : option string :=
  mbind md_error (it_metadata r).

(** A prepare request passes the rate limit and the checks on its body. *)
Definition prepareWellFormed (rev : InvestPrepare.Revision) (env : Env)
    (body : InvestPrepare.Body) : Prop :=
  checkRateLimit env = true
  /\ Js.falsy_str (InvestPrepare.goalId body) = false
  /\ InvestPrepare.amountRejected rev (InvestPrepare.amountUsd body) = false.

End Ledger.

(** *** The two writes of a settlement *)

Module Settlement.

Import InvestExecute.

(** The row [t] of the table carries the stamp of a confirmed swap of the
    batch: the signature of the network, the received amount, the state. *)
Definition stamped (d : Db) (batchId signature : string) (amount : Q)
    (t : Transaction) : Prop :=
  In t (transactions d)
  /\ t_batchId t = batchId /\ t_type t = SWAP
  /\ t_txnHash t = Some signature
  /\ t_amountCrypto t = amount
  /\ m_state (t_meta t) = "SWAP_CONFIRMED".

(** Which row gets the stamp.  The route looks the row up by batch and kind
    only: when the batch had no SWAP row the request creates one under the
    goal it credits; otherwise the first SWAP row of the batch is stamped in
    place and stays under the goal it was filed under. *)
Definition rowOfBatch (before : Db) (batchId goalId : string)
    (t : Transaction) : Prop :=
  match List.find (matches batchId SWAP) (transactions before) with
  | None => t_goalId t = goalId
  | Some existing => t_id t = t_id existing /\ t_goalId t = t_goalId existing
  end.

(** The goal [goalId] has been credited with [amount]; no other goal row has
    changed. *)
Definition credited (before after : Db) (goalId : string) (amount : Q)
  : Prop :=
  exists g0 g',
    goals before !! goalId = Some g0
    /\ goals after !! goalId = Some g'
    /\ g_investedAmount g' = (g_investedAmount g0 + amount)%Q
    /\ forall k, k <> goalId -> goals after !! k = goals before !! k.

End Settlement.

(* ------------------------------------------------------------------------- *)
(** ** A small concrete world *)
(* ------------------------------------------------------------------------- *)

Module Sample.

Definition ann : User := mkUser "u1" (Some "ann@example.org") (Some "AnnWallet").

Definition goalWith (invested : Q) (s : GoalStatus) : Goal :=
  mkGoal "g1" "u1" "BTC" 1 invested 10 WEEKLY s.

Definition dbWith (g : Goal) (rows : list Transaction) (unique : bool) : Db :=
  mkDb {[ "u1" := ann ]} {[ "g1" := g ]} rows ∅ unique.

Definition worldWith (d : Db) : World := mkWorld d [] [].

(** An environment in which every outside call answers. *)
Definition calm : Env :=
  mkEnv (Some "u1") "req-1" "2025-11-12T17:00:00.000Z" "mainnet" "row-1"
        "b-fresh"
        (fun _ => None)
        String.length
        (fun _ => Ok (mkTxInfo (Some "hash-1") (Some "AnnWallet")))
        (Ok 100%Z)
        (fun _ => Ok "sig-1")
        (fun _ => Ok tt)
        (Ok ("hash-2", 250%Z))
        (fun _ _ _ => Ok (mkUnsignedTransfer "unsigned-2" "hash-2" 250 (Some 5000%Z)))
        (Ok tt)
        true
        (Ok 5000000000%Z)
        (Ok (200%Z, "quote-1"))
        (Ok ("unsigned-swap", 250%Z))
        (Ok tt)
        (fun _ => Ok (mkTokenInfo "mint-btc" 8))
        (fun _ => mkTokenInfo "mint-sol" 9)
        (fun _ => Some (mkTokenInfo "mint-btc" 8))
        "uuid-1"
        ["ann@example.org"]
        [].

Definition withFault (env : Env) (op : DbOp) (e : Thrown) : Env :=
  mkEnv (session_sub env) (requestId env) (now env) (getNetwork env)
        (newRowId env) (nanoid env)
        (fun o => if dbop_eqb o op then Some e else dbFault env o)
        (bufferLength env) (deserialize env) (getSlot env)
        (sendRawTransaction env) (confirmTransaction env)
        (getLatestBlockhash env) (buildTransfer env)
        (sendInvestmentNotification env) (checkRateLimit env) (getBalance env)
        (getSwapQuote env) (getSwapTransaction env) (ensureOutputAccount env)
        (getTokenMint env) (TOKEN_MINTS env) (getTokenInfo env)
        (randomUUID env) (adminEmailAllowlist env) (adminUserIdAllowlist env).

Definition withSend (env : Env) (answer : Result string) (row : string) : Env :=
  mkEnv (session_sub env) (requestId env) (now env) (getNetwork env)
        row (nanoid env) (dbFault env)
        (bufferLength env) (deserialize env) (getSlot env)
        (fun _ => answer) (confirmTransaction env)
        (getLatestBlockhash env) (buildTransfer env)
        (sendInvestmentNotification env) (checkRateLimit env) (getBalance env)
        (getSwapQuote env) (getSwapTransaction env) (ensureOutputAccount env)
        (getTokenMint env) (TOKEN_MINTS env) (getTokenInfo env)
        (randomUUID env) (adminEmailAllowlist env) (adminUserIdAllowlist env).

(** A swap of 200 base units of an asset with 8 decimals: 0.000002. *)
Definition executeBody : InvestExecute.Body :=
  InvestExecute.mkBody (Some "g1") (Some "b1") (Some "AQID")
    (Some (InvestExecute.mkQuoteResponse 200 (Some "quote-1"))) (Some 250%Z).

Definition prepareBody : InvestPrepare.Body :=
  InvestPrepare.mkBody (Some "g1") (Some 1%Q).

(** A transfer prepared by the admin console and not yet submitted. *)
Definition preparedTransfer : InternalTransfer :=
  mkInternalTransfer "t1" "u1" None "AnnWallet" "BobWallet" 250000000 None None
    PREPARED
    (Some (mkTransferMetadata (Some 5000%Z) (Some 200%Z) (Some "hash-1")
             (Some "2025-11-12T16:59:00.000Z") None None None None None None
             None None)).

Definition transferDb : Db :=
  mkDb {[ "u1" := ann ]} ∅ [] {[ "t1" := preparedTransfer ]} false.

Definition submitBody : InternalTransferRoute.Body :=
  InternalTransferRoute.mkBody (Some "submit") (Some "t1") (Some "AQID") None.

End Sample.

(* ------------------------------------------------------------------------- *)
(** ** Vocabulary of the further properties *)
(* ------------------------------------------------------------------------- *)

Module Requests.

Import Ledger.

(** The environment a request runs in. *)
Definition envOf (r : Request) : Env :=
  match r with
  | Execute _ env _ | Prepare _ env _ | Patch env _ _ | Delete env _ => env
  end.

(** The goal a request names. *)
Definition targetOf (r : Request) : string :=
  match r with
  | Execute _ _ body => default EmptyString (InvestExecute.goalId body)
  | Prepare _ _ body => default EmptyString (InvestPrepare.goalId body)
  | Patch _ goalId _ | Delete _ goalId => goalId
  end.

End Requests.

(** The inputs [validateGoalInput] lets through. *)
Module GoalInputRules.

Import JsNumber.

(** The target amounts that pass [!(x <= 0) && !(x > max)]: the numbers
    above 0 and not above the limit, and NaN, which no comparison
    rejects. *)
Definition withinTarget (max x : Num) : Prop :=
  match x with
  | NaN => True
  | NegInf => False
  | Finite q =>
      (0 < q)%Q
      /\ match max with
         | Finite m => (q <= m)%Q
         | NegInf => False
         | PosInf | NaN => True
         end
  | PosInf => max = PosInf \/ max = NaN
  end.

(** The amounts per interval that pass [!(x < 10)]. *)
Definition atLeastTen (x : Num) : Prop :=
  match x with
  | NaN | PosInf => True
  | NegInf => False
  | Finite q => (10 <= q)%Q
  end.

End GoalInputRules.

Module GoalChanges.

Import GoalsRoute.

(** The stored goal [g] is the goal [g0] with every field the body names
    set as the body asks, each one having passed its check, and nothing
    else changed. *)
Definition asRequested (body : PatchBody) (g0 g : Goal) : Prop :=
  g_id g = g_id g0 /\ g_userId g = g_userId g0 /\ g_coin g = g_coin g0
  /\ g_targetAmount g = g_targetAmount g0
  /\ g_investedAmount g = g_investedAmount g0
  /\ match p_amountPerInterval body with
     | Some a => g_amountPerInterval g = a /\ (10 <= a)%Q
     | None => g_amountPerInterval g = g_amountPerInterval g0
     end
  /\ match p_frequency body with
     | Some name => frequencyOfName name = Some (g_frequency g)
     | None => g_frequency g = g_frequency g0
     end
  /\ match p_status body with
     | Some s => statusOfName s = Some (g_status g)
                 /\ validateStatusTransition (g_status g0) s = Ok tt
     | None => g_status g = g_status g0
     end.

(** Every goal asks for at least the minimum contribution per interval. *)
Definition contributionsAtLeastMinimum (d : Db) : Prop :=
  forall k g, goals d !! k = Some g -> (10 <= g_amountPerInterval g)%Q.

(** Every completed goal has reached its target. *)
Definition completedAreFunded (d : Db) : Prop :=
  forall k g, goals d !! k = Some g -> g_status g = COMPLETED ->
              (g_targetAmount g <= g_investedAmount g)%Q.

End GoalChanges.

Module TransferVocabulary.

Import InternalTransferRoute.

(** The user is named by one of the two administrator allowlists. *)
Definition onAllowlist (env : Env) (user : User) : Prop :=
  (exists email, u_email user = Some email /\ email <> EmptyString
                 /\ In (Js.toLowerCase email) (adminEmailAllowlist env))
  \/ (u_id user <> EmptyString /\ In (u_id user) (adminUserIdAllowlist env)).

(** The same submit request sent [k] times in a row. *)
Fixpoint resubmitted (k : nat) (env : Env) (body : Body) (batchId : string)
    (adminUser : User) (w : World) : World :=
  match k with
  | O => w
  | S k =>
      resubmitted k env body batchId adminUser
        (fst (handleSubmitMode env body batchId adminUser w))
  end.

End TransferVocabulary.

Module Notifications.

(** The environment with another answer of the notification service. *)
Definition withNotification (env : Env) (answer : Result unit) : Env :=
  mkEnv (session_sub env) (requestId env) (now env) (getNetwork env)
        (newRowId env) (nanoid env) (dbFault env)
        (bufferLength env) (deserialize env) (getSlot env)
        (sendRawTransaction env) (confirmTransaction env)
        (getLatestBlockhash env) (buildTransfer env)
        answer (checkRateLimit env) (getBalance env)
        (getSwapQuote env) (getSwapTransaction env) (ensureOutputAccount env)
        (getTokenMint env) (TOKEN_MINTS env) (getTokenInfo env)
        (randomUUID env) (adminEmailAllowlist env) (adminUserIdAllowlist env).

End Notifications.

(* ------------------------------------------------------------------------- *)
(** ** More of the small concrete world *)
(* ------------------------------------------------------------------------- *)

Module Examples.

(** A goal of another user, in a database that knows only [Sample.ann]. *)
Definition strangersGoal : Goal :=
  mkGoal "g1" "u2" "BTC" 1 0 10 WEEKLY ACTIVE.

Definition strangersDb : Db :=
  mkDb {[ "u1" := Sample.ann ]} {[ "g1" := strangersGoal ]} [] ∅ false.

(** An address is taken for valid when it has at least four characters. *)
Definition outside : InternalTransferPrepare.Outside :=
  InternalTransferPrepare.mkOutside
    (fun address => (4 <=? String.length address)%nat) None.

(** A quarter of a SOL from the wallet on record for [Sample.ann]. *)
Definition transferBody : InternalTransferPrepare.PrepareBody :=
  InternalTransferPrepare.mkPrepareBody (Some "u1") None (Some "BobWallet")
    (SwapCard.parseDecimal 25 2) (Some "refund").

(** The environment with another answer to the latest-blockhash call. *)
Definition withLatest (env : Env) (answer : Result (string * Z)) : Env :=
  mkEnv (session_sub env) (requestId env) (now env) (getNetwork env)
        (newRowId env) (nanoid env) (dbFault env)
        (bufferLength env) (deserialize env) (getSlot env)
        (sendRawTransaction env) (confirmTransaction env)
        answer (buildTransfer env)
        (sendInvestmentNotification env) (checkRateLimit env) (getBalance env)
        (getSwapQuote env) (getSwapTransaction env) (ensureOutputAccount env)
        (getTokenMint env) (TOKEN_MINTS env) (getTokenInfo env)
        (randomUUID env) (adminEmailAllowlist env) (adminUserIdAllowlist env).

(** The node refuses every transaction for an expired blockhash. *)
Definition expiring : Env :=
  Sample.withSend Sample.calm
    (Err (Foreign "SendTransactionError"
            "Transaction simulation failed: Blockhash not found"))
    "row-1".

End Examples.

(* ------------------------------------------------------------------------- *)
(** * Properties *)
(* ------------------------------------------------------------------------- *)

Import Ledger.

(* ------------------------------------------------------------------------- *)
(** ** Reasoning about handlers *)
(* ------------------------------------------------------------------------- *)


(** Unfold the monad down to pairs and matches. *)
Ltac run :=
  cbv beta iota delta [bind try_catch throw_if throw ret await faulty get_db
                         put_db logger] in *.

(** Split on every stuck match, keeping the equations. *)
Ltac crunch := repeat (case_match; simplify_eq); intros; simplify_eq.

Lemma requireAuth_world env w w' r :
  requireAuth env w = (w', r) -> w' = w.
Proof.
  unfold requireAuth, prisma_user_findUnique. run. crunch; done.
Qed.

Lemma status_eqb_eq a b : status_eqb a b = true <-> a = b.
Proof. destruct a, b; simpl; split; congruence. Qed.

Lemma matches_spec b k t :
  matches b k t = true <-> t_batchId t = b /\ t_type t = k.
Proof.
  unfold matches. rewrite andb_true_iff, String.eqb_eq.
  destruct (t_type t), k; simpl; intuition congruence.
Qed.

(** *** The execute route, step by step *)

Section ExecuteSteps.

Import InvestExecute.

Lemma submitAndConfirm_db rev env s l w w' r :
  submitAndConfirm rev env s l w = (w', r) -> db w' = db w.
Proof.
  unfold submitAndConfirm, checkBlockHeight, sendRaw. run.
  destruct rev; crunch; done.
Qed.

Lemma submitAndConfirm_ok rev env s l w w' sig :
  submitAndConfirm rev env s l w = (w', Ok sig) ->
  submitted w' = (submitted w ++ [default EmptyString s])%list
  /\ sendRawTransaction env (default EmptyString s) = Ok sig
  /\ confirmTransaction env sig = Ok tt.
Proof.
  unfold submitAndConfirm, checkBlockHeight, sendRaw. run.
  destruct rev; crunch; simpl; repeat split; try done.
  all: match goal with u : unit |- _ => destruct u end; done.
Qed.

Lemma POST_lookup_world env body w w' r :
  POST_lookup env body w = (w', r) -> w' = w.
Proof.
  unfold POST_lookup, bind at 1.
  destruct (requireAuth env w) as [w1 r1] eqn:Ha.
  apply requireAuth_world in Ha. subst w1.
  destruct r1 as [user|e]; [|intros; simplify_eq; done].
  unfold prisma_goal_findFirst, prisma_transaction_findFirst. run.
  crunch; done.
Qed.

(** What a successful lookup has established. *)
Lemma POST_lookup_ok env body w w' c :
  POST_lookup env body w = (w', Ok c) ->
  goals (db w) !! default EmptyString (goalId body) = Some (lk_goal c)
  /\ g_status (lk_goal c) = ACTIVE
  /\ lk_batchId c = default EmptyString (batchId body)
  /\ lk_signed c = signedTransaction body
  /\ quoteResponse body = Some (lk_quote c)
  /\ lk_outputAmount c
     = fromSmallestUnits (outAmount (lk_quote c)) (tk_decimals (lk_token c))
  /\ lk_swap c
     = List.find (matches (lk_batchId c) SWAP) (transactions (db w)).
Proof.
  unfold POST_lookup, bind at 1.
  destruct (requireAuth env w) as [w1 r1] eqn:Ha.
  apply requireAuth_world in Ha. subst w1.
  destruct r1 as [user|e]; [|intros; simplify_eq; done].
  unfold prisma_goal_findFirst, prisma_transaction_findFirst. run.
  crunch; simpl; repeat split; try done.
  all: match goal with
       | H : negb (status_eqb ?s ACTIVE) = false |- _ =>
           apply negb_false_iff, status_eqb_eq in H; exact H
       end.
Qed.

Lemma POST_settle_ok rev env c w w' resp :
  POST_settle rev env c w = (w', Ok resp) ->
  exists sig g0,
    sendRawTransaction env (default EmptyString (lk_signed c)) = Ok sig
    /\ confirmTransaction env sig = Ok tt
    /\ submitted w' = (submitted w ++ [default EmptyString (lk_signed c)])%list
    /\ goals (db w) !! g_id (lk_goal c) = Some g0
    /\ goals (db w') = <[g_id (lk_goal c) := settledGoal c g0]> (goals (db w))
    /\ transactions (db w') = settledRows env sig c (transactions (db w))
    /\ resp = success 200 (ExecutePayload (lk_outputAmount c) sig).
Proof.
  unfold POST_settle, bind at 1.
  destruct (submitAndConfirm rev env (lk_signed c) (lk_lastValid c) w)
    as [w1 r1] eqn:Hs.
  destruct r1 as [sig|e]; [|intros; simplify_eq].
  pose proof (submitAndConfirm_db _ _ _ _ _ _ _ Hs) as Hdb.
  apply submitAndConfirm_ok in Hs as (Hsub & Hsend & Hconf).
  unfold prisma_transaction_update, prisma_transaction_create,
    prisma_goal_update, settledRows, settledGoal.
  run. destruct w1 as [d1 s1 l1]; simpl in *; subst.
  intros H. exists sig.
  destruct (lk_swap c) as [existing|];
    crunch; simpl in *; simplify_map_eq; eexists; repeat split; eauto.
  all: try rewrite insert_insert_eq.
  all: try match goal with H : Qle_bool _ _ = _ |- _ => rewrite H end.
  all: done.
Qed.

(** Whatever happens after the lookup, the database is either untouched or
    the network has confirmed the transaction and the row is stamped. *)
Lemma POST_settle_any rev env c w w' r :
  POST_settle rev env c w = (w', r) ->
  db w' = db w
  \/ exists sig,
       sendRawTransaction env (default EmptyString (lk_signed c)) = Ok sig
       /\ confirmTransaction env sig = Ok tt
       /\ transactions (db w') = settledRows env sig c (transactions (db w))
       /\ unique_batch_type (db w') = unique_batch_type (db w)
       /\ users (db w') = users (db w)
       /\ internalTransfers (db w') = internalTransfers (db w)
       /\ (goals (db w') = goals (db w)
           \/ exists g0,
                goals (db w) !! g_id (lk_goal c) = Some g0
                /\ (goals (db w')
                    = <[g_id (lk_goal c) := increment (lk_outputAmount c) g0]>
                        (goals (db w))
                    \/ goals (db w')
                       = <[g_id (lk_goal c) := settledGoal c g0]> (goals (db w)))).
Proof.
  unfold POST_settle, bind at 1.
  destruct (submitAndConfirm rev env (lk_signed c) (lk_lastValid c) w)
    as [w1 r1] eqn:Hs.
  pose proof (submitAndConfirm_db _ _ _ _ _ _ _ Hs) as Hdb.
  destruct r1 as [sig|e]; [|intros; simplify_eq; by left].
  apply submitAndConfirm_ok in Hs as (Hsub & Hsend & Hconf).
  unfold prisma_transaction_update, prisma_transaction_create,
    prisma_goal_update, settledRows, settledGoal.
  run. destruct w1 as [d1 s1 l1]; simpl in *; subst.
  intros H.
  destruct (lk_swap c) as [existing|];
    crunch; simpl in *; simplify_map_eq;
    try (by left);
    right; exists sig; repeat split; eauto.
  all: try (by left).
  all: right; eexists; split; [first [reflexivity | eassumption]|].
  all: rewrite ?insert_insert_eq.
  all: try match goal with H : Qle_bool _ _ = _ |- _ => rewrite H end.
  all: first [by left | by right].
Qed.

End ExecuteSteps.

Section ExecuteOutcomes.

Import InvestExecute.

(** The three ways an execute request can end. *)
Lemma POST_cases rev env body w w' r :
  POST rev env body w = (w', r) ->
  exists resp,
    r = Ok resp
    /\ ((exists e,
           POST_lookup env body w = (w, Err e)
           /\ w' = failed w
           /\ resp = errorResponse false "Failed to execute investment" e)
        \/ (exists c w1 e,
              POST_lookup env body w = (w, Ok c)
              /\ POST_settle rev env c w = (w1, Err e)
              /\ w' = failed w1
              /\ resp = errorResponse false "Failed to execute investment" e)
        \/ (exists c,
              POST_lookup env body w = (w, Ok c)
              /\ POST_settle rev env c w = (w', Ok resp))).
Proof.
  unfold POST, onError. run.
  destruct (POST_lookup env body w) as [w0 r0] eqn:Hl.
  pose proof (POST_lookup_world _ _ _ _ _ Hl) as ->.
  destruct r0 as [c|e].
  - destruct (POST_settle rev env c w) as [w1 r1] eqn:Hs.
    destruct r1 as [resp|e]; intros; simplify_eq.
    + exists resp. split; [done|]. right; right. by exists c.
    + eexists. split; [done|]. right; left. by exists c, w1, e.
  - intros; simplify_eq.
    eexists. split; [done|]. left. by exists e.
Qed.

(** Served alone, a request is its lookups followed by the rest: the split
    used for requests in flight together is the route itself. *)
Lemma POST_is_resume rev env body w :
  POST rev env body w = resume rev env (snd (POST_lookup env body w)) w.
Proof.
  unfold POST, resume. run.
  destruct (POST_lookup env body w) as [w0 r0] eqn:Hl.
  pose proof (POST_lookup_world _ _ _ _ _ Hl) as ->.
  by destruct r0.
Qed.

Lemma errorResponse_fails a m e : r_success (errorResponse a m e) = false.
Proof. unfold errorResponse. by repeat case_match. Qed.

End ExecuteOutcomes.

Section ExecuteEffects.

Import InvestExecute.

(** A request that answers with success went through lookup, network and
    both writes. *)
Lemma POST_success rev env body w w' resp :
  POST rev env body w = (w', Ok resp) ->
  r_success resp = true ->
  exists c sig g0,
    POST_lookup env body w = (w, Ok c)
    /\ sendRawTransaction env (default EmptyString (lk_signed c)) = Ok sig
    /\ confirmTransaction env sig = Ok tt
    /\ submitted w' = (submitted w ++ [default EmptyString (lk_signed c)])%list
    /\ goals (db w) !! g_id (lk_goal c) = Some g0
    /\ goals (db w') = <[g_id (lk_goal c) := settledGoal c g0]> (goals (db w))
    /\ transactions (db w') = settledRows env sig c (transactions (db w))
    /\ resp = success 200 (ExecutePayload (lk_outputAmount c) sig).
Proof.
  intros H Hok.
  apply POST_cases in H as (resp' & Hr & [H | [H | H]]); simplify_eq.
  - destruct H as (e & _ & _ & ->). by rewrite errorResponse_fails in Hok.
  - destruct H as (c & w1 & e & _ & _ & _ & ->).
    by rewrite errorResponse_fails in Hok.
  - destruct H as (c & Hl & Hs).
    apply POST_settle_ok in Hs as (sig & g0 & ?).
    exists c, sig, g0. split; [done|]. exact H.
Qed.

(** Any request leaves the database as it was, or has had its transaction
    confirmed by the network and its row stamped. *)
Lemma POST_any rev env body w w' r :
  POST rev env body w = (w', r) ->
  db w' = db w
  \/ exists c sig,
       POST_lookup env body w = (w, Ok c)
       /\ sendRawTransaction env (default EmptyString (lk_signed c)) = Ok sig
       /\ confirmTransaction env sig = Ok tt
       /\ transactions (db w') = settledRows env sig c (transactions (db w))
       /\ unique_batch_type (db w') = unique_batch_type (db w)
       /\ users (db w') = users (db w)
       /\ internalTransfers (db w') = internalTransfers (db w)
       /\ (goals (db w') = goals (db w)
           \/ exists g0,
                goals (db w) !! g_id (lk_goal c) = Some g0
                /\ (goals (db w')
                    = <[g_id (lk_goal c) := increment (lk_outputAmount c) g0]>
                        (goals (db w))
                    \/ goals (db w')
                       = <[g_id (lk_goal c) := settledGoal c g0]> (goals (db w)))).
Proof.
  intros H.
  apply POST_cases in H as (resp' & Hr & [H | [H | H]]); simplify_eq.
  - destruct H as (e & _ & -> & _). by left.
  - destruct H as (c & w1 & e & Hl & Hs & -> & _).
    apply POST_settle_any in Hs as [Hs | (sig & Hs)]; [by left|].
    right. exists c, sig. split; [done|]. exact Hs.
  - destruct H as (c & Hl & Hs).
    apply POST_settle_any in Hs as [Hs | (sig & Hs)]; [by left|].
    right. exists c, sig. split; [done|]. exact Hs.
Qed.

(** The stamped or created row is in the table after settlement. *)
Lemma settledRows_has_row env sig c rows :
  lk_swap c = List.find (matches (lk_batchId c) SWAP) rows ->
  exists t,
    In t (settledRows env sig c rows)
    /\ t_batchId t = lk_batchId c /\ t_type t = SWAP
    /\ t_txnHash t = Some sig
    /\ t_amountCrypto t = lk_outputAmount c
    /\ m_state (t_meta t) = "SWAP_CONFIRMED".
Proof.
  unfold settledRows. intros Hf.
  destruct (lk_swap c) as [existing|].
  - symmetry in Hf. apply find_some in Hf as [Hin Hm].
    apply matches_spec in Hm as [Hb Hk].
    exists (stamp sig c existing). split.
    + apply in_map_iff. exists existing. split; [|done].
      by rewrite String.eqb_refl.
    + by simpl.
  - exists (newSwapRow env sig c). split; [|done].
    apply in_or_app. right. by left.
Qed.

End ExecuteEffects.

Section StampAndCredit.

Import InvestExecute Settlement.

Lemma keyed_sample g rows u :
  g_id g = "g1" -> keyed (Sample.dbWith g rows u).
Proof.
  intros Hg k g' H. simpl in H.
  apply lookup_singleton_Some in H as [<- <-]. exact Hg.
Qed.

(** C1 (as stated, refuted).  The database refuses the goal update after
    the swap row has been written: the row stays stamped as confirmed, the
    goal is not credited, and the client is told the request failed. *)
Lemma C1_counterexample_stamped_without_credit :
  let env := Sample.withFault Sample.calm GoalIncrement
               (Foreign "PrismaClientInitializationError"
                        "Can't reach database server") in
  let w := Sample.worldWith (Sample.dbWith (Sample.goalWith 0 ACTIVE) [] false) in
  let w' := fst (POST Plain env Sample.executeBody w) in
  (exists t,
      transactions (db w') = [t]
      /\ t_batchId t = "b1" /\ t_type t = SWAP
      /\ t_txnHash t = Some "sig-1"
      /\ m_state (t_meta t) = "SWAP_CONFIRMED")
  /\ goals (db w') !! "g1" = Some (Sample.goalWith 0 ACTIVE)
  /\ r_status <$> (match snd (POST Plain env Sample.executeBody w) with
                   | Ok resp => Some resp
                   | Err _ => None
                   end) = Some 500%Z.
Proof.
  vm_compute. split; [|split; reflexivity].
  eexists. repeat split; reflexivity.
Qed.

(** The course of a settlement, write by write. *)
Lemma POST_settle_trace rev env c w w' r g0 :
  goals (db w) !! g_id (lk_goal c) = Some g0 ->
  POST_settle rev env c w = (w', r) ->
  db w' = db w
  \/ exists sig,
       sendRawTransaction env (default EmptyString (lk_signed c)) = Ok sig
       /\ confirmTransaction env sig = Ok tt
       /\ transactions (db w') = settledRows env sig c (transactions (db w))
       /\ ((goals (db w') = goals (db w)
            /\ dbFault env GoalIncrement <> None
            /\ exists e, r = Err e)
           \/ (goals (db w')
               = <[g_id (lk_goal c) := increment (lk_outputAmount c) g0]>
                   (goals (db w))
               /\ (r = Ok (success 200 (ExecutePayload (lk_outputAmount c) sig))
                   \/ exists e, r = Err e)
               /\ (dbFault env GoalSetStatus = None ->
                   Qle_bool (g_targetAmount g0)
                            (g_investedAmount g0 + lk_outputAmount c) = false))
           \/ (goals (db w')
               = <[g_id (lk_goal c) := set_status COMPLETED
                                         (increment (lk_outputAmount c) g0)]>
                   (goals (db w))
               /\ Qle_bool (g_targetAmount g0)
                           (g_investedAmount g0 + lk_outputAmount c) = true
               /\ dbFault env GoalSetStatus = None
               /\ (r = Ok (success 200 (ExecutePayload (lk_outputAmount c) sig))
                   \/ exists e, r = Err e))).
Proof.
  intros Hg0.
  unfold POST_settle, bind at 1.
  destruct (submitAndConfirm rev env (lk_signed c) (lk_lastValid c) w)
    as [w1 r1] eqn:Hs.
  pose proof (submitAndConfirm_db _ _ _ _ _ _ _ Hs) as Hdb.
  destruct r1 as [sig|e]; [|intros; simplify_eq; by left].
  apply submitAndConfirm_ok in Hs as (Hsub & Hsend & Hconf).
  unfold prisma_transaction_update, prisma_transaction_create,
    prisma_goal_update, settledRows.
  run. destruct w1 as [d1 s1 l1]; simpl in *; subst.
  intros H.
  destruct (lk_swap c) as [existing|];
    crunch; simpl in *; simplify_map_eq;
    try (by left);
    right; exists sig; (split; [done|]); (split; [done|]); (split; [done|]).
  all: rewrite ?insert_insert_eq.
  all: try (left; repeat split; [done | by eexists]).
  all: try (right; left; split; [reflexivity|]; split;
            [first [by left | right; by eexists]|]; intros; congruence).
  all: try (right; right; split; [reflexivity|]; split; [done|]; split;
            [done|]; first [by left | right; by eexists]).
Qed.

Lemma settledRows_row env sig c rows gid :
  lk_swap c = List.find (matches (lk_batchId c) SWAP) rows ->
  g_id (lk_goal c) = gid ->
  exists t,
    In t (settledRows env sig c rows)
    /\ t_batchId t = lk_batchId c /\ t_type t = SWAP
    /\ t_txnHash t = Some sig
    /\ t_amountCrypto t = lk_outputAmount c
    /\ m_state (t_meta t) = "SWAP_CONFIRMED"
    /\ match List.find (matches (lk_batchId c) SWAP) rows with
       | None => t_goalId t = gid
       | Some existing =>
           t_id t = t_id existing /\ t_goalId t = t_goalId existing
       end.
Proof.
  unfold settledRows. intros Hf Hid. rewrite <- Hf.
  destruct (lk_swap c) as [existing|].
  - symmetry in Hf. apply find_some in Hf as [Hin Hm].
    apply matches_spec in Hm as [Hb Hk].
    exists (stamp sig c existing). split.
    + apply in_map_iff. exists existing. split; [|done].
      by rewrite String.eqb_refl.
    + by simpl.
  - exists (newSwapRow env sig c). split; [|done].
    apply in_or_app. right. by left.
Qed.

Lemma credited_insert d d' gid g0 g' amount :
  goals d !! gid = Some g0 ->
  goals d' = <[gid := g']> (goals d) ->
  g_investedAmount g' = (g_investedAmount g0 + amount)%Q ->
  credited d d' gid amount.
Proof.
  intros Hg0 Hg Hinv. exists g0, g'. rewrite Hg.
  split; [done|]. split; [apply lookup_insert_eq|]. split; [done|].
  intros k Hk. by rewrite lookup_insert_ne.
Qed.

(** Every execute request, whatever its answer, leaves the database as it
    was, or has had its transaction confirmed and the row of its batch
    stamped; the goal is then credited, unless the increment itself was
    refused by the database. *)
Lemma POST_trace rev env body w w' r :
  keyed (db w) ->
  POST rev env body w = (w', r) ->
  let gid := default EmptyString (goalId body) in
  let bid := default EmptyString (batchId body) in
  let signed := default EmptyString (signedTransaction body) in
  db w' = db w
  \/ exists sig amount t,
       sendRawTransaction env signed = Ok sig
       /\ confirmTransaction env sig = Ok tt
       /\ stamped (db w') bid sig amount t
       /\ rowOfBatch (db w) bid gid t
       /\ ((goals (db w') = goals (db w)
            /\ dbFault env GoalIncrement <> None
            /\ exists resp, r = Ok resp /\ r_success resp = false)
           \/ (credited (db w) (db w') gid amount
               /\ exists resp,
                    r = Ok resp
                    /\ (r_success resp = true ->
                        resp = success 200 (ExecutePayload amount sig)))).
Proof.
  intros Hk H gid bid signed. subst gid bid signed.
  apply POST_cases in H as (resp & -> & [H | [H | H]]).
  - destruct H as (e & _ & -> & _). by left.
  - destruct H as (c & w1 & e & Hl & Hs & -> & ->). simpl.
    apply POST_lookup_ok in Hl as (Hgoal & _ & Hb & Hsg & _ & _ & Hsw).
    simpl in Hgoal, Hsw. pose proof (Hk _ _ Hgoal) as Hid.
    rewrite <- Hid in Hgoal.
    apply (POST_settle_trace _ _ _ _ _ _ _ Hgoal) in Hs
      as [Hs | (sig & Hsend & Hconf & Ht & Hg)]; [by left|].
    right.
    destruct (settledRows_row env sig c (transactions (db w)) _ Hsw Hid)
      as (t & Hin & Htb & Htk & Hth & Hta & Hts & Hrow).
    exists sig, (lk_outputAmount c), t.
    rewrite <- Hsg, <- Hb. split; [done|]. split; [done|].
    split; [by rewrite <- Ht in Hin|]. split; [exact Hrow|].
    destruct Hg as [(Hg & Hf & _) | [(Hg & _) | (Hg & _)]].
    + left. split; [done|]. split; [done|].
      eexists. split; [done|apply errorResponse_fails].
    + right. split.
      * rewrite Hid in Hg, Hgoal. by eapply credited_insert.
      * eexists. split; [done|]. by rewrite errorResponse_fails.
    + right. split.
      * rewrite Hid in Hg, Hgoal. by eapply credited_insert.
      * eexists. split; [done|]. by rewrite errorResponse_fails.
  - destruct H as (c & Hl & Hs).
    apply POST_lookup_ok in Hl as (Hgoal & _ & Hb & Hsg & _ & _ & Hsw).
    simpl in Hgoal, Hsw. pose proof (Hk _ _ Hgoal) as Hid.
    rewrite <- Hid in Hgoal.
    apply (POST_settle_trace _ _ _ _ _ _ _ Hgoal) in Hs
      as [Hs | (sig & Hsend & Hconf & Ht & Hg)]; [by left|].
    right.
    destruct (settledRows_row env sig c (transactions (db w)) _ Hsw Hid)
      as (t & Hin & Htb & Htk & Hth & Hta & Hts & Hrow).
    exists sig, (lk_outputAmount c), t.
    rewrite <- Hsg, <- Hb. split; [done|]. split; [done|].
    split; [by rewrite <- Ht in Hin|]. split; [exact Hrow|].
    destruct Hg as [(Hg & Hf & (e & He)) | [(Hg & Hr & _) | (Hg & _ & _ & Hr)]].
    + done.
    + right. split.
      * rewrite Hid in Hg, Hgoal. by eapply credited_insert.
      * eexists. split; [done|]. intros _.
        destruct Hr as [Hr | (e & Hr)]; by simplify_eq.
    + right. split.
      * rewrite Hid in Hg, Hgoal. by eapply credited_insert.
      * eexists. split; [done|]. intros _.
        destruct Hr as [Hr | (e & Hr)]; by simplify_eq.
Qed.

(** C1 (amended).  The row of the batch is stamped first and the goal
    credited second, in two separate writes.  (1) An execute request that
    answers with success has done both: the row carries the signature, the
    received amount and the state SWAP_CONFIRMED, and the goal of the request
    is credited with that same amount.  (2) Whatever the answer, a goal is
    only credited together with a stamped row: a request that changed a
    goal row had its transaction confirmed, has stamped the row of its
    batch and has credited the goal of the request, and no other goal, with
    the stamped amount.  (3) The converse fails only when the database
    refuses the increment: a request that changed the database has stamped
    the row, and has credited the goal unless the increment itself was
    refused, in which case no goal changed and the answer is a failure.
    (4) When the network does not confirm the transaction the database is
    left exactly as it was.  The stamped row is the one the route finds by
    batch and kind: created under the credited goal when the batch had
    none, and otherwise the existing row, which stays under the goal it was
    filed under. *)
Theorem C1_success_stamps_and_credits rev env body w w' r :
  keyed (db w) ->
  POST rev env body w = (w', r) ->
  let gid := default EmptyString (goalId body) in
  let bid := default EmptyString (batchId body) in
  let signed := default EmptyString (signedTransaction body) in
  (forall resp, r = Ok resp -> r_success resp = true ->
     exists sig amount t,
       resp = success 200 (ExecutePayload amount sig)
       /\ stamped (db w') bid sig amount t
       /\ rowOfBatch (db w) bid gid t
       /\ credited (db w) (db w') gid amount)
  /\ (goals (db w') <> goals (db w) ->
      exists sig amount t,
        sendRawTransaction env signed = Ok sig
        /\ confirmTransaction env sig = Ok tt
        /\ stamped (db w') bid sig amount t
        /\ rowOfBatch (db w) bid gid t
        /\ credited (db w) (db w') gid amount)
  /\ (db w' <> db w ->
      exists sig amount t,
        sendRawTransaction env signed = Ok sig
        /\ confirmTransaction env sig = Ok tt
        /\ stamped (db w') bid sig amount t
        /\ rowOfBatch (db w) bid gid t
        /\ (credited (db w) (db w') gid amount
            \/ (goals (db w') = goals (db w)
                /\ dbFault env GoalIncrement <> None
                /\ exists resp, r = Ok resp /\ r_success resp = false)))
  /\ ((forall sig, sendRawTransaction env signed = Ok sig ->
                   confirmTransaction env sig <> Ok tt) ->
      db w' = db w).
Proof.
  intros Hk H gid bid signed.
  pose proof (POST_trace rev env body w w' r Hk H) as Ht.
  fold gid bid signed in Ht. cbv zeta in Ht.
  split; [|split; [|split]].
  - intros resp -> Hok.
    destruct Ht as [Ht | (sig & amount & t & _ & _ & Hst & Hrow & Hc)].
    + apply POST_success in H as (c & sig & g0 & Hl & _ & _ & _ & Hg0 & Hg & Hrows & ->);
        [|done].
      apply POST_lookup_ok in Hl as (Hgoal & _ & Hb & _ & _ & _ & Hsw).
      simpl in Hgoal, Hsw. pose proof (Hk _ _ Hgoal) as Hid.
      destruct (settledRows_row env sig c (transactions (db w)) _ Hsw Hid)
        as (t & Hin & Htb & Htk & Hth & Hta & Hts & Hrow).
      exists sig, (lk_outputAmount c), t. split; [done|].
      subst gid bid. rewrite <- Hb. split; [by rewrite <- Hrows in Hin|].
      split; [exact Hrow|].
      rewrite Hid in Hg, Hg0. eapply credited_insert; [exact Hg0|exact Hg|].
      unfold settledGoal. cbv zeta. by destruct (Qle_bool _ _).
    + exists sig, amount, t.
      destruct Hc as [(_ & _ & resp' & [= <-] & Hf) | (Hc & resp' & [= <-] & Hr)];
        [congruence|].
      by rewrite (Hr Hok).
  - intros Hne.
    destruct Ht as [Ht | (sig & amount & t & Hs & Hc & Hst & Hrow & Hg)];
      [by rewrite Ht in Hne|].
    exists sig, amount, t. repeat (split; [done|]).
    destruct Hg as [(Hg & _) | (Hg & _)]; done.
  - intros Hne.
    destruct Ht as [Ht | (sig & amount & t & Hs & Hc & Hst & Hrow & Hg)]; [done|].
    exists sig, amount, t. repeat (split; [done|]).
    destruct Hg as [Hg | (Hg & _)]; [by right | by left].
  - intros Hno.
    destruct Ht as [Ht | (sig & amount & t & Hs & Hc & _)]; [done|].
    by destruct (Hno sig Hs).
Qed.

(** The amended C1 on the sample request: the answer is a success, the
    swap of 0.000002 is stamped on a row of goal g1 and credited to g1. *)
Lemma C1_success_stamps_and_credits_witness :
  let w := Sample.worldWith
             (Sample.dbWith (Sample.goalWith 0 ACTIVE) [] false) in
  let res := POST HeightChecked Sample.calm Sample.executeBody w in
  let amount := fromSmallestUnits 200 8 in
  snd res = Ok (success 200 (ExecutePayload amount "sig-1"))
  /\ exists t,
       stamped (db (fst res)) "b1" "sig-1" amount t
       /\ t_goalId t = "g1"
       /\ credited (db w) (db (fst res)) "g1" amount.
Proof.
  intros w res amount.
  assert (Hk : keyed (db w)) by (apply keyed_sample; reflexivity).
  assert (Hr : snd res = Ok (success 200 (ExecutePayload amount "sig-1")))
    by (vm_compute; reflexivity).
  split; [exact Hr|].
  destruct (proj1 (C1_success_stamps_and_credits HeightChecked Sample.calm
                     Sample.executeBody w (fst res) (snd res) Hk
                     (surjective_pairing res))
              _ Hr eq_refl)
    as (sig & amt & t & Hresp & Hst & Hrow & Hcr).
  injection Hresp as <- <-.
  exists t. split; [exact Hst|]. split; [exact Hrow | exact Hcr].
Defined.

(** The stamp goes to the row of the batch, not to a row of the goal: a
    request for goal g1 under a batch whose SWAP row is filed under goal g2
    stamps that row and credits g1. *)
Lemma stamped_row_may_belong_to_another_goal :
  let other := mkGoal "g2" "u1" "BTC" 1 0 10 WEEKLY ACTIVE in
  let row := mkTransaction "row-0" "g2" "b1" SWAP "JUPITER" "MAINNET" None None 0
               "mint-btc" (mkTxnMeta "QUOTED" (Some "quote-1") false None) in
  let w := Sample.worldWith
             (mkDb {[ "u1" := Sample.ann ]}
                   (<[ "g2" := other ]> {[ "g1" := Sample.goalWith 0 ACTIVE ]})
                   [row] ∅ false) in
  let res := POST Plain Sample.calm Sample.executeBody w in
  (exists t,
      transactions (db (fst res)) = [t]
      /\ t_goalId t = "g2"
      /\ t_batchId t = "b1" /\ t_txnHash t = Some "sig-1"
      /\ m_state (t_meta t) = "SWAP_CONFIRMED")
  /\ goals (db (fst res)) !! "g2" = Some other
  /\ exists g',
       goals (db (fst res)) !! "g1" = Some g'
       /\ g_investedAmount g' = (0 + fromSmallestUnits 200 8)%Q.
Proof.
  vm_compute. split; [|split; [reflexivity|]].
  - eexists. repeat split; reflexivity.
  - eexists. split; reflexivity.
Qed.

End StampAndCredit.

Section Resubmission.

Import InvestExecute.

Lemma find_map_preserved {A} (p : A -> bool) (f : A -> A) l :
  (forall x, p (f x) = p x) ->
  List.find p (List.map f l) = option_map f (List.find p l).
Proof.
  intros Hp. induction l as [|x l IH]; simpl; [done|].
  rewrite Hp. by destruct (p x).
Qed.

Lemma filter_map_preserved {A} (p : A -> bool) (f : A -> A) l :
  (forall x, p (f x) = p x) ->
  List.filter p (List.map f l) = List.map f (List.filter p l).
Proof.
  intros Hp. induction l as [|x l IH]; simpl; [done|].
  rewrite Hp. destruct (p x); simpl; by rewrite IH.
Qed.

Lemma restamp_matches sig c id b k r :
  matches b k (if String.eqb (t_id r) id then stamp sig c r else r)
  = matches b k r.
Proof. by destruct (String.eqb (t_id r) id). Qed.

(** C4 (as stated, refuted).  The same execute request is sent again after
    its swap row has been confirmed: the signed transaction goes to the
    network a second time and the stored row is rewritten with the second
    signature. *)
Lemma C4_counterexample_confirmed_row_resubmitted :
  let w0 := Sample.worldWith
              (Sample.dbWith (Sample.goalWith 0 ACTIVE) [] false) in
  let w1 := fst (POST Plain Sample.calm Sample.executeBody w0) in
  let again := Sample.withSend Sample.calm (Ok "sig-2") "row-2" in
  let w2 := fst (POST Plain again Sample.executeBody w1) in
  (t_txnHash <$> transactions (db w1)) = [Some "sig-1"]
  /\ ((fun t => m_state (t_meta t)) <$> transactions (db w1)) = ["SWAP_CONFIRMED"]
  /\ submitted w1 = ["AQID"]
  /\ submitted w2 = ["AQID"; "AQID"]
  /\ (t_txnHash <$> transactions (db w2)) = [Some "sig-2"].
Proof. vm_compute. repeat split; reflexivity. Qed.

(** C4 (amended).  For an execute request whose (batchId, SWAP) row already
    exists and which answers with success, the signed transaction has been
    handed to the network once more, no row has been added, and the
    existing row (same id) now carries the signature and amount of this
    execution, which are also what the response returns. *)
Theorem C4_existing_row_is_restamped rev env body w w' resp existing :
  List.find (matches (default EmptyString (batchId body)) SWAP)
            (transactions (db w)) = Some existing ->
  POST rev env body w = (w', Ok resp) ->
  r_success resp = true ->
  let bid := default EmptyString (batchId body) in
  let signed := default EmptyString (signedTransaction body) in
  exists sig t,
    sendRawTransaction env signed = Ok sig
    /\ submitted w' = (submitted w ++ [signed])%list
    /\ length (transactions (db w')) = length (transactions (db w))
    /\ List.find (matches bid SWAP) (transactions (db w')) = Some t
    /\ t_id t = t_id existing
    /\ t_txnHash t = Some sig
    /\ m_state (t_meta t) = "SWAP_CONFIRMED"
    /\ resp = success 200 (ExecutePayload (t_amountCrypto t) sig).
Proof.
  intros Hex H Hok bid signed. subst bid signed.
  apply POST_success in H
    as (c & sig & g0 & Hl & Hsend & _ & Hsub & _ & _ & Ht & ->); [|done].
  apply POST_lookup_ok in Hl as (_ & _ & Hb & Hs & _ & _ & Hsw).
  simpl in Hsw. rewrite Hb, Hex in Hsw. rewrite Hs in Hsend, Hsub.
  unfold settledRows in Ht. rewrite Hsw in Ht.
  exists sig, (stamp sig c existing).
  rewrite Ht, length_map, find_map_preserved, Hex by (intros; apply restamp_matches).
  simpl. by rewrite String.eqb_refl.
Qed.

(** The amended C4 on the sample request sent twice. *)
Lemma C4_existing_row_is_restamped_witness :
  let w0 := Sample.worldWith
              (Sample.dbWith (Sample.goalWith 0 ACTIVE) [] false) in
  let w1 := fst (POST Plain Sample.calm Sample.executeBody w0) in
  let again := Sample.withSend Sample.calm (Ok "sig-2") "row-2" in
  let res := POST Plain again Sample.executeBody w1 in
  exists sig t,
    sendRawTransaction again "AQID" = Ok sig
    /\ submitted (fst res) = (submitted w1 ++ ["AQID"])%list
    /\ length (transactions (db (fst res))) = length (transactions (db w1))
    /\ List.find (matches "b1" SWAP) (transactions (db (fst res))) = Some t
    /\ t_id t = "row-1"
    /\ t_txnHash t = Some sig
    /\ m_state (t_meta t) = "SWAP_CONFIRMED"
    /\ snd res = Ok (success 200 (ExecutePayload (t_amountCrypto t) sig)).
Proof.
  intros w0 w1 again res.
  destruct (C4_existing_row_is_restamped Plain again Sample.executeBody w1
              (fst res)
              (success 200
                 (ExecutePayload (fromSmallestUnits 200 8) "sig-2"))
              (InvestExecute.newSwapRow Sample.calm "sig-1"
                 (mkLooked (Sample.goalWith 0 ACTIVE) "b1" (Some "AQID")
                    (mkQuoteResponse 200 (Some "quote-1")) (Some 250%Z)
                    (mkTokenInfo "mint-btc" 8) (fromSmallestUnits 200 8) None)))
    as (sig & t & H1 & H2 & H3 & H4 & H5 & H6 & H7 & H8).
  - vm_compute. reflexivity.
  - vm_compute. reflexivity.
  - reflexivity.
  - exists sig, t. repeat split; try assumption.
    rewrite <- H8. vm_compute. reflexivity.
Defined.

End Resubmission.

Section GoalRequests.

Import GoalsRoute.

Lemma validate_ok cur s :
  validateStatusTransition cur s = Ok tt ->
  (cur = ACTIVE /\ s = "PAUSED") \/ (cur = PAUSED /\ s = "ACTIVE").
Proof.
  unfold validateStatusTransition.
  destruct (String.eqb s "COMPLETED") eqn:Hc; [done|].
  destruct cur; simpl; rewrite ?orb_false_r; try done.
  - destruct (String.eqb s "PAUSED") eqn:Hs; simpl; [|done].
    apply String.eqb_eq in Hs. auto.
  - destruct (String.eqb s "ACTIVE") eqn:Hs; simpl; [|done].
    apply String.eqb_eq in Hs. auto.
Qed.

(** What the request body can do to a goal row. *)
Lemma collectUpdates_ok goal body w w' f :
  collectUpdates goal body w = (w', Ok f) ->
  w' = w
  /\ forall g,
       g_id (f g) = g_id g
       /\ g_userId (f g) = g_userId g
       /\ g_targetAmount (f g) = g_targetAmount g
       /\ g_investedAmount (f g) = g_investedAmount g
       /\ (g_status (f g) = g_status g
           \/ exists s, p_status body = Some s
                /\ validateStatusTransition (g_status goal) s = Ok tt
                /\ statusOfName s = Some (g_status (f g))).
Proof.
  unfold collectUpdates. run.
  destruct (p_amountPerInterval body), (p_frequency body), (p_status body);
    crunch; split; try done; intros x; simpl; repeat split; try by left.
  all: right; eexists; repeat split; try done.
  all: by match goal with u : unit |- _ => destruct u end.
Qed.

Lemma collectUpdates_err goal body w w' e :
  collectUpdates goal body w = (w', Err e) -> w' = w.
Proof.
  unfold collectUpdates. run.
  destruct (p_amountPerInterval body), (p_frequency body), (p_status body);
    crunch; done.
Qed.

Lemma PATCH_goals env gid body w w' r :
  PATCH env gid body w = (w', r) ->
  transactions (db w') = transactions (db w)
  /\ (goals (db w') = goals (db w)
      \/ exists g0 f w0,
           goals (db w) !! gid = Some g0
           /\ g_status g0 <> COMPLETED
           /\ collectUpdates g0 body w0 = (w0, Ok f)
           /\ goals (db w') = <[gid := f g0]> (goals (db w))).
Proof.
  unfold PATCH, bind at 1, try_catch.
  destruct (requireAuth env w) as [w1 r1] eqn:Ha.
  apply requireAuth_world in Ha. subst w1.
  destruct r1 as [user|e]; [|run; intros; simplify_eq; simpl; split; [done|by left]].
  unfold prisma_goal_findFirst, prisma_goal_update. run.
  repeat (case_match; simplify_eq;
          try match goal with
              | H : collectUpdates _ _ _ = (_, Ok _) |- _ =>
                  pose proof (proj1 (collectUpdates_ok _ _ _ _ _ H)); subst
              | H : collectUpdates _ _ _ = (_, Err _) |- _ =>
                  apply collectUpdates_err in H; subst
              end).
  all: intros; simplify_eq; simpl in *; simplify_eq; (split; [done|]).
  all: try by left.
  all: right; do 3 eexists; repeat split; try eassumption; try done.
  all: intros Hx; apply status_eqb_eq in Hx; congruence.
Qed.

Lemma DELETE_goals env gid w w' r :
  DELETE env gid w = (w', r) ->
  transactions (db w') = transactions (db w)
  /\ (goals (db w') = goals (db w)
      \/ goals (db w') = delete gid (goals (db w))).
Proof.
  unfold DELETE, bind at 1, try_catch.
  destruct (requireAuth env w) as [w1 r1] eqn:Ha.
  apply requireAuth_world in Ha. subst w1.
  destruct r1 as [user|e]; [|run; intros; simplify_eq; simpl; split; [done|by left]].
  unfold prisma_goal_findFirst, prisma_goal_delete. run. simpl.
  crunch; simpl; split; try done; first [by left | by right].
Qed.

End GoalRequests.

Section PrepareEffects.

Import InvestPrepare.

(** The prepare route never touches a goal; it adds at most the on-ramp
    row of a batch that had none. *)
Lemma prepare_POST_db rev env body w w' r :
  POST rev env body w = (w', r) ->
  submitted w' = submitted w
  /\ goals (db w') = goals (db w)
  /\ (transactions (db w') = transactions (db w)
      \/ exists row g,
           goals (db w) !! default EmptyString (goalId body) = Some g
           /\ g_status g = ACTIVE
           /\ List.find (matches (nanoid env) ONRAMP) (transactions (db w)) = None
           /\ t_batchId row = nanoid env /\ t_type row = ONRAMP
           /\ transactions (db w') = (transactions (db w) ++ [row])%list).
Proof.
  unfold POST, try_catch, bind at 1, logger at 1.
  unfold bind at 1.
  match goal with
  | |- context [requireAuth env ?w0] =>
      destruct (requireAuth env w0) as [w1 r1] eqn:Ha
  end.
  apply requireAuth_world in Ha. subst w1.
  destruct r1 as [user|e];
    [|unfold onError; run; intros; simplify_eq; simpl; repeat split; by left].
  unfold ensureIdempotency, prisma_transaction, prisma_transaction_findFirst,
    prisma_transaction_create, prisma_goal_findFirst, onError.
  run.
  crunch; simpl in *; simplify_eq; repeat split; try done; try by left.
  all: right; do 2 eexists; repeat split; try eassumption; try done.
  all: match goal with
       | H : negb (status_eqb ?s ACTIVE) = false |- _ =>
           apply negb_false_iff, status_eqb_eq in H; exact H
       end.
Qed.

End PrepareEffects.

Section Served.

Lemma fromSmallestUnits_nonneg a d :
  (0 <= a)%Z -> (0 <= InvestExecute.fromSmallestUnits a d)%Q.
Proof.
  intros Ha. unfold InvestExecute.fromSmallestUnits.
  apply Qle_shift_div_l.
  - change 0%Q with (inject_Z 0). rewrite <- Zlt_Qlt.
    apply Z.pow_pos_nonneg; lia.
  - rewrite Qmult_0_l. change 0%Q with (inject_Z 0). by rewrite <- Zle_Qle.
Qed.

Lemma credited_le (x a : Q) : (0 <= a)%Q -> (x <= x + a)%Q.
Proof.
  intros Ha. rewrite <- (Qplus_0_r x) at 1.
  apply Qplus_le_r. exact Ha.
Qed.

Lemma find_none_filter {A} (p : A -> bool) l :
  List.find p l = None -> List.filter p l = [].
Proof.
  induction l as [|x l IH]; simpl; [done|].
  destruct (p x); [done|]. exact IH.
Qed.

(** What one request can do to the goal stored under [gid]. *)
Lemma handle_goal_at r w gid g :
  goals (db w) !! gid = Some g ->
  ((exists env, r = Delete env gid)
   /\ goals (db (fst (handle r w))) !! gid = None)
  \/ exists g',
       goals (db (fst (handle r w))) !! gid = Some g'
       /\ g_id g' = g_id g
       /\ (g_status g = COMPLETED -> g_status g' = COMPLETED)
       /\ (quoteNonNegative r -> (g_investedAmount g <= g_investedAmount g')%Q)
       /\ (isInvest r -> keyed (db w) -> g_status g <> ACTIVE -> g' = g).
Proof.
  intros Hg.
  destruct (handle r w) as [w' res] eqn:H. simpl.
  assert (Hsame : goals (db w') = goals (db w) ->
                  exists g', goals (db w') !! gid = Some g'
                             /\ g_id g' = g_id g
                             /\ (g_status g = COMPLETED -> g_status g' = COMPLETED)
                             /\ (quoteNonNegative r ->
                                 (g_investedAmount g <= g_investedAmount g')%Q)
                             /\ (isInvest r -> keyed (db w) ->
                                 g_status g <> ACTIVE -> g' = g)).
  { intros ->. exists g. repeat split; try done. intros _. apply Qle_refl. }
  destruct r as [rev env body | rev env body | env k body | env k]; simpl in H.
  - (* execute *)
    apply POST_any in H
      as [H | (c & sig & Hl & _ & _ & _ & _ & _ & _ & [H | (g0 & Hg0 & H)])].
    + right. apply Hsame. by rewrite H.
    + right. by apply Hsame.
    + right.
      apply POST_lookup_ok in Hl as (Hgoal & Hact & _ & _ & Hq & Hamt & _).
      simpl in Hgoal.
      destruct (decide (g_id (InvestExecute.lk_goal c) = gid)) as [Hk | Hk].
      * rewrite Hk in Hg0, H. rewrite Hg in Hg0. injection Hg0 as <-.
        assert (Hnn : quoteNonNegative (Execute rev env body) ->
                      (0 <= InvestExecute.lk_outputAmount c)%Q).
        { simpl. rewrite Hq, Hamt. apply fromSmallestUnits_nonneg. }
        assert (Hinv : isInvest (Execute rev env body) -> keyed (db w) ->
                       g_status g <> ACTIVE -> False).
        { intros _ Hkd Hna. pose proof (Hkd _ _ Hgoal) as Hid.
          rewrite Hk in Hid. rewrite <- Hid, Hg in Hgoal.
          injection Hgoal as ->. done. }
        destruct H as [-> | ->]; rewrite lookup_insert_eq;
          eexists; (split; [reflexivity|]).
        -- repeat split; try done.
           ++ intros Hq'. simpl. apply credited_le. by apply Hnn.
           ++ intros ? ? ?. by destruct Hinv.
        -- unfold settledGoal. case_match; repeat split; try done.
           ++ intros Hq'. simpl. apply credited_le. by apply Hnn.
           ++ intros ? ? ?. by destruct Hinv.
           ++ intros Hq'. simpl. apply credited_le. by apply Hnn.
           ++ intros ? ? ?. by destruct Hinv.
      * exists g.
        assert (goals (db w') !! gid = Some g) as ->.
        { destruct H as [-> | ->]; by rewrite lookup_insert_ne. }
        repeat split; try done. intros _. apply Qle_refl.
  - (* prepare *)
    apply prepare_POST_db in H as (_ & H & _). right. by apply Hsame.
  - (* patch *)
    apply PATCH_goals in H as (_ & [H | (g0 & f & w0 & Hg0 & Hnc & Hc & H)]).
    + right. by apply Hsame.
    + right. rewrite H.
      destruct (decide (k = gid)) as [-> | Hk].
      * rewrite lookup_insert_eq. simplify_eq.
        apply collectUpdates_ok in Hc as (_ & Hf).
        destruct (Hf g) as (Hid & _ & _ & Hinv & _).
        exists (f g). repeat split; try done.
        intros _. rewrite Hinv. apply Qle_refl.
      * rewrite lookup_insert_ne by done.
        exists g. repeat split; try done. intros _. apply Qle_refl.
  - (* delete *)
    apply DELETE_goals in H as (_ & [H | H]).
    + right. by apply Hsame.
    + rewrite H. destruct (decide (k = gid)) as [-> | Hk].
      * left. split; [by eexists | apply lookup_delete_eq].
      * right. rewrite lookup_delete_ne by done.
        exists g. repeat split; try done. intros _. apply Qle_refl.
Qed.

(** No request brings a goal into existence. *)
Lemma handle_goal_absent r w gid :
  goals (db w) !! gid = None ->
  goals (db (fst (handle r w))) !! gid = None.
Proof.
  intros Hg.
  destruct (handle r w) as [w' res] eqn:H. simpl.
  destruct r as [rev env body | rev env body | env k body | env k]; simpl in H.
  - apply POST_any in H
      as [H | (c & sig & Hl & _ & _ & _ & _ & _ & _ & [H | (g0 & Hg0 & H)])].
    + by rewrite H.
    + by rewrite H.
    + destruct (decide (g_id (InvestExecute.lk_goal c) = gid)) as [Hk | Hk].
      * rewrite Hk in *. congruence.
      * destruct H as [-> | ->]; by rewrite lookup_insert_ne.
  - apply prepare_POST_db in H as (_ & H & _). by rewrite H.
  - apply PATCH_goals in H as (_ & [H | (g0 & f & w0 & Hg0 & Hnc & Hc & H)]).
    + by rewrite H.
    + rewrite H. destruct (decide (k = gid)) as [-> | Hk]; [congruence|].
      by rewrite lookup_insert_ne.
  - apply DELETE_goals in H as (_ & [H | H]).
    + by rewrite H.
    + rewrite H. destruct (decide (k = gid)) as [-> | Hk].
      * apply lookup_delete_eq.
      * by rewrite lookup_delete_ne.
Qed.

Lemma serve_goal_absent rs w gid :
  goals (db w) !! gid = None ->
  goals (db (serve rs w)) !! gid = None.
Proof.
  revert w. induction rs as [|r rs IH]; intros w Hg; simpl; [done|].
  apply IH. by apply handle_goal_absent.
Qed.

End Served.

Section Monotonicity.

Lemma authenticated_requireAuth env w user :
  authenticated env (db w) user -> requireAuth env w = (w, Ok user).
Proof.
  intros (sub & Hs & Hne & Hf & Hu).
  unfold requireAuth, prisma_user_findUnique. run.
  rewrite Hs. simpl.
  destruct (String.eqb sub EmptyString) eqn:He;
    [apply String.eqb_eq in He; done|].
  by rewrite Hf, Hu.
Qed.

(** C7 (as stated, refuted).  The route credits the [outAmount] of the
    quote in the request body without looking at its sign: a confirmed swap
    whose quote reads -200 base units is answered with success and takes
    0.000002 off the invested amount. *)
Lemma C7_counterexample_negative_quote_lowers_invested :
  let body := InvestExecute.mkBody (Some "g1") (Some "b1") (Some "AQID")
                (Some (InvestExecute.mkQuoteResponse (-200) (Some "quote-1")))
                (Some 250%Z) in
  let w := Sample.worldWith
             (Sample.dbWith (Sample.goalWith (1 # 2) ACTIVE) [] false) in
  let res := InvestExecute.POST InvestExecute.Plain Sample.calm body w in
  (exists resp,
      snd res = Ok resp /\ r_status resp = 200%Z /\ r_success resp = true)
  /\ exists g',
       goals (db (fst res)) !! "g1" = Some g'
       /\ (g_investedAmount g' == 249999 # 500000)%Q
       /\ (g_investedAmount g' < 1 # 2)%Q.
Proof.
  split.
  - eexists. split; [vm_compute; reflexivity|]. split; reflexivity.
  - eexists. split; [vm_compute; reflexivity|]. split; vm_compute; reflexivity.
Qed.

(** C7 (amended).  Across any sequence of requests to the goal and invest
    routes in which every execute request quotes an [outAmount] that is not
    negative, the invested amount of a goal that is still there at the end
    is at least what it was at the start: no confirmed swap lowers it. *)
Theorem C7_invested_amount_never_decreases rs w gid g g' :
  Forall quoteNonNegative rs ->
  goals (db w) !! gid = Some g ->
  goals (db (serve rs w)) !! gid = Some g' ->
  (g_investedAmount g <= g_investedAmount g')%Q.
Proof.
  revert w g. induction rs as [|r rs IH]; intros w g Hnn Hg Hend; simpl in Hend.
  - rewrite Hg in Hend. injection Hend as ->. apply Qle_refl.
  - inversion Hnn as [|r0 rs0 Hr Hrs]; subst.
    destruct (handle_goal_at r w gid g Hg)
      as [[_ Hgone] | (g1 & Hg1 & _ & _ & Hle & _)].
    + apply (serve_goal_absent rs) in Hgone. congruence.
    + eapply Qle_trans; [by apply Hle|]. by eapply IH.
Qed.

(** C7 on three confirmed swaps of the sample goal: 0 before, 0.000006
    after. *)
Lemma C7_invested_amount_never_decreases_witness :
  let w := Sample.worldWith
             (Sample.dbWith (Sample.goalWith 0 ACTIVE) [] false) in
  let swap := Execute InvestExecute.Plain Sample.calm Sample.executeBody in
  exists g',
    goals (db (serve [swap; swap; swap] w)) !! "g1" = Some g'
    /\ (0 <= g_investedAmount g')%Q
    /\ (g_investedAmount g' == 6 # 1000000)%Q.
Proof.
  intros w swap.
  eexists. split; [vm_compute; reflexivity|]. split.
  - apply (C7_invested_amount_never_decreases [swap; swap; swap] w "g1"
             (Sample.goalWith 0 ACTIVE)).
    + repeat constructor; simpl; lia.
    + reflexivity.
    + vm_compute. reflexivity.
  - vm_compute. reflexivity.
Defined.

End Monotonicity.

Section DirectCompletion.

Import GoalsRoute GoalsRouteSteps.

Lemma collectUpdates_completed goal body w w' f :
  p_status body = Some "COMPLETED" ->
  collectUpdates goal body w = (w', Ok f) -> False.
Proof.
  intros Hs. unfold collectUpdates. run. rewrite Hs.
  unfold validateStatusTransition. simpl.
  destruct (p_amountPerInterval body), (p_frequency body); crunch.
Qed.

Lemma PATCH_completed_rejected env gid body w w' r :
  p_status body = Some "COMPLETED" ->
  PATCH env gid body w = (w', r) ->
  db w' = db w /\ exists resp, r = Ok resp /\ r_success resp = false.
Proof.
  intros Hs.
  unfold PATCH, bind at 1, try_catch.
  destruct (requireAuth env w) as [w1 r1] eqn:Ha.
  apply requireAuth_world in Ha. subst w1.
  destruct r1 as [user|e];
    [|run; intros; simplify_eq; simpl; split; [done|];
      eexists; split; [done|apply errorResponse_fails]].
  unfold prisma_goal_findFirst, prisma_goal_update. run.
  repeat (case_match; simplify_eq;
          try match goal with
              | H : collectUpdates _ _ _ = (_, Ok _) |- _ =>
                  destruct (collectUpdates_completed _ _ _ _ _ Hs H)
              | H : collectUpdates _ _ _ = (_, Err _) |- _ =>
                  apply collectUpdates_err in H; subst
              end).
  all: intros; simplify_eq; simpl in *; simplify_eq; (split; [done|]).
  all: eexists; split; [done|apply errorResponse_fails].
Qed.

Lemma PATCH_is_try_catch env gid body :
  PATCH env gid body = try_catch (PATCH_try env gid body) PATCH_catch.
Proof. reflexivity. Qed.

(** What the try block throws at a request for COMPLETED, once the caller's
    goal is found. *)
Lemma PATCH_try_completed env gid body w user g :
  authenticated env (db w) user ->
  ownsGoal env (db w) user (Some gid) g ->
  p_status body = Some "COMPLETED" ->
  exists e,
    PATCH_try env gid body w = (w, Err e)
    /\ (g_status g = COMPLETED -> e = GoalErrors "GOAL_ALREADY_COMPLETED")
    /\ (g_status g <> COMPLETED -> ~ amountPasses body ->
        e = GoalErrors "INVALID_AMOUNT")
    /\ (g_status g <> COMPLETED -> amountPasses body -> ~ frequencyPasses body ->
        e = GoalErrors "INVALID_FREQUENCY")
    /\ (g_status g <> COMPLETED -> amountPasses body -> frequencyPasses body ->
        e = INVALID_STATUS_TRANSITION).
Proof.
  intros Ha (Hf & Hg & Hu) Hs.
  unfold PATCH_try, bind at 1.
  rewrite (authenticated_requireAuth _ _ _ Ha).
  unfold prisma_goal_findFirst, collectUpdates, amountPasses, frequencyPasses.
  run. simpl in *.
  rewrite Hf. simpl. rewrite Hg, Hu, String.eqb_refl, Hs. simpl.
  destruct (status_eqb (g_status g) COMPLETED) eqn:Hc.
  { apply status_eqb_eq in Hc. eexists. split; [reflexivity|].
    repeat split; intros; done. }
  assert (Hnc : g_status g <> COMPLETED).
  { intros E. apply status_eqb_eq in E. congruence. }
  simpl.
  destruct (p_amountPerInterval body) as [a|]; simpl.
  - destruct (Qle_bool 10 a) eqn:Hq; simpl.
    + apply Qle_bool_iff in Hq.
      destruct (p_frequency body) as [f|]; simpl.
      * destruct (frequencyOfName f) as [fr|] eqn:Hfr; simpl;
          eexists; (split; [reflexivity|]); repeat split; intros; try done;
          try (exfalso; eauto; fail);
          match goal with H : is_Some None |- _ => by destruct H end.
      * eexists. split; [reflexivity|]. repeat split; intros; done.
    + assert (Hn : ~ (10 <= a)%Q).
      { intros E. apply Qle_bool_iff in E. congruence. }
      eexists. split; [reflexivity|]. repeat split; intros; done.
  - destruct (p_frequency body) as [f|]; simpl.
    + destruct (frequencyOfName f) as [fr|] eqn:Hfr; simpl;
        eexists; (split; [reflexivity|]); repeat split; intros; try done;
        try (exfalso; eauto; fail);
        match goal with H : is_Some None |- _ => by destruct H end.
    + eexists. split; [reflexivity|]. repeat split; intros; done.
Qed.

End DirectCompletion.

Section CompletionRule.

Import InvestExecute GoalsRouteSteps.

(** What an execute request, whatever its answer, makes of the goal it
    names. *)
Lemma POST_goal_after rev env body w w' r g g' :
  keyed (db w) ->
  POST rev env body w = (w', r) ->
  goals (db w) !! default EmptyString (goalId body) = Some g ->
  goals (db w') !! default EmptyString (goalId body) = Some g' ->
  g' = g
  \/ exists amount,
       let g1 := increment amount g in
       g_status g = ACTIVE
       /\ ((g' = g1
            /\ (dbFault env GoalSetStatus = None ->
                Qle_bool (g_targetAmount g1) (g_investedAmount g1) = false))
           \/ (g' = set_status COMPLETED g1
               /\ Qle_bool (g_targetAmount g1) (g_investedAmount g1) = true)).
Proof.
  intros Hk H Hg Hg'.
  apply POST_cases in H as (resp & -> & [H | [H | H]]).
  - destruct H as (e & _ & -> & _). simpl in Hg'. left. congruence.
  - destruct H as (c & w1 & e & Hl & Hs & -> & _). simpl in Hg'.
    apply POST_lookup_ok in Hl as (Hgoal & Hact & _).
    simpl in Hgoal. pose proof (Hk _ _ Hgoal) as Hid.
    rewrite Hg in Hgoal. injection Hgoal as ->.
    rewrite <- Hid in Hg.
    apply (POST_settle_trace _ _ _ _ _ _ _ Hg) in Hs
      as [Hs | (sig & _ & _ & _ & [(Hs & _) | [(Hs & _ & Hq) | (Hs & Hq & _)]])].
    + left. rewrite Hs, <- Hid, Hg in Hg'. congruence.
    + left. rewrite Hs, <- Hid, Hg in Hg'. congruence.
    + right. exists (lk_outputAmount c). split; [done|]. left.
      rewrite Hs, <- Hid, lookup_insert_eq in Hg'. injection Hg' as <-. done.
    + right. exists (lk_outputAmount c). split; [done|]. right.
      rewrite Hs, <- Hid, lookup_insert_eq in Hg'. injection Hg' as <-. done.
  - destruct H as (c & Hl & Hs).
    apply POST_lookup_ok in Hl as (Hgoal & Hact & _).
    simpl in Hgoal. pose proof (Hk _ _ Hgoal) as Hid.
    rewrite Hg in Hgoal. injection Hgoal as ->.
    rewrite <- Hid in Hg.
    apply (POST_settle_trace _ _ _ _ _ _ _ Hg) in Hs
      as [Hs | (sig & _ & _ & _ & [(Hs & _) | [(Hs & _ & Hq) | (Hs & Hq & _)]])].
    + left. rewrite Hs, <- Hid, Hg in Hg'. congruence.
    + left. rewrite Hs, <- Hid, Hg in Hg'. congruence.
    + right. exists (lk_outputAmount c). split; [done|]. left.
      rewrite Hs, <- Hid, lookup_insert_eq in Hg'. injection Hg' as <-. done.
    + right. exists (lk_outputAmount c). split; [done|]. right.
      rewrite Hs, <- Hid, lookup_insert_eq in Hg'. injection Hg' as <-. done.
Qed.

(** C3 (as stated, refuted), three ways.  A PATCH that asks for status
    COMPLETED on a goal that is already COMPLETED is turned away by the
    handler's guard on completed goals, which throws the
    goal-already-completed error before the transition check is consulted;
    one that also carries an amount under 10 is turned away by the amount
    check, which comes first too: in neither case is the error the
    invalid-transition error.  And when the database refuses the status
    write that follows a credit, the goal is left with its invested amount
    at or above the target and its status still ACTIVE. *)
Lemma C3_counterexample_other_error_and_funded_but_active :
  (let w := Sample.worldWith
              (Sample.dbWith (Sample.goalWith 1 COMPLETED) [] false) in
   let body := GoalsRoute.mkPatchBody None None (Some "COMPLETED") in
   snd (PATCH_try Sample.calm "g1" body w)
   = Err (GoalErrors "GOAL_ALREADY_COMPLETED")
   /\ GoalErrors "GOAL_ALREADY_COMPLETED" <> INVALID_STATUS_TRANSITION
   /\ db (fst (GoalsRoute.PATCH Sample.calm "g1" body w)) = db w)
  /\ (let w := Sample.worldWith
                 (Sample.dbWith (Sample.goalWith 0 ACTIVE) [] false) in
      let body := GoalsRoute.mkPatchBody (Some 5%Q) None (Some "COMPLETED") in
      snd (PATCH_try Sample.calm "g1" body w) = Err (GoalErrors "INVALID_AMOUNT")
      /\ GoalErrors "INVALID_AMOUNT" <> INVALID_STATUS_TRANSITION)
  /\ (let env := Sample.withFault Sample.calm GoalSetStatus
                   (Foreign "PrismaClientInitializationError"
                            "Can't reach database server") in
      let w := Sample.worldWith
                 (Sample.dbWith (Sample.goalWith (999999 # 1000000) ACTIVE) []
                    false) in
      let w' := fst (POST Plain env Sample.executeBody w) in
      exists g',
        goals (db w') !! "g1" = Some g'
        /\ (g_investedAmount g' == 1000001 # 1000000)%Q
        /\ (g_targetAmount g' <= g_investedAmount g')%Q
        /\ g_status g' = ACTIVE).
Proof.
  split; [|split].
  - vm_compute. repeat split; try reflexivity. discriminate.
  - vm_compute. split; [reflexivity | discriminate].
  - eexists. split; [vm_compute; reflexivity|].
    vm_compute. repeat split; try reflexivity. discriminate.
Qed.

(** C3 (amended).  The goal state machine: (1) the transition check refuses
    COMPLETED whatever the current status, with the invalid-transition
    error; (2) a PATCH whose body asks for status COMPLETED is never
    applied and never answered with success, whatever the current status
    and the rest of the body; (3) once the caller's goal is found, the error
    its try block throws, which the catch block turns into the answer, is
    the goal-already-completed error when the goal is COMPLETED, and
    otherwise the invalid-amount error when the body carries an amount
    under 10, else the invalid-frequency error when it carries an unknown
    frequency, else the invalid-transition error; (4) after a request that
    answers with success the goal is COMPLETED exactly when the invested
    amount has reached the target; (5) whatever the answer, a request that
    changed the goal found it ACTIVE and credited it, a goal it left
    COMPLETED has reached its target, and when the database does not refuse
    the status write a goal that has reached its target is COMPLETED;
    (6) a COMPLETED goal stays COMPLETED under every later request. *)
Theorem C3_completion_rule :
  (forall currentStatus,
      validateStatusTransition currentStatus "COMPLETED"
      = Err INVALID_STATUS_TRANSITION)
  /\ (forall env gid body w,
        GoalsRoute.p_status body = Some "COMPLETED" ->
        db (fst (GoalsRoute.PATCH env gid body w)) = db w
        /\ exists resp,
             snd (GoalsRoute.PATCH env gid body w) = Ok resp
             /\ r_success resp = false)
  /\ (forall env gid body w user g,
        authenticated env (db w) user ->
        ownsGoal env (db w) user (Some gid) g ->
        GoalsRoute.p_status body = Some "COMPLETED" ->
        exists e,
          PATCH_try env gid body w = (w, Err e)
          /\ snd (GoalsRoute.PATCH env gid body w)
             = Ok (errorResponse true "Failed to update goal" e)
          /\ (g_status g = COMPLETED ->
              e = GoalErrors "GOAL_ALREADY_COMPLETED")
          /\ (g_status g <> COMPLETED -> ~ amountPasses body ->
              e = GoalErrors "INVALID_AMOUNT")
          /\ (g_status g <> COMPLETED -> amountPasses body ->
              ~ frequencyPasses body ->
              e = GoalErrors "INVALID_FREQUENCY")
          /\ (g_status g <> COMPLETED -> amountPasses body ->
              frequencyPasses body ->
              e = INVALID_STATUS_TRANSITION))
  /\ (forall rev env body w w' resp,
        keyed (db w) ->
        POST rev env body w = (w', Ok resp) ->
        r_success resp = true ->
        exists g g',
          goals (db w) !! default EmptyString (goalId body) = Some g
          /\ goals (db w') !! default EmptyString (goalId body) = Some g'
          /\ (g_status g' = COMPLETED
              <-> (g_targetAmount g' <= g_investedAmount g')%Q))
  /\ (forall rev env body w w' r g g',
        keyed (db w) ->
        POST rev env body w = (w', r) ->
        goals (db w) !! default EmptyString (goalId body) = Some g ->
        goals (db w') !! default EmptyString (goalId body) = Some g' ->
        g' <> g ->
        g_status g = ACTIVE
        /\ (exists amount,
              g_investedAmount g' = (g_investedAmount g + amount)%Q)
        /\ (g_status g' = COMPLETED ->
            (g_targetAmount g' <= g_investedAmount g')%Q)
        /\ (dbFault env GoalSetStatus = None ->
            (g_targetAmount g' <= g_investedAmount g')%Q ->
            g_status g' = COMPLETED))
  /\ (forall rs w gid g g',
        goals (db w) !! gid = Some g ->
        g_status g = COMPLETED ->
        goals (db (serve rs w)) !! gid = Some g' ->
        g_status g' = COMPLETED).
Proof.
  split; [|split; [|split; [|split; [|split]]]].
  - by destruct currentStatus.
  - intros env gid body w Hs.
    destruct (GoalsRoute.PATCH env gid body w) as [w' r] eqn:H.
    by apply (PATCH_completed_rejected _ _ _ _ _ _ Hs) in H.
  - intros env gid body w user g Ha Ho Hs.
    destruct (PATCH_try_completed env gid body w user g Ha Ho Hs)
      as (e & He & H).
    exists e. split; [exact He|]. split; [|exact H].
    rewrite PATCH_is_try_catch. unfold try_catch. rewrite He.
    reflexivity.
  - intros rev env body w w' resp Hk H Hok.
    apply POST_success in H
      as (c & sig & g0 & Hl & _ & _ & _ & Hg0 & Hg & _ & ->); [|done].
    apply POST_lookup_ok in Hl as (Hgoal & Hact & _).
    simpl in Hgoal.
    pose proof (Hk _ _ Hgoal) as Hid.
    rewrite Hid in Hg0, Hg. rewrite Hgoal in Hg0. injection Hg0 as <-.
    exists (lk_goal c), (settledGoal c (lk_goal c)).
    rewrite Hg, lookup_insert_eq. repeat split; try done.
    + unfold settledGoal.
      destruct (Qle_bool _ _) eqn:Hq; simpl.
      * intros _. by apply Qle_bool_iff.
      * rewrite Hact. done.
    + unfold settledGoal.
      destruct (Qle_bool _ _) eqn:Hq; simpl; [done|].
      intros Hle. apply Qle_bool_iff in Hle. simpl in Hq. congruence.
  - intros rev env body w w' r g g' Hk H Hg Hg' Hne.
    destruct (POST_goal_after _ _ _ _ _ _ _ _ Hk H Hg Hg')
      as [-> | (amount & Hact & [[-> Hq] | [-> Hq]])]; [done| |].
    + split; [done|]. split; [by exists amount|]. split.
      * simpl. rewrite Hact. done.
      * intros Hf Hle. apply Qle_bool_iff in Hle.
        rewrite (Hq Hf) in Hle. done.
    + split; [done|]. split; [by exists amount|]. split.
      * intros _. by apply Qle_bool_iff.
      * done.
  - intros rs. induction rs as [|r rs IH]; intros w gid g g' Hg Hc Hend;
      simpl in Hend.
    + rewrite Hg in Hend. by injection Hend as <-.
    + destruct (handle_goal_at r w gid g Hg)
        as [[_ Hgone] | (g1 & Hg1 & _ & Hst & _)].
      * apply (serve_goal_absent rs) in Hgone. congruence.
      * eapply IH; [exact Hg1| by apply Hst | exact Hend].
Qed.

End CompletionRule.

Section InactiveGoals.

Lemma execute_inactive rev env body w w' r g :
  goals (db w) !! default EmptyString (InvestExecute.goalId body) = Some g ->
  g_status g <> ACTIVE ->
  InvestExecute.POST rev env body w = (w', r) ->
  db w' = db w /\ submitted w' = submitted w
  /\ exists resp, r = Ok resp /\ r_success resp = false.
Proof.
  intros Hg Hs H.
  apply POST_cases in H as (resp & -> & [H | [H | H]]).
  - destruct H as (e & _ & -> & ->). repeat split; try done.
    eexists. split; [done | apply errorResponse_fails].
  - destruct H as (c & w1 & e & Hl & _).
    apply POST_lookup_ok in Hl as (Hgoal & Hact & _). simpl in Hgoal.
    congruence.
  - destruct H as (c & Hl & _).
    apply POST_lookup_ok in Hl as (Hgoal & Hact & _). simpl in Hgoal.
    congruence.
Qed.

Lemma execute_inactive_answer rev env body w user g :
  authenticated env (db w) user ->
  executeWellFormed body ->
  ownsGoal env (db w) user (InvestExecute.goalId body) g ->
  g_status g <> ACTIVE ->
  snd (InvestExecute.POST rev env body w)
  = Ok (errorResponse false "Failed to execute investment"
          (ValidationError "Goal must be ACTIVE to execute investment")).
Proof.
  intros Ha (H1 & H2 & H3 & [q H4]) (Hf & Hg & Hu) Hs.
  unfold InvestExecute.POST, InvestExecute.POST_lookup, InvestExecute.onError.
  unfold try_catch, bind at 1, logger at 1.
  unfold bind at 1. unfold bind at 1.
  match goal with
  | |- context [requireAuth env ?w0] =>
      rewrite (authenticated_requireAuth env w0 user Ha)
  end.
  unfold prisma_goal_findFirst. run. simpl.
  rewrite H1, H2, H3, H4, Hf. simpl. rewrite Hg, Hu, String.eqb_refl.
  destruct (g_status g); simpl; done.
Qed.

Lemma prepare_POST_outcome rev env body w w' r :
  InvestPrepare.POST rev env body w = (w', r) ->
  exists resp,
    r = Ok resp
    /\ (db w' = db w
        \/ exists g,
             goals (db w) !! default EmptyString (InvestPrepare.goalId body)
             = Some g
             /\ g_status g = ACTIVE)
    /\ (r_success resp = true ->
        exists g,
          goals (db w) !! default EmptyString (InvestPrepare.goalId body)
          = Some g
          /\ g_status g = ACTIVE).
Proof.
  unfold InvestPrepare.POST, try_catch, bind at 1, logger at 1.
  unfold bind at 1.
  match goal with
  | |- context [requireAuth env ?w0] =>
      destruct (requireAuth env w0) as [w1 r1] eqn:Ha
  end.
  apply requireAuth_world in Ha. subst w1.
  destruct r1 as [user|e].
  2: { unfold InvestPrepare.onError; run; intros; simplify_eq; simpl.
       eexists. split; [done|]. split; [by left|].
       by rewrite errorResponse_fails. }
  unfold InvestPrepare.ensureIdempotency, prisma_transaction,
    prisma_transaction_findFirst, prisma_transaction_create,
    prisma_goal_findFirst, InvestPrepare.onError.
  run.
  crunch; simpl in *; simplify_eq; eexists; (split; [done|]).
  all: rewrite ?errorResponse_fails.
  all: split; [|try done].
  all: try (by left).
  all: try (right; eexists; split; [eassumption|]).
  all: try (intros _; eexists; split; [eassumption|]).
  all: match goal with
       | H : negb (status_eqb ?s ACTIVE) = false |- _ =>
           apply negb_false_iff, status_eqb_eq in H; exact H
       end.
Qed.

Lemma prepare_inactive_answer rev env body w user g :
  authenticated env (db w) user ->
  prepareWellFormed rev env body ->
  ownsGoal env (db w) user (InvestPrepare.goalId body) g ->
  g_status g <> ACTIVE ->
  snd (InvestPrepare.POST rev env body w)
  = Ok (errorResponse false "Failed to prepare investment"
          (ValidationError "Goal must be ACTIVE to invest")).
Proof.
  intros Ha (H1 & H2 & H3) (Hf & Hg & Hu) Hs.
  unfold InvestPrepare.POST, InvestPrepare.onError.
  unfold try_catch, bind at 1, logger at 1.
  unfold bind at 1.
  match goal with
  | |- context [requireAuth env ?w0] =>
      rewrite (authenticated_requireAuth env w0 user Ha)
  end.
  unfold prisma_goal_findFirst. run. simpl.
  rewrite H1, H2, H3, Hf. simpl. rewrite Hg, Hu, String.eqb_refl.
  destruct (g_status g); simpl; done.
Qed.

(** C10.  An execute or prepare request that addresses a goal which is not
    ACTIVE writes nothing and hands nothing to the network, and its answer
    is a failure; when the request is authenticated, well formed and the
    goal is the caller's, that failure is the validation error (400).  As a
    result no request of the invest flow changes a goal that is PAUSED or
    COMPLETED. *)
Theorem C10_inactive_goal_is_refused :
  (forall rev env body w g,
      goals (db w) !! default EmptyString (InvestExecute.goalId body) = Some g ->
      g_status g <> ACTIVE ->
      let res := InvestExecute.POST rev env body w in
      db (fst res) = db w /\ submitted (fst res) = submitted w
      /\ (exists resp, snd res = Ok resp /\ r_success resp = false)
      /\ (forall user,
            authenticated env (db w) user -> executeWellFormed body ->
            ownsGoal env (db w) user (InvestExecute.goalId body) g ->
            exists resp,
              snd res = Ok resp /\ r_status resp = 400%Z
              /\ r_code resp = Some "VALIDATION_ERROR"))
  /\ (forall rev env body w g,
        goals (db w) !! default EmptyString (InvestPrepare.goalId body) = Some g ->
        g_status g <> ACTIVE ->
        let res := InvestPrepare.POST rev env body w in
        db (fst res) = db w /\ submitted (fst res) = submitted w
        /\ (exists resp, snd res = Ok resp /\ r_success resp = false)
        /\ (forall user,
              authenticated env (db w) user -> prepareWellFormed rev env body ->
              ownsGoal env (db w) user (InvestPrepare.goalId body) g ->
              exists resp,
                snd res = Ok resp /\ r_status resp = 400%Z
                /\ r_code resp = Some "VALIDATION_ERROR"))
  /\ (forall r w gid g,
        isInvest r -> keyed (db w) ->
        goals (db w) !! gid = Some g ->
        g_status g <> ACTIVE ->
        goals (db (fst (handle r w))) !! gid = Some g).
Proof.
  split; [|split].
  - intros rev env body w g Hg Hs res. subst res.
    destruct (InvestExecute.POST rev env body w) as [w' r] eqn:H.
    destruct (execute_inactive _ _ _ _ _ _ _ Hg Hs H) as (Hd & Hsub & Hr).
    simpl. repeat split; try done.
    intros user Ha Hw Ho.
    pose proof (execute_inactive_answer rev env body w user g Ha Hw Ho Hs) as Hx.
    rewrite H in Hx. simpl in Hx. rewrite Hx. by eexists.
  - intros rev env body w g Hg Hs res. subst res.
    destruct (InvestPrepare.POST rev env body w) as [w' r] eqn:H.
    pose proof (prepare_POST_db _ _ _ _ _ _ H) as (Hsub & _).
    apply prepare_POST_outcome in H as H'.
    destruct H' as (resp & -> & Hd & Hok).
    simpl. repeat split; try done.
    + destruct Hd as [Hd | (g1 & Hg1 & Ha1)]; [done | congruence].
    + exists resp. split; [done|].
      destruct (r_success resp) eqn:Hr; [|done].
      destruct (Hok eq_refl) as (g1 & Hg1 & Ha1). congruence.
    + intros user Ha Hw Ho.
      pose proof (prepare_inactive_answer rev env body w user g Ha Hw Ho Hs) as Hx.
      rewrite H in Hx. simpl in Hx. injection Hx as ->. by eexists.
  - intros r w gid g Hi Hk Hg Hs.
    destruct (handle_goal_at r w gid g Hg)
      as [[[env ->] _] | (g1 & Hg1 & _ & _ & _ & Hsame)]; [done|].
    rewrite Hg1. f_equal. by apply Hsame.
Qed.

End InactiveGoals.

Section OneRowPerBatch.

Import InvestExecute.

Lemma settledRows_at_most env sig c rows :
  lk_swap c = List.find (matches (lk_batchId c) SWAP) rows ->
  (forall b k, (length (List.filter (matches b k) rows) <= 1)%nat) ->
  forall b k,
    (length (List.filter (matches b k) (settledRows env sig c rows)) <= 1)%nat.
Proof.
  intros Hf Hone b k. unfold settledRows.
  destruct (lk_swap c) as [existing|].
  - rewrite filter_map_preserved by (intros; apply restamp_matches).
    rewrite length_map. apply Hone.
  - rewrite List.filter_app, length_app. simpl.
    destruct (matches b k (newSwapRow env sig c)) eqn:Hm; simpl.
    + apply matches_spec in Hm as [<- <-]. simpl.
      symmetry in Hf. apply find_none_filter in Hf. by rewrite Hf.
    + rewrite Nat.add_0_r. apply Hone.
Qed.

Lemma appended_at_most b0 k0 row rows :
  List.find (matches b0 k0) rows = None ->
  t_batchId row = b0 -> t_type row = k0 ->
  (forall b k, (length (List.filter (matches b k) rows) <= 1)%nat) ->
  forall b k,
    (length (List.filter (matches b k) (rows ++ [row])) <= 1)%nat.
Proof.
  intros Hf Hb Hk Hone b k.
  rewrite List.filter_app, length_app. simpl.
  destruct (matches b k row) eqn:Hm; simpl.
  - apply matches_spec in Hm as [Hb' Hk']. subst.
    apply find_none_filter in Hf. by rewrite Hf.
  - rewrite Nat.add_0_r. apply Hone.
Qed.

Lemma handle_rows r w :
  atMostOnePerBatchKind (db w) ->
  atMostOnePerBatchKind (db (fst (handle r w))).
Proof.
  unfold atMostOnePerBatchKind, rowsFor. intros Hone.
  destruct (handle r w) as [w' res] eqn:H. simpl.
  destruct r as [rev env body | rev env body | env k body | env k]; simpl in H.
  - apply POST_any in H as [H | (c & sig & Hl & _ & _ & Ht & _)].
    + by rewrite H.
    + apply POST_lookup_ok in Hl as (_ & _ & _ & _ & _ & _ & Hsw).
      simpl in Hsw. rewrite Ht. by apply settledRows_at_most.
  - apply prepare_POST_db in H
      as (_ & _ & [H | (row & g & _ & _ & Hf & Hb & Hk & H)]).
    + by rewrite H.
    + rewrite H. by eapply appended_at_most.
  - apply PATCH_goals in H as (H & _). by rewrite H.
  - apply DELETE_goals in H as (H & _). by rewrite H.
Qed.

(** C2 (as stated, refuted).  Two execute requests for the same batch are
    in flight together: both look the swap row up before either writes.
    Without a unique index on (batchId, type) the table ends with two SWAP
    rows for the batch; with one, the second request is answered with the
    generic 500 (it does not read the first one's row back), after its
    transaction has gone to the network. *)
Lemma C2_counterexample_overlapping_executes :
  let start u :=
    Sample.worldWith (Sample.dbWith (Sample.goalWith 0 ACTIVE) [] u) in
  let second := Sample.withSend Sample.calm (Ok "sig-2") "row-2" in
  let race u :=
    overlapped Plain Sample.calm Sample.executeBody second Sample.executeBody
               (start u) in
  length (rowsFor "b1" SWAP (db (fst (race false)))) = 2%nat
  /\ length (rowsFor "b1" SWAP (db (fst (race true)))) = 1%nat
  /\ match snd (race true) with
     | Ok (first, loser) =>
         r_success first = true
         /\ r_status loser = 500%Z
         /\ r_code loser = Some "INTERNAL_ERROR"
         /\ r_payload loser = NoPayload
     | Err _ => False
     end
  /\ submitted (fst (race true)) = ["AQID"; "AQID"].
Proof. vm_compute. repeat split; reflexivity. Qed.

(** C2 (amended).  When the requests to the goal and invest routes are
    served one after the other, a table with at most one transaction row
    per (batchId, kind) still has at most one per (batchId, kind)
    afterwards: an execute request stamps the row of its batch in place
    when there is one and creates it otherwise, and a prepare request
    creates its on-ramp row through the idempotency guard. *)
Theorem C2_one_row_per_batch_and_kind rs w :
  atMostOnePerBatchKind (db w) ->
  atMostOnePerBatchKind (db (serve rs w)).
Proof.
  revert w. induction rs as [|r rs IH]; intros w Hone; simpl; [done|].
  apply IH. by apply handle_rows.
Qed.

(** The amended C2 on a prepare followed by the same execute sent twice. *)
Lemma C2_one_row_per_batch_and_kind_witness :
  let w := Sample.worldWith
             (Sample.dbWith (Sample.goalWith 0 ACTIVE) [] false) in
  let rs := [ Prepare InvestPrepare.SolInput Sample.calm Sample.prepareBody;
              Execute Plain Sample.calm Sample.executeBody;
              Execute Plain (Sample.withSend Sample.calm (Ok "sig-2") "row-2")
                      Sample.executeBody ] in
  atMostOnePerBatchKind (db w)
  /\ atMostOnePerBatchKind (db (serve rs w))
  /\ length (transactions (db (serve rs w))) = 2%nat.
Proof.
  intros w rs.
  assert (H0 : atMostOnePerBatchKind (db w)).
  { intros b k. simpl. lia. }
  split; [exact H0|]. split.
  - exact (C2_one_row_per_batch_and_kind rs w H0).
  - vm_compute. reflexivity.
Defined.

End OneRowPerBatch.

Section ExpiredTransfer.

Import InternalTransferRoute.

(** C5.  A submit request whose transaction the node refuses with a
    blockhash-expiry error, for a transfer that is on record with a
    positive amount, is answered 409, retryable, BLOCKHASH_EXPIRED, with the
    batch id it came with and a refreshed payload: the unsigned transaction,
    blockhash, last valid block height and fee estimate of the transfer
    just rebuilt, for the source, destination and amount on record.  The
    stored transfer is back in state PREPARED under the same batch id,
    with no signature, the blockhash of the rebuilt transfer, and a refresh
    counter one more than before (1 when it had none). *)
Theorem C5_expired_blockhash_is_refreshed env body bid admin w rec e tx u :
  validSubmission env body tx ->
  sendRawTransaction env (default EmptyString (signedTransaction body)) = Err e ->
  isBlockhashExpiredError e = true ->
  internalTransfers (db w) !! bid = Some rec ->
  (0 < it_lamports rec)%Z ->
  dbFault env TransferFindUnique = None ->
  dbFault env TransferUpdate = None ->
  buildTransfer env (it_sourceAddress rec) (it_destinationAddress rec)
                (it_lamports rec) = Ok u ->
  exists w' resp rec',
    handleSubmitMode env body bid admin w = (w', Ok resp)
    /\ r_status resp = 409%Z
    /\ r_success resp = false
    /\ r_retryable resp = true
    /\ r_code resp = Some "BLOCKHASH_EXPIRED"
    /\ r_payload resp
       = RefreshedPayload bid
           (formatTransferResponse (it_sourceAddress rec)
              (it_destinationAddress rec) (it_lamports rec) (it_memo rec) u)
    /\ (exists p,
          r_payload resp = RefreshedPayload bid p
          /\ tp_unsignedTransaction p = ut_unsignedTransaction u
          /\ tp_recentBlockhash p = ut_recentBlockhash u
          /\ tp_lastValidBlockHeight p = ut_lastValidBlockHeight u
          /\ tp_feeEstimateLamports p = ut_feeEstimateLamports u
          /\ tp_fromAddress p = it_sourceAddress rec
          /\ tp_toAddress p = it_destinationAddress rec
          /\ tp_lamports p = it_lamports rec)
    /\ internalTransfers (db w') !! bid = Some rec'
    /\ it_state rec' = PREPARED
    /\ it_batchId rec' = it_batchId rec
    /\ it_signature rec' = None
    /\ refreshCountOf rec' = (refreshCountOf rec + 1)%Z
    /\ (md_recentBlockhash <$> it_metadata rec')
       = Some (Some (ut_recentBlockhash u)).
Proof.
  intros (V1 & V2 & V3 & V4 & V5) Hsend Hexp Hrec Hpos Hf1 Hf2 Hb.
  unfold handleSubmitMode, submitTransaction, InvestExecute.sendRaw,
    markTransferSubmitted, refreshExpiredTransfer, buildUnsignedTransfer,
    prisma_internalTransfer_findUnique, prisma_internalTransfer_update.
  run. rewrite V1, V2, V3, V4. simpl.
  assert (Hv5 : negb (Js.falsy_str (expectedFromAddress body))
                && negb (bool_decide (expectedFromAddress body = tx_feePayer tx))
                = false).
  { destruct V5 as [-> | ->]; [done|].
    rewrite bool_decide_eq_true_2 by done. apply andb_false_r. }
  rewrite Hv5, Hsend, Hexp, Hf1. simpl. rewrite Hrec.
  assert (Hle : (it_lamports rec <=? 0)%Z = false) by (apply Z.leb_gt; lia).
  rewrite Hle, Hb, Hf2. simpl. rewrite Hrec.
  do 3 eexists. split; [reflexivity|]. simpl.
  rewrite lookup_insert_eq.
  do 5 (split; [done|]).
  split; [eexists; split; [reflexivity|]; by repeat split|].
  repeat split; try done.
  unfold refreshCountOf. simpl.
  destruct (it_metadata rec) as [m|]; simpl; [|done].
  destruct (md_refreshCount m) as [n|]; simpl; [|done].
  destruct (n =? 0)%Z eqn:Hn; [apply Z.eqb_eq in Hn; by subst|done].
Qed.

(** C5 on the sample transfer: first refresh, counter 1, the rebuilt
    transaction in the answer. *)
Lemma C5_expired_blockhash_is_refreshed_witness :
  let env := Sample.withSend Sample.calm
               (Err (Foreign "SendTransactionError"
                       "Transaction simulation failed: Blockhash not found"))
               "row-1" in
  let res := handleSubmitMode env Sample.submitBody "t1" Sample.ann
               (Sample.worldWith Sample.transferDb) in
  exists resp p rec',
    snd res = Ok resp
    /\ r_status resp = 409%Z /\ r_retryable resp = true
    /\ r_code resp = Some "BLOCKHASH_EXPIRED"
    /\ r_payload resp = RefreshedPayload "t1" p
    /\ tp_unsignedTransaction p = "unsigned-2"
    /\ tp_recentBlockhash p = "hash-2"
    /\ tp_lastValidBlockHeight p = 250%Z
    /\ tp_fromAddress p = "AnnWallet"
    /\ tp_toAddress p = "BobWallet"
    /\ tp_lamports p = 250000000%Z
    /\ internalTransfers (db (fst res)) !! "t1" = Some rec'
    /\ it_state rec' = PREPARED
    /\ it_batchId rec' = "t1"
    /\ refreshCountOf rec' = 1%Z.
Proof.
  intros env res.
  destruct (C5_expired_blockhash_is_refreshed env Sample.submitBody "t1"
              Sample.ann (Sample.worldWith Sample.transferDb)
              Sample.preparedTransfer
              (Foreign "SendTransactionError"
                 "Transaction simulation failed: Blockhash not found")
              (mkTxInfo (Some "hash-1") (Some "AnnWallet"))
              (mkUnsignedTransfer "unsigned-2" "hash-2" 250 (Some 5000%Z)))
    as (w' & resp & rec' & H & H1 & H2 & H3 & H4 & H5
        & (p & Hp & P1 & P2 & P3 & P4 & P5 & P6 & P7)
        & H6 & H7 & H8 & H9 & H10 & H11).
  - repeat split; try reflexivity. by left.
  - reflexivity.
  - vm_compute. reflexivity.
  - reflexivity.
  - simpl. lia.
  - reflexivity.
  - reflexivity.
  - reflexivity.
  - exists resp, p, rec'. subst res. rewrite H. simpl.
    repeat split; try assumption.
Defined.

End ExpiredTransfer.

Section FailureTrail.



Import InternalTransferRoute.





End FailureTrail.

Section Numbers.

Import SwapCard.

(** [Math.floor] is the floor: never above its argument, less than one
    below it. *)
Lemma Math_floor_spec x n :
  Math_floor x = Some n ->
  exists q, exact x = Some q
            /\ (inject_Z n <= q)%Q /\ (q < inject_Z n + 1)%Q.
Proof.
  unfold Math_floor, exact.
  destruct (Prim2SF x) as [s | s | | s m e]; try done.
  - intros [= <-]. exists 0%Q. split; [done|].
    split; [apply Qle_refl | reflexivity].
  - intros [= <-]. set (z := if s then Z.neg m else Z.pos m).
    destruct (0 <=? e)%Z eqn:He.
    + apply Z.leb_le in He. rewrite Z.shiftl_mul_pow2 by done.
      eexists. split; [done|]. split; [apply Qle_refl|].
      rewrite <- (Qplus_0_r (inject_Z (z * 2 ^ e))) at 1.
      apply Qplus_lt_r. reflexivity.
    + apply Z.leb_gt in He.
      assert (Hd : (0 < 2 ^ (- e))%Z) by (apply Z.pow_pos_nonneg; lia).
      assert (Hs : Z.shiftl z e = (z / 2 ^ (- e))%Z).
      { rewrite <- (Z.opp_involutive e) at 1.
        rewrite Z.shiftl_opp_r. apply Z.shiftr_div_pow2. lia. }
      rewrite Hs. eexists. split; [done|].
      assert (HdQ : (0 < inject_Z (2 ^ (- e)))%Q).
      { change 0%Q with (inject_Z 0). by rewrite <- Zlt_Qlt. }
      split.
      * apply Qle_shift_div_l; [done|].
        rewrite <- inject_Z_mult, <- Zle_Qle.
        rewrite Z.mul_comm. apply Z.mul_div_le. done.
      * apply Qlt_shift_div_r; [done|].
        change 1%Q with (inject_Z 1).
        rewrite <- inject_Z_plus, <- inject_Z_mult, <- Zlt_Qlt.
        pose proof (Z.mul_succ_div_gt z (2 ^ (- e)) Hd). lia.
Qed.

(** C6 (as stated, refuted).  [parseFloat] of 1.001 times [Math.pow(10, 9)]
    is a number just below 1001000000, so the floor sends 1.001 SOL to
    1000999999 lamports, one short of the exact 1001000000; dividing back
    gives a number different from the one that was typed in. *)
Lemma C6_counterexample_one_base_unit_lost :
  let fromAmount := parseDecimal 1001 3 in
  fromAmount = 0x1.004189374bc6ap+0%float
  /\ amountInSmallestUnits fromAmount 9 = Some 1000999999%Z
  /\ (1001 * 10 ^ (9 - 3) = 1001000000)%Z
  /\ exact (fromAmount * pow10 9)%float = Some (8396996607999999 # 8388608)%Q
  /\ (8396996607999999 # 8388608 < 1001000000)%Q
  /\ PrimFloat.eqb (amountFromSmallestUnits 1000999999 9) fromAmount = false
  /\ PrimFloat.eqb (amountFromSmallestUnits 1001000000 9) fromAmount = true.
Proof. vm_compute. repeat split; reflexivity. Qed.

(** C6 (amended).  The amount sent with a quote request is the floor of the
    product the card computes, amount times ten to the power decimals in the
    number type of the source language: it is never above that product and
    less than one base unit below it, so the conversion never rounds up; for
    a product that is not negative it is the integer part (truncation toward
    zero); and when the product is a whole number of base units, that number
    is what is sent. *)
Theorem C6_conversion_is_floor_of_product fromAmount decimals n :
  amountInSmallestUnits fromAmount decimals = Some n ->
  exists q,
    exact (fromAmount * pow10 (decimalsOr9 decimals))%float = Some q
    /\ (inject_Z n <= q)%Q /\ (q < inject_Z n + 1)%Q
    /\ ((0 <= q)%Q -> (0 <= n)%Z)
    /\ (forall k, (q == inject_Z k)%Q -> n = k).
Proof.
  unfold amountInSmallestUnits. intros H.
  destruct (Math_floor_spec _ _ H) as (q & Hq & Hle & Hlt).
  exists q. split; [exact Hq|]. split; [exact Hle|]. split; [exact Hlt|].
  change 1%Q with (inject_Z 1) in Hlt. rewrite <- inject_Z_plus in Hlt.
  split.
  - intros H0.
    assert (Hn : (inject_Z 0 < inject_Z (n + 1))%Q)
      by (eapply Qle_lt_trans; [exact H0 | exact Hlt]).
    rewrite <- Zlt_Qlt in Hn. lia.
  - intros k Hk. rewrite Hk in Hle, Hlt.
    rewrite <- Zle_Qle in Hle. rewrite <- Zlt_Qlt in Hlt. lia.
Qed.

End Numbers.

Section Slippage.

Import SwapCard SlippagePolicy.

Lemma onSlippageEvent_in_ladder sel e :
  In (so_bps sel) ladder -> In (so_bps (onSlippageEvent sel e)) ladder.
Proof.
  intros Hs. destruct e as [i | b]; [simpl | unfold onSlippageEvent].
  - do 4 (destruct i as [|i]; [vm_compute; tauto|]). by destruct i.
  - destruct (Js.falsy_num b); [done|].
    match goal with
    | |- context [List.find ?p SLIPPAGE_OPTIONS] =>
        destruct (List.find p SLIPPAGE_OPTIONS) as [o|] eqn:Hf; [|done]
    end.
    apply find_some in Hf as [Hin _].
    simpl in Hin. vm_compute.
    destruct Hin as [<- | [<- | [<- | [<- | []]]]]; tauto.
Qed.

Lemma selectedAfter_in_ladder events sel :
  In (so_bps sel) ladder ->
  In (so_bps (fold_left onSlippageEvent events sel)) ladder.
Proof.
  revert sel. induction events as [|e events IH]; intros sel Hs; simpl; [done|].
  apply IH. by apply onSlippageEvent_in_ladder.
Qed.

Lemma escalate_requote cur step :
  escalate cur = Requote step ->
  (cur < step)%Z /\ (step <= ceiling)%Z /\ In step ladder
  /\ forall s, In s ladder -> (cur < s)%Z -> (step <= s)%Z.
Proof.
  unfold escalate, ceiling. simpl.
  repeat (case_match; simplify_eq); intros; simplify_eq.
  all: repeat match goal with
         | H : _ && _ = true |- _ => apply andb_true_iff in H as [? ?]
         | H : _ && _ = false |- _ => apply andb_false_iff in H
         | H : (_ <? _)%Z = true |- _ => apply Z.ltb_lt in H
         | H : (_ <=? _)%Z = true |- _ => apply Z.leb_le in H
         end.
  all: repeat split; try lia; try (vm_compute; tauto).
  all: intros s Hs Hlt; vm_compute in Hs;
    destruct Hs as [<- | [<- | [<- | [<- | []]]]]; try lia.
  all: repeat match goal with
         | H : _ \/ _ |- _ => destruct H
         | H : (_ <? _)%Z = false |- _ => apply Z.ltb_ge in H
         | H : (_ <=? _)%Z = false |- _ => apply Z.leb_gt in H
         end; lia.
Qed.

Lemma escalate_terminal cur :
  (ceiling <= cur)%Z -> escalate cur = Terminal.
Proof.
  unfold escalate, ceiling. simpl. intros H.
  repeat (case_match; simplify_eq); try done.
  all: repeat match goal with
         | H : _ && _ = true |- _ => apply andb_true_iff in H as [? ?]
         | H : (_ <? _)%Z = true |- _ => apply Z.ltb_lt in H
         | H : (_ <=? _)%Z = true |- _ => apply Z.leb_le in H
         end; lia.
Qed.

Lemma escalations_bounded fuel cur :
  Forall (fun step => (step <= ceiling)%Z) (escalations fuel cur).
Proof.
  revert cur. induction fuel as [|fuel IH]; intros cur; simpl; [constructor|].
  destruct (escalate cur) as [step|] eqn:He; [|constructor].
  constructor; [|apply IH].
  by apply escalate_requote in He as (_ & ? & _).
Qed.

(** C9.  The ladder offered by the swap card is 50, 100, 150, 200 basis
    points with 200 as its ceiling.  An escalation moves to the next step
    strictly above the current tolerance and never above the ceiling; at or
    past the ceiling it is terminal; so every tolerance requested along a
    run of slippage retries is at most 200.  On the client, the selected
    tolerance that quote requests carry never leaves the ladder, whatever
    the user clicks and whatever [newSlippageBps] the server answers. *)
Theorem C9_escalation_stays_within_ceiling :
  ladder = [50; 100; 150; 200]%Z
  /\ ceiling = 200%Z
  /\ (forall cur step,
        escalate cur = Requote step ->
        (cur < step)%Z /\ (step <= 200)%Z /\ In step ladder
        /\ forall s, In s ladder -> (cur < s)%Z -> (step <= s)%Z)
  /\ (forall cur, (200 <= cur)%Z -> escalate cur = Terminal)
  /\ (forall fuel cur,
        Forall (fun step => (step <= 200)%Z) (escalations fuel cur))
  /\ escalations 10 50 = [100; 150; 200]%Z
  /\ (forall events,
        In (so_bps (selectedAfter events)) ladder
        /\ (so_bps (selectedAfter events) <= 200)%Z).
Proof.
  split; [reflexivity|]. split; [reflexivity|].
  split; [apply escalate_requote|]. split; [apply escalate_terminal|].
  split; [apply escalations_bounded|]. split; [reflexivity|].
  intros events.
  assert (H : In (so_bps (selectedAfter events)) ladder).
  { apply selectedAfter_in_ladder. vm_compute. tauto. }
  split; [exact H|].
  change ladder with [50; 100; 150; 200]%Z in H.
  destruct H as [<- | [<- | [<- | [<- | []]]]]; lia.
Qed.

End Slippage.

Section Scenarios.

Lemma authenticated_sample g rows u :
  authenticated Sample.calm (Sample.dbWith g rows u) Sample.ann.
Proof. exists "u1". repeat split; done. Qed.

(** The amended C3 on the scenario of the specification: target 1,
    invested 0.999999, a confirmed swap of 0.000002 brings the goal to
    1.000001 and flips it to COMPLETED; after that a PATCH back to ACTIVE
    leaves it COMPLETED; and a direct PATCH of the ACTIVE goal to COMPLETED
    throws the invalid-transition error. *)
Lemma C3_completion_rule_witness :
  let w := Sample.worldWith
             (Sample.dbWith (Sample.goalWith (999999 # 1000000) ACTIVE) [] false) in
  let res := InvestExecute.POST InvestExecute.HeightChecked Sample.calm
               Sample.executeBody w in
  let direct := GoalsRoute.mkPatchBody None None (Some "COMPLETED") in
  (exists g',
      goals (db (fst res)) !! "g1" = Some g'
      /\ (g_investedAmount g' == 1000001 # 1000000)%Q
      /\ g_status g' = COMPLETED)
  /\ (exists g',
        goals (db (serve [Patch Sample.calm "g1"
                            (GoalsRoute.mkPatchBody None None (Some "ACTIVE"))]
                         (fst res))) !! "g1" = Some g'
        /\ g_status g' = COMPLETED)
  /\ GoalsRouteSteps.PATCH_try Sample.calm "g1" direct w
     = (w, Err INVALID_STATUS_TRANSITION)
  /\ snd (GoalsRoute.PATCH Sample.calm "g1" direct w)
     = Ok (errorResponse true "Failed to update goal" INVALID_STATUS_TRANSITION).
Proof.
  intros w res direct.
  destruct C3_completion_rule as (_ & _ & Hthrown & Hiff & _ & Hterm).
  assert (Hk : keyed (db w)) by (apply keyed_sample; reflexivity).
  destruct (Hiff InvestExecute.HeightChecked Sample.calm Sample.executeBody w
              (fst res)
              (success 200
                 (ExecutePayload (InvestExecute.fromSmallestUnits 200 8) "sig-1"))
              Hk)
    as (g & g' & Hg & Hg' & Hst).
  { vm_compute. reflexivity. }
  { reflexivity. }
  assert (Hinv : (g_investedAmount g' == 1000001 # 1000000)%Q).
  { change (goals (db (fst res)) !! "g1" = Some g') in Hg'.
    vm_compute in Hg'. injection Hg' as <-. vm_compute. reflexivity. }
  assert (Hc : g_status g' = COMPLETED).
  { apply Hst.
    change (goals (db (fst res)) !! "g1" = Some g') in Hg'.
    vm_compute in Hg'. injection Hg' as <-. vm_compute. discriminate. }
  split; [|split].
  - exists g'. repeat split; assumption.
  - eassert (Hf : goals (db (serve [Patch Sample.calm "g1"
                            (GoalsRoute.mkPatchBody None None (Some "ACTIVE"))]
                         (fst res))) !! "g1" = Some _)
      by (vm_compute; reflexivity).
    eexists. split; [exact Hf|].
    exact (Hterm _ (fst res) "g1" g' _ Hg' Hc Hf).
  - destruct (Hthrown Sample.calm "g1" direct w Sample.ann
                (Sample.goalWith (999999 # 1000000) ACTIVE))
      as (e & He & Hanswer & _ & _ & _ & Htr).
    + apply authenticated_sample.
    + repeat split; reflexivity.
    + reflexivity.
    + assert (E : e = INVALID_STATUS_TRANSITION).
      { apply Htr; [discriminate | exact I | exact I]. }
      subst e. split; [exact He | exact Hanswer].
Defined.

(** C10 on the sample goal put on pause: the execute and the prepare
    request are both answered 400 and the goal row is what it was. *)
Lemma C10_inactive_goal_is_refused_witness :
  let w := Sample.worldWith
             (Sample.dbWith (Sample.goalWith (1 # 2) PAUSED) [] false) in
  let e := InvestExecute.POST InvestExecute.HeightChecked Sample.calm
             Sample.executeBody w in
  let p := InvestPrepare.POST InvestPrepare.SolInput Sample.calm
             Sample.prepareBody w in
  (db (fst e) = db w /\ submitted (fst e) = []
   /\ exists resp, snd e = Ok resp /\ r_status resp = 400%Z
                   /\ r_code resp = Some "VALIDATION_ERROR")
  /\ (db (fst p) = db w /\ submitted (fst p) = []
      /\ exists resp, snd p = Ok resp /\ r_status resp = 400%Z
                      /\ r_code resp = Some "VALIDATION_ERROR").
Proof.
  intros w e p.
  destruct C10_inactive_goal_is_refused as (Hex & Hpr & _).
  assert (Hs : g_status (Sample.goalWith (1 # 2) PAUSED) <> ACTIVE)
    by discriminate.
  split.
  - destruct (Hex InvestExecute.HeightChecked Sample.calm Sample.executeBody w
                  (Sample.goalWith (1 # 2) PAUSED) eq_refl Hs)
      as (Hd & Hsub & _ & Hans).
    split; [exact Hd|]. split; [exact Hsub|].
    apply (Hans Sample.ann).
    + apply authenticated_sample.
    + repeat split; try reflexivity. by eexists.
    + repeat split; reflexivity.
  - destruct (Hpr InvestPrepare.SolInput Sample.calm Sample.prepareBody w
                  (Sample.goalWith (1 # 2) PAUSED) eq_refl Hs)
      as (Hd & Hsub & _ & Hans).
    split; [exact Hd|]. split; [exact Hsub|].
    apply (Hans Sample.ann).
    + apply authenticated_sample.
    + repeat split; reflexivity.
    + repeat split; reflexivity.
Defined.

(** C9 on the ladder itself: from the first step the policy asks for 100,
    and at the ceiling it gives up. *)
Lemma C9_escalation_stays_within_ceiling_witness :
  SlippagePolicy.escalate 50 = SlippagePolicy.Requote 100
  /\ (50 < 100)%Z /\ (100 <= 200)%Z
  /\ SlippagePolicy.escalate 200 = SlippagePolicy.Terminal.
Proof.
  destruct C9_escalation_stays_within_ceiling
    as (_ & _ & Hstep & Hterm & _).
  destruct (Hstep 50%Z 100%Z eq_refl) as (H1 & H2 & _).
  split; [reflexivity|]. split; [exact H1|]. split; [exact H2|].
  apply Hterm. lia.
Defined.

(** The amended C6 on 1.5 SOL: 1500000000 lamports, and here the way
    back gives 1.5 again. *)
Lemma C6_conversion_is_floor_of_product_witness :
  SwapCard.amountInSmallestUnits (SwapCard.parseDecimal 15 1) 9
  = Some 1500000000%Z
  /\ (exists q,
        SwapCard.exact (SwapCard.parseDecimal 15 1 * SwapCard.pow10 9)%float
        = Some q
        /\ (inject_Z 1500000000 <= q)%Q /\ (q < inject_Z 1500000000 + 1)%Q)
  /\ PrimFloat.eqb (SwapCard.amountFromSmallestUnits 1500000000 9)
                   (SwapCard.parseDecimal 15 1) = true.
Proof.
  assert (H : SwapCard.amountInSmallestUnits (SwapCard.parseDecimal 15 1) 9
              = Some 1500000000%Z) by (vm_compute; reflexivity).
  split; [exact H|]. split.
  - destruct (C6_conversion_is_floor_of_product (SwapCard.parseDecimal 15 1) 9
                1500000000%Z H) as (q & Hq & Hle & Hlt & _).
    exists q. split; [exact Hq|]. split; [exact Hle | exact Hlt].
  - vm_compute. reflexivity.
Defined.

End Scenarios.

(* ------------------------------------------------------------------------- *)
(** * Further properties of the routes and their helpers *)
(* ------------------------------------------------------------------------- *)

(** ** lib/goalValidation.js *)

Section GoalRules.

Import JsNumber GoalInput GoalInputRules.

Lemma validate_cases cur s :
  validateStatusTransition cur s = Ok tt
  \/ validateStatusTransition cur s = Err INVALID_STATUS_TRANSITION.
Proof. unfold validateStatusTransition. repeat case_match; auto. Qed.

(** X1.  [validateStatusTransition] accepts exactly two moves, pausing an
    active goal and resuming a paused one; every other pair of a current
    status and a requested status name (the same status again, anything out
    of COMPLETED, a name that is no status) is rejected, always with the
    invalid-transition error. *)
Theorem X1_pause_and_resume_are_the_only_transitions cur s :
  (validateStatusTransition cur s = Ok tt
   <-> (cur = ACTIVE /\ s = "PAUSED") \/ (cur = PAUSED /\ s = "ACTIVE"))
  /\ (validateStatusTransition cur s <> Ok tt ->
      validateStatusTransition cur s = Err INVALID_STATUS_TRANSITION).
Proof.
  split.
  - split.
    + apply validate_ok.
    + intros [[-> ->] | [-> ->]]; reflexivity.
  - destruct (validate_cases cur s); congruence.
Qed.

Lemma Qle_bool_false a b : Qle_bool a b = false <-> (b < a)%Q.
Proof.
  split; intros H.
  - apply Qnot_le_lt. intros E. apply Qle_bool_iff in E. congruence.
  - apply not_true_is_false. intros E. apply Qle_bool_iff in E.
    by apply (Qlt_not_le _ _ H).
Qed.

Lemma withinTarget_spec max x :
  leb x (Finite 0) = false /\ ltb max x = false <-> withinTarget max x.
Proof.
  destruct x as [q| | |], max as [m| | |]; simpl;
    rewrite ?Qle_bool_false, ?negb_false_iff, ?Qle_bool_iff;
    intuition (try discriminate; try done); auto.
Qed.

Lemma atLeastTen_spec x : ltb x (Finite 10) = false <-> atLeastTen x.
Proof.
  destruct x as [q| | |]; simpl;
    rewrite ?negb_false_iff, ?Qle_bool_iff; intuition (try discriminate; done).
Qed.

Lemma toUpperCase_empty s :
  JsText.toUpperCase s = EmptyString -> s = EmptyString.
Proof. by destruct s. Qed.

(** X3.  [validateGoalInput] returns, rather than throws, exactly when the
    coin is a text that is not empty and, once upper-cased, is a valid coin
    with an entry in the token table; the target is truthy and passes both
    comparisons, which for a number means above 0 and at most the maximum
    of that entry; the contribution per interval is truthy and not below
    10; and the frequency is one of DAILY, WEEKLY, MONTHLY.  A truthy value
    that converts to NaN, such as a text that is no number, passes the
    comparisons on both amounts.  What is returned is the upper-cased
    coin. *)
Theorem X3_goal_input_is_accepted_iff pr data c :
  validateGoalInput pr data = Ok c
  <-> exists name limit freq,
        coin data = CoinText name
        /\ c = JsText.toUpperCase name
        /\ name <> EmptyString
        /\ isValidCoin pr c = true
        /\ maxTarget pr c = Some limit
        /\ truthy (targetAmount data) = true
        /\ withinTarget limit (toNumber (targetAmount data))
        /\ truthy (amountPerInterval data) = true
        /\ atLeastTen (toNumber (amountPerInterval data))
        /\ frequency data = Some freq
        /\ In freq ["DAILY"; "WEEKLY"; "MONTHLY"].
Proof.
  unfold validateGoalInput, targetRejected, intervalRejected, VALID_FREQUENCIES.
  split.
  - destruct (coin data) as [|name|]; [done| |done].
    destruct (String.eqb (JsText.toUpperCase name) EmptyString) eqn:Hn;
      simpl; [done|].
    destruct (isValidCoin pr (JsText.toUpperCase name)) eqn:Hv; simpl; [|done].
    destruct (maxTarget pr (JsText.toUpperCase name)) as [limit|] eqn:Hm; [|done].
    destruct (truthy (targetAmount data)) eqn:Ht; simpl; [|done].
    destruct (leb (toNumber (targetAmount data)) (Finite 0)) eqn:Ht1;
      simpl; [done|].
    destruct (ltb limit (toNumber (targetAmount data))) eqn:Ht2; [done|].
    destruct (truthy (amountPerInterval data)) eqn:Hi; simpl; [|done].
    destruct (ltb (toNumber (amountPerInterval data)) (Finite 10)) eqn:Hi1;
      [done|].
    destruct (frequency data) as [freq|]; simpl; [|done].
    destruct (String.eqb freq EmptyString) eqn:Hf0; simpl; [done|].
    destruct (String.eqb freq "DAILY" || (String.eqb freq "WEEKLY"
              || (String.eqb freq "MONTHLY" || false))) eqn:Hf; simpl; [|done].
    intros [= <-]. exists name, limit, freq.
    apply String.eqb_neq in Hn.
    repeat split; try done.
    + intros ->. done.
    + by apply withinTarget_spec.
    + by apply atLeastTen_spec.
    + simpl. repeat (apply orb_true_iff in Hf as [Hf | Hf]);
        try (apply String.eqb_eq in Hf); auto. done.
  - intros (name & limit & freq & -> & -> & Hne & Hv & Hm & Ht & Hw & Hi & Ha
            & -> & Hin).
    assert (Hn : String.eqb (JsText.toUpperCase name) EmptyString = false).
    { apply String.eqb_neq. intros E. by apply toUpperCase_empty in E. }
    rewrite Hn, Hv, Hm, Ht, Hi. simpl.
    apply withinTarget_spec in Hw as [-> ->].
    apply atLeastTen_spec in Ha as ->. simpl.
    assert (Hf0 : String.eqb freq EmptyString = false).
    { apply String.eqb_neq. intros ->.
      simpl in Hin. intuition discriminate. }
    rewrite Hf0. simpl.
    assert (Hf : String.eqb freq "DAILY" || (String.eqb freq "WEEKLY"
                 || (String.eqb freq "MONTHLY" || false)) = true).
    { rewrite !orb_true_iff, !String.eqb_eq. simpl in Hin. intuition. }
    by rewrite Hf.
Qed.

End GoalRules.


(** ** app/api/goals/[id]/route.js: GET *)

Section ReadingGoals.

Import GoalInput GoalsRead.

Lemma estimate_world env pr coin target interval f w w' r :
  calculateEstimatedCompletion env pr coin target interval f w = (w', r) ->
  w' = w.
Proof.
  unfold calculateEstimatedCompletion. run. crunch; done.
Qed.

Lemma findFirst_owned env gid w user g :
  ownsGoal env (db w) user (Some gid) g ->
  prisma_goal_findFirst env gid (u_id user) w = (w, Ok (Some g)).
Proof.
  intros (Hf & Hg & Hu). simpl in Hg.
  unfold prisma_goal_findFirst. run. rewrite Hf, Hg, Hu, String.eqb_refl.
  reflexivity.
Qed.

Lemma atLeastZero_spec x :
  (0 <= atLeastZero x)%Q
  /\ ((atLeastZero x == 0)%Q <-> (x <= 0)%Q)
  /\ ((0 < x)%Q -> atLeastZero x = x).
Proof.
  unfold atLeastZero. destruct (Qle_bool x 0) eqn:H.
  - apply Qle_bool_iff in H. split; [apply Qle_refl|]. split; [done|].
    intros Hp. exfalso. apply (Qlt_irrefl 0). by apply Qlt_le_trans with x.
  - assert (Hp : (0 < x)%Q).
    { apply Qnot_le_lt. intros Hx. apply Qle_bool_iff in Hx. congruence. }
    split; [by apply Qlt_le_weak|]. split; [|done].
    split; intros Hx.
    + rewrite Hx. apply Qle_refl.
    + exfalso. apply (Qlt_irrefl 0). by apply Qlt_le_trans with x.
Qed.

(** X5.  GET of a goal the signed-in user owns, for a coin with an entry in
    the token table, always answers 200 with the stored goal and its
    progress, and writes nothing to the database or the network.  The
    remaining amount is the target less the invested amount, and 0 once the
    target is reached; an estimate is only given for an ACTIVE goal that
    still lacks something; when the estimate fails (no price, say) the
    answer is the same without the estimate, and the only warning or error
    written to the log is the one warning about the estimate. *)
Theorem X5_reading_a_goal_survives_a_failed_estimate env pr gid w user g token :
  authenticated env (db w) user ->
  ownsGoal env (db w) user (Some gid) g ->
  getTokenInfo env (g_coin g) = Some token ->
  exists w' c,
    GET env pr gid w
    = (w', Ok (success 200
                 (GoalPayload g (calculateProgress (g_investedAmount g)
                                                   (g_targetAmount g))),
               Some c))
    /\ db w' = db w /\ submitted w' = submitted w
    /\ tokenMint c = tk_mint token
    /\ transactionCount c = countTransactions (db w) g
    /\ (0 <= remainingAmount c)%Q
    /\ ((remainingAmount c == 0)%Q
        <-> (g_targetAmount g <= g_investedAmount g)%Q)
    /\ ((g_investedAmount g < g_targetAmount g)%Q ->
        remainingAmount c = (g_targetAmount g - g_investedAmount g)%Q)
    /\ (estimatedCompletion c <> None ->
        g_status g = ACTIVE /\ (g_investedAmount g < g_targetAmount g)%Q)
    /\ (logs w' = logs w
        \/ estimatedCompletion c = None
           /\ logs w' = (logs w ++ [(LWarn, "ETA calculation failed")])%list).
Proof.
  intros Ha Ho Ht.
  pose proof (authenticated_requireAuth _ _ _ Ha) as Hauth.
  pose proof (findFirst_owned _ _ _ _ _ Ho) as Hfind.
  set (x := (g_targetAmount g - g_investedAmount g)%Q).
  destruct (atLeastZero_spec x) as (Hnn & Hz & Hpos).
  assert (Hx0 : (x <= 0)%Q <-> (g_targetAmount g <= g_investedAmount g)%Q).
  { unfold x. split; intros H.
    - apply Qplus_le_l with (z := (- g_investedAmount g)%Q).
      rewrite Qplus_opp_r. exact H.
    - apply Qplus_le_l with (z := (- g_investedAmount g)%Q) in H.
      rewrite Qplus_opp_r in H. exact H. }
  assert (Hxp : (g_investedAmount g < g_targetAmount g)%Q -> (0 < x)%Q).
  { intros H. apply Qnot_le_lt. intros Hle. apply Hx0 in Hle.
    apply (Qlt_irrefl (g_investedAmount g)).
    by apply Qlt_le_trans with (g_targetAmount g). }
  assert (Hfacts :
            (atLeastZero x == 0)%Q <-> (g_targetAmount g <= g_investedAmount g)%Q).
  { by rewrite Hz. }
  unfold GET, try_catch, bind at 1. rewrite Hauth.
  unfold bind at 1. rewrite Hfind.
  unfold bind at 1, get_db. fold x.
  destruct (negb (Qle_bool (atLeastZero x) 0) && status_eqb (g_status g) ACTIVE)
    eqn:Hc.
  - apply andb_true_iff in Hc as [Hc1 Hc2].
    apply status_eqb_eq in Hc2.
    assert (Hlt : (g_investedAmount g < g_targetAmount g)%Q).
    { apply Qnot_le_lt. intros Hle. apply Hfacts in Hle.
      apply negb_true_iff in Hc1.
      assert (Qle_bool (atLeastZero x) 0 = true); [|congruence].
      apply Qle_bool_iff. rewrite Hle. apply Qle_refl. }
    unfold bind at 1, try_catch, bind at 1.
    destruct (calculateEstimatedCompletion env pr (g_coin g) (atLeastZero x)
                (g_amountPerInterval g) (g_frequency g) w) as [w1 r1] eqn:He.
    apply estimate_world in He. subst w1.
    destruct r1 as [est|e]; run; rewrite Ht; simpl.
    + do 2 eexists. split; [reflexivity|]. simpl.
      repeat split; try done; try (by apply Hfacts); try (by left).
      intros H. by apply Hpos, Hxp.
    + do 2 eexists. split; [reflexivity|]. simpl.
      repeat split; try done; try (by apply Hfacts); try (by right).
      intros H. by apply Hpos, Hxp.
  - run. rewrite Ht. simpl.
    do 2 eexists. split; [reflexivity|]. simpl.
    repeat split; try done; try (by apply Hfacts); try (by left).
    intros H. by apply Hpos, Hxp.
Qed.

(** X5 on the sample goal with a price feed that is down. *)
Lemma X5_reading_a_goal_survives_a_failed_estimate_witness :
  let pr := mkPricing (fun _ => true) (fun _ => None)
                      (fun _ => Err (Foreign "Error" "price feed down")) in
  let g := Sample.goalWith (1 # 4) ACTIVE in
  let w := Sample.worldWith (Sample.dbWith g [] false) in
  exists w' c,
    GET Sample.calm pr "g1" w
    = (w', Ok (success 200 (GoalPayload g (2500 # 100)), Some c))
    /\ db w' = db w
    /\ remainingAmount c = (1 - (1 # 4))%Q
    /\ estimatedCompletion c = None
    /\ logs w' = [(LWarn, "ETA calculation failed")].
Proof.
  intros pr g w.
  destruct (X5_reading_a_goal_survives_a_failed_estimate Sample.calm pr "g1" w
              Sample.ann g (mkTokenInfo "mint-btc" 8))
    as (w' & c & H & Hdb & _ & _ & _ & _ & _ & Hrem & _ & _).
  - apply authenticated_sample.
  - repeat split; reflexivity.
  - reflexivity.
  - exists w', c.
    assert (E : GET Sample.calm pr "g1" w
                = (mkWorld (db w) [] [(LWarn, "ETA calculation failed")],
                   Ok (success 200 (GoalPayload g (2500 # 100)),
                       Some (mkComputed (2500 # 100) "mint-btc" 8 0
                               (1 - (1 # 4))%Q None))))
      by (vm_compute; reflexivity).
    rewrite E in H. injection H as <- <-.
    repeat split; try reflexivity.
Defined.

End ReadingGoals.

(** ** app/api/goals/[id]/route.js: PATCH and DELETE *)

Section GoalPatches.

Import GoalsRoute GoalChanges.

Lemma collectUpdates_asRequested goal body w w' f :
  collectUpdates goal body w = (w', Ok f) ->
  asRequested body goal (f goal).
Proof.
  unfold collectUpdates, asRequested. run.
  destruct (p_amountPerInterval body), (p_frequency body), (p_status body);
    crunch; simpl; repeat split; try done.
  all: try match goal with u : unit |- _ => destruct u end; try done.
  all: try (apply Qle_bool_iff; by apply negb_false_iff).
Qed.

Lemma PATCH_outcome env gid body w w' r :
  PATCH env gid body w = (w', r) ->
  exists resp,
    r = Ok resp
    /\ submitted w' = submitted w
    /\ (db w' = db w /\ r_success resp = false
        \/ exists g0 f w0,
             goals (db w) !! gid = Some g0
             /\ g_status g0 <> COMPLETED
             /\ collectUpdates g0 body w0 = (w0, Ok f)
             /\ db w' = with_goals (db w) (<[gid := f g0]> (goals (db w)))).
Proof.
  unfold PATCH, bind at 1, try_catch.
  destruct (requireAuth env w) as [w1 r1] eqn:Ha.
  apply requireAuth_world in Ha. subst w1.
  destruct r1 as [user|e];
    [|run; intros; simplify_eq; simpl; eexists; split; [done|];
      split; [done|]; left; split; [done|apply errorResponse_fails]].
  unfold prisma_goal_findFirst, prisma_goal_update. run.
  repeat (case_match; simplify_eq;
          try match goal with
              | H : collectUpdates _ _ _ = (_, Ok _) |- _ =>
                  pose proof (proj1 (collectUpdates_ok _ _ _ _ _ H)); subst
              | H : collectUpdates _ _ _ = (_, Err _) |- _ =>
                  apply collectUpdates_err in H; subst
              end).
  all: intros; simplify_eq; simpl in *; simplify_eq.
  all: eexists; (split; [reflexivity|]); (split; [done|]).
  all: try (left; split; [done|apply errorResponse_fails]).
  all: right; do 3 eexists; repeat split; try eassumption; try done.
  all: intros Hx; apply status_eqb_eq in Hx; congruence.
Qed.

(** X6.  PATCH of a goal is all or nothing.  It always answers, and never
    sends anything to the network; either the database is untouched and the
    answer is a failure, or the goal existed, was not COMPLETED, and is
    stored again with every field the body names set as asked (amount at
    least 10, a known frequency, a permitted status move) and every other
    field, identity, owner, coin, target and invested amount among them,
    as it was.  No other row of the database changes. *)
Theorem X6_patch_applies_every_change_or_none env gid body w :
  let res := PATCH env gid body w in
  submitted (fst res) = submitted w
  /\ exists resp,
       snd res = Ok resp
       /\ (db (fst res) = db w /\ r_success resp = false
           \/ exists g0 g,
                goals (db w) !! gid = Some g0
                /\ g_status g0 <> COMPLETED
                /\ asRequested body g0 g
                /\ db (fst res) = with_goals (db w) (<[gid := g]> (goals (db w)))).
Proof.
  intros res. subst res.
  destruct (PATCH env gid body w) as [w' r] eqn:H. simpl.
  apply PATCH_outcome in H as (resp & -> & Hs & H).
  split; [exact Hs|]. exists resp. split; [reflexivity|].
  destruct H as [H | (g0 & f & w0 & Hg0 & Hnc & Hc & Hdb)]; [by left|].
  right. exists g0, (f g0). repeat split; try done.
  all: apply collectUpdates_asRequested in Hc; apply Hc.
Qed.

End GoalPatches.

Section PauseAndDelete.

Import GoalsRoute GoalChanges.

Lemma with_goals_same d : with_goals d (goals d) = d.
Proof. by destruct d. Qed.

(** The database after a PATCH of the status alone went through. *)
Lemma PATCH_status env gid w user g s st :
  authenticated env (db w) user ->
  ownsGoal env (db w) user (Some gid) g ->
  dbFault env GoalUpdate = None ->
  g_status g <> COMPLETED ->
  validateStatusTransition (g_status g) s = Ok tt ->
  statusOfName s = Some st ->
  exists w' r,
    PATCH env gid (mkPatchBody None None (Some s)) w = (w', r)
    /\ db w' = with_goals (db w) (<[gid := set_status st g]> (goals (db w)))
    /\ submitted w' = submitted w.
Proof.
  intros Ha Ho Hu Hnc Hv Hs.
  pose proof (authenticated_requireAuth _ _ _ Ha) as Hauth.
  pose proof (findFirst_owned _ _ _ _ _ Ho) as Hfind.
  destruct Ho as (_ & Hg & _). simpl in Hg.
  unfold PATCH, try_catch, bind at 1. rewrite Hauth.
  unfold bind at 1. rewrite Hfind.
  unfold collectUpdates, prisma_goal_update. run. simpl.
  destruct (status_eqb (g_status g) COMPLETED) eqn:Hc;
    [apply status_eqb_eq in Hc; congruence|].
  rewrite Hv, Hs. simpl. rewrite Hu. simpl. rewrite Hg. simpl.
  destruct (negb _); simpl; eexists _, _; (split; [reflexivity|]); done.
Qed.

(** X7.  Pausing an ACTIVE goal and resuming it is a round trip: after the
    first PATCH the goal is stored PAUSED with nothing else changed, after
    the second the database is exactly what it was before the first, and
    nothing was sent to the network. *)
Theorem X7_pause_then_resume_restores_the_database env gid w user g :
  authenticated env (db w) user ->
  ownsGoal env (db w) user (Some gid) g ->
  dbFault env GoalUpdate = None ->
  g_status g = ACTIVE ->
  let pause := Patch env gid (mkPatchBody None None (Some "PAUSED")) in
  let resume := Patch env gid (mkPatchBody None None (Some "ACTIVE")) in
  goals (db (serve [pause] w)) !! gid = Some (set_status PAUSED g)
  /\ db (serve [pause; resume] w) = db w
  /\ submitted (serve [pause; resume] w) = submitted w.
Proof.
  intros Ha Ho Hu Hact pause resume. subst pause resume. simpl.
  destruct (PATCH_status env gid w user g "PAUSED" PAUSED Ha Ho Hu)
    as (w1 & r1 & -> & Hdb1 & Hsub1); try done.
  { congruence. } { by rewrite Hact. }
  simpl.
  assert (Hg1 : goals (db w1) !! gid = Some (set_status PAUSED g)).
  { rewrite Hdb1. simpl. apply lookup_insert_eq. }
  split; [exact Hg1|].
  assert (Ha1 : authenticated env (db w1) user).
  { destruct Ha as (sub & ? & ? & ? & ?). exists sub.
    rewrite Hdb1. done. }
  assert (Ho1 : ownsGoal env (db w1) user (Some gid) (set_status PAUSED g)).
  { destruct Ho as (? & ? & ?). repeat split; done. }
  destruct (PATCH_status env gid w1 user (set_status PAUSED g) "ACTIVE" ACTIVE
              Ha1 Ho1 Hu) as (w2 & r2 & -> & Hdb2 & Hsub2); try done.
  simpl. rewrite Hdb2, Hsub2, Hsub1. split; [|done].
  rewrite Hdb1. simpl. rewrite insert_insert_eq.
  destruct Ho as (_ & Hg & _). simpl in Hg.
  assert (Hback : set_status ACTIVE (set_status PAUSED g) = g).
  { destruct g; simpl in *. by subst. }
  rewrite Hback, (insert_id (goals (db w)) gid g Hg).
  unfold with_goals. simpl. by destruct (db w).
Qed.

(** X7 on the sample goal. *)
Lemma X7_pause_then_resume_restores_the_database_witness :
  let g := Sample.goalWith (1 # 4) ACTIVE in
  let w := Sample.worldWith (Sample.dbWith g [] false) in
  let pause := Patch Sample.calm "g1" (mkPatchBody None None (Some "PAUSED")) in
  let resume := Patch Sample.calm "g1" (mkPatchBody None None (Some "ACTIVE")) in
  goals (db (serve [pause] w)) !! "g1" = Some (set_status PAUSED g)
  /\ db (serve [pause; resume] w) = db w
  /\ submitted (serve [pause; resume] w) = submitted w.
Proof.
  intros g w pause resume.
  apply (X7_pause_then_resume_restores_the_database Sample.calm "g1" w
           Sample.ann g).
  - apply authenticated_sample.
  - repeat split; reflexivity.
  - reflexivity.
  - reflexivity.
Defined.

Lemma DELETE_own env gid w user g :
  authenticated env (db w) user ->
  ownsGoal env (db w) user (Some gid) g ->
  dbFault env GoalDelete = None ->
  DELETE env gid w
  = (with_db w (with_goals (db w) (delete gid (goals (db w)))),
     Ok (success 200 DeletedPayload)).
Proof.
  intros Ha Ho Hd.
  pose proof (authenticated_requireAuth _ _ _ Ha) as Hauth.
  pose proof (findFirst_owned _ _ _ _ _ Ho) as Hfind.
  destruct Ho as (_ & Hg & _). simpl in Hg.
  unfold DELETE, try_catch, bind at 1. rewrite Hauth.
  unfold bind at 1. rewrite Hfind.
  unfold prisma_goal_delete. run. simpl. rewrite Hd, Hg. reflexivity.
Qed.

Lemma DELETE_absent env gid w w' r :
  goals (db w) !! gid = None ->
  DELETE env gid w = (w', r) ->
  db w' = db w /\ exists resp, r = Ok resp /\ r_success resp = false.
Proof.
  intros Hg. unfold DELETE, try_catch, bind at 1.
  destruct (requireAuth env w) as [w1 r1] eqn:Ha.
  apply requireAuth_world in Ha. subst w1.
  destruct r1 as [user|e];
    [|run; intros; simplify_eq; simpl; split; [done|];
      eexists; split; [done|apply errorResponse_fails]].
  unfold prisma_goal_findFirst, prisma_goal_delete. run.
  repeat (case_match; simplify_eq; simpl in *; rewrite ?Hg in *; simplify_eq).
  all: intros; simplify_eq; simpl; split; try done.
  all: eexists; split; [done|apply errorResponse_fails].
Qed.

(** X8.  DELETE of a goal its owner names answers 200 and removes the goal
    row, whatever the status of the goal and however much was invested;
    the users are untouched and nothing is sent to the network.  Deleting
    the same goal again changes nothing and is answered with a failure. *)
Theorem X8_delete_removes_the_goal_whatever_its_state env gid w user g :
  authenticated env (db w) user ->
  ownsGoal env (db w) user (Some gid) g ->
  dbFault env GoalDelete = None ->
  let res := DELETE env gid w in
  snd res = Ok (success 200 DeletedPayload)
  /\ goals (db (fst res)) = delete gid (goals (db w))
  /\ users (db (fst res)) = users (db w)
  /\ submitted (fst res) = submitted w
  /\ db (fst (DELETE env gid (fst res))) = db (fst res)
  /\ exists resp,
       snd (DELETE env gid (fst res)) = Ok resp /\ r_success resp = false.
Proof.
  intros Ha Ho Hd res. subst res.
  rewrite (DELETE_own env gid w user g Ha Ho Hd). simpl.
  repeat split; try done.
  all: match goal with
       | |- context [DELETE ?e ?k ?w0] =>
           destruct (DELETE e k w0) as [w2 r2] eqn:H2;
           apply DELETE_absent in H2 as (Hdb & resp & -> & Hf);
           [|simpl; apply lookup_delete_eq]
       end.
  - exact Hdb.
  - by exists resp.
Qed.

(** X8 on the sample goal, completed and fully funded. *)
Lemma X8_delete_removes_the_goal_whatever_its_state_witness :
  let g := Sample.goalWith 1 COMPLETED in
  let w := Sample.worldWith (Sample.dbWith g [] false) in
  let res := DELETE Sample.calm "g1" w in
  snd res = Ok (success 200 DeletedPayload)
  /\ goals (db (fst res)) = delete "g1" (goals (db w))
  /\ users (db (fst res)) = users (db w)
  /\ submitted (fst res) = submitted w
  /\ db (fst (DELETE Sample.calm "g1" (fst res))) = db (fst res)
  /\ exists resp,
       snd (DELETE Sample.calm "g1" (fst res)) = Ok resp
       /\ r_success resp = false.
Proof.
  intros g w.
  apply (X8_delete_removes_the_goal_whatever_its_state Sample.calm "g1" w
           Sample.ann g).
  - apply authenticated_sample.
  - repeat split; reflexivity.
  - reflexivity.
Defined.

End PauseAndDelete.

(** ** The four routes together *)

Section Tenancy.

Import Requests.

Lemma findFirst_foreign env gid uid w g :
  goals (db w) !! gid = Some g ->
  g_userId g <> uid ->
  prisma_goal_findFirst env gid uid w = (w, Ok None)
  \/ exists e, prisma_goal_findFirst env gid uid w = (w, Err e).
Proof.
  intros Hg Hne. unfold prisma_goal_findFirst. run.
  destruct (dbFault env GoalFindFirst); [right; by eexists|left].
  rewrite Hg. destruct (String.eqb_spec (g_userId g) uid); [done|reflexivity].
Qed.

(** X9.  A goal of another user is out of reach.  Whatever request of the
    four routes (execute, prepare, PATCH, DELETE) a signed-in user sends
    for a goal that exists but belongs to someone else, the database and
    the transactions handed to the network stay as they were, and the
    answer is a failure. *)
Theorem X9_someone_elses_goal_is_out_of_reach r w user g :
  authenticated (envOf r) (db w) user ->
  goals (db w) !! targetOf r = Some g ->
  g_userId g <> u_id user ->
  db (fst (handle r w)) = db w
  /\ submitted (fst (handle r w)) = submitted w
  /\ exists resp, snd (handle r w) = Ok resp /\ r_success resp = false.
Proof.
  intros Ha Hg Hne.
  pose proof (authenticated_requireAuth _ _ _ Ha) as Hauth.
  destruct r as [rev env body | rev env body | env gid body | env gid];
    simpl in Ha, Hg, Hauth |- *.
  - unfold InvestExecute.POST, InvestExecute.POST_lookup, try_catch, bind at 1.
    unfold bind at 1. rewrite Hauth.
    destruct (findFirst_foreign env _ (u_id user) w g Hg Hne) as [Hf | [e Hf]].
    all: unfold InvestExecute.onError; run.
    all: repeat (case_match; simplify_eq); simpl; repeat split; try done.
    all: eexists; split; [reflexivity|apply errorResponse_fails].
  - unfold InvestPrepare.POST, try_catch, bind at 1.
    rewrite Hauth.
    destruct (findFirst_foreign env _ (u_id user) w g Hg Hne) as [Hf | [e Hf]].
    all: unfold InvestPrepare.onError; run.
    all: repeat (case_match; simplify_eq); simpl; repeat split; try done.
    all: eexists; split; [reflexivity|apply errorResponse_fails].
  - unfold GoalsRoute.PATCH, try_catch, bind at 1.
    rewrite Hauth.
    destruct (findFirst_foreign env _ (u_id user) w g Hg Hne) as [Hf | [e Hf]].
    all: run.
    all: repeat (case_match; simplify_eq); simpl; repeat split; try done.
    all: eexists; split; [reflexivity|apply errorResponse_fails].
  - unfold GoalsRoute.DELETE, try_catch, bind at 1.
    rewrite Hauth.
    destruct (findFirst_foreign env _ (u_id user) w g Hg Hne) as [Hf | [e Hf]].
    all: run.
    all: repeat (case_match; simplify_eq); simpl; repeat split; try done.
    all: eexists; split; [reflexivity|apply errorResponse_fails].
Qed.

(** X9 on a DELETE and on a swap sent by [Sample.ann] for the goal of
    another user. *)
Lemma X9_someone_elses_goal_is_out_of_reach_witness :
  let w := Sample.worldWith Examples.strangersDb in
  let swap := Execute InvestExecute.Plain Sample.calm Sample.executeBody in
  db (serve [Delete Sample.calm "g1"; swap] w) = Examples.strangersDb
  /\ exists resp,
       snd (handle (Delete Sample.calm "g1") w) = Ok resp
       /\ r_success resp = false.
Proof.
  intros w swap.
  assert (Ha : authenticated Sample.calm (db w) Sample.ann)
    by (exists "u1"; repeat split; done).
  destruct (X9_someone_elses_goal_is_out_of_reach (Delete Sample.calm "g1") w
              Sample.ann Examples.strangersGoal Ha)
    as (Hdb & _ & Hresp); [reflexivity | discriminate |].
  split; [|exact Hresp].
  simpl. simpl in Hdb.
  destruct (X9_someone_elses_goal_is_out_of_reach swap
              (fst (GoalsRoute.DELETE Sample.calm "g1" w))
              Sample.ann Examples.strangersGoal)
    as (Hdb2 & _ & _).
  - rewrite Hdb. exact Ha.
  - rewrite Hdb. reflexivity.
  - discriminate.
  - simpl in Hdb2. rewrite Hdb2. exact Hdb.
Defined.

End Tenancy.

Section GoalInvariants.

Import GoalsRoute GoalChanges InvestExecute.

Lemma handle_keyed r w : keyed (db w) -> keyed (db (fst (handle r w))).
Proof.
  intros Hk k g' Hg'.
  destruct (goals (db w) !! k) as [g|] eqn:Hg.
  - destruct (handle_goal_at r w k g Hg) as [[_ Hn] | (g2 & H2 & Hid & _)];
      [congruence|].
    rewrite Hg' in H2. injection H2 as <-. rewrite Hid. by apply Hk.
  - apply (handle_goal_absent r) in Hg. congruence.
Qed.

Lemma serve_keyed rs w : keyed (db w) -> keyed (db (serve rs w)).
Proof.
  revert w. induction rs as [|r rs IH]; intros w Hk; simpl; [done|].
  apply IH. by apply handle_keyed.
Qed.

(** What one request can make of the goal stored under [gid]. *)
Lemma handle_goal_shape r w gid g g' :
  keyed (db w) ->
  goals (db w) !! gid = Some g ->
  goals (db (fst (handle r w))) !! gid = Some g' ->
  g' = g
  \/ (g_status g = ACTIVE
      /\ exists c, g' = increment (lk_outputAmount c) g \/ g' = settledGoal c g)
  \/ (g_status g <> COMPLETED /\ exists body, asRequested body g g').
Proof.
  intros Hkd Hg.
  destruct (handle r w) as [w' res] eqn:H. simpl.
  destruct r as [rev env body | rev env body | env k body | env k]; simpl in H.
  - apply POST_any in H
      as [H | (c & sig & Hl & _ & _ & _ & _ & _ & _ & [H | (g0 & Hg0 & H)])].
    + rewrite H, Hg. intros [= <-]. by left.
    + rewrite H, Hg. intros [= <-]. by left.
    + apply POST_lookup_ok in Hl as (Hgoal & Hact & _).
      pose proof (Hkd _ _ Hgoal) as Hid.
      destruct (decide (g_id (lk_goal c) = gid)) as [Hk | Hk].
      * rewrite Hk in Hg0, H. rewrite Hg in Hg0. injection Hg0 as <-.
        rewrite <- Hid, Hk, Hg in Hgoal. injection Hgoal as Hgc.
        rewrite <- Hgc in Hact.
        intros Hg'. right. left. split; [exact Hact|]. exists c.
        destruct H as [H | H]; rewrite H, lookup_insert_eq in Hg';
          injection Hg' as <-; auto.
      * intros Hg'. left.
        destruct H as [H | H]; rewrite H, lookup_insert_ne, Hg in Hg' by done;
          congruence.
  - apply prepare_POST_db in H as (_ & H & _).
    rewrite H, Hg. intros [= <-]. by left.
  - apply PATCH_outcome in H as (resp & _ & _ & [[H _] | (g0 & f & w0 & Hg0 & Hnc & Hc & H)]).
    + rewrite H, Hg. intros [= <-]. by left.
    + rewrite H. simpl. destruct (decide (k = gid)) as [-> | Hk].
      * rewrite lookup_insert_eq. intros [= <-]. simplify_eq.
        right. right. split; [exact Hnc|]. exists body.
        by apply collectUpdates_asRequested in Hc.
      * rewrite lookup_insert_ne, Hg by done. intros [= <-]. by left.
  - apply DELETE_goals in H as (_ & [H | H]).
    + rewrite H, Hg. intros [= <-]. by left.
    + rewrite H. destruct (decide (k = gid)) as [-> | Hk].
      * rewrite lookup_delete_eq. done.
      * rewrite lookup_delete_ne, Hg by done. intros [= <-]. by left.
Qed.

Lemma handle_goal_new r w gid g' :
  goals (db (fst (handle r w))) !! gid = Some g' ->
  exists g, goals (db w) !! gid = Some g.
Proof.
  intros Hg'. destruct (goals (db w) !! gid) as [g|] eqn:Hg; [by eexists|].
  apply (handle_goal_absent r) in Hg. congruence.
Qed.

Lemma handle_minimum r w :
  keyed (db w) ->
  contributionsAtLeastMinimum (db w) ->
  contributionsAtLeastMinimum (db (fst (handle r w))).
Proof.
  intros Hk Hmin k g' Hg'.
  destruct (handle_goal_new _ _ _ _ Hg') as [g Hg].
  specialize (Hmin _ _ Hg).
  destruct (handle_goal_shape r w k g g' Hk Hg Hg')
    as [-> | [(_ & c & [-> | ->]) | (_ & body & Hr)]]; try done.
  - unfold settledGoal. by case_match.
  - destruct Hr as (_ & _ & _ & _ & _ & Ha & _).
    destruct (p_amountPerInterval body);
      [destruct Ha as [Ha1 Ha2]; by rewrite Ha1 | by rewrite Ha].
Qed.

Lemma minimum_sample g rows u :
  (10 <= g_amountPerInterval g)%Q ->
  contributionsAtLeastMinimum (Sample.dbWith g rows u).
Proof.
  intros Hg k g' H. simpl in H.
  apply lookup_singleton_Some in H as [_ <-]. exact Hg.
Qed.

(** X10.  No sequence of requests to the four routes brings the
    contribution per interval of a goal under the minimum of 10: when
    every stored goal asks for at least 10 per interval before, every
    stored goal does after. *)
Theorem X10_contribution_never_drops_below_the_minimum rs w :
  keyed (db w) ->
  contributionsAtLeastMinimum (db w) ->
  contributionsAtLeastMinimum (db (serve rs w)).
Proof.
  revert w. induction rs as [|r rs IH]; intros w Hk Hmin; simpl; [done|].
  apply IH; [by apply handle_keyed | by apply handle_minimum].
Qed.

(** X10 on the sample goal: a PATCH to 5 is refused, a PATCH to 20 goes
    through, a swap leaves the contribution alone. *)
Lemma X10_contribution_never_drops_below_the_minimum_witness :
  let w := Sample.worldWith
             (Sample.dbWith (Sample.goalWith 0 ACTIVE) [] false) in
  let rs := [Patch Sample.calm "g1" (GoalsRoute.mkPatchBody (Some 5%Q) None None);
             Patch Sample.calm "g1" (GoalsRoute.mkPatchBody (Some 20%Q) None None);
             Execute InvestExecute.Plain Sample.calm Sample.executeBody] in
  contributionsAtLeastMinimum (db (serve rs w))
  /\ exists g, goals (db (serve rs w)) !! "g1" = Some g
               /\ g_amountPerInterval g = 20%Q.
Proof.
  intros w rs. split.
  - apply (X10_contribution_never_drops_below_the_minimum rs w).
    + by apply keyed_sample.
    + apply minimum_sample. simpl. discriminate.
  - eexists. split; vm_compute; reflexivity.
Defined.

Lemma transition_never_completes cur s st :
  validateStatusTransition cur s = Ok tt ->
  statusOfName s = Some st -> st <> COMPLETED.
Proof.
  intros Hv Hs. apply validate_ok in Hv as [[_ ->] | [_ ->]];
    vm_compute in Hs; congruence.
Qed.

Lemma handle_funded r w :
  keyed (db w) ->
  completedAreFunded (db w) ->
  completedAreFunded (db (fst (handle r w))).
Proof.
  intros Hk Hinv k g' Hg' Hc.
  destruct (handle_goal_new _ _ _ _ Hg') as [g Hg].
  specialize (Hinv _ _ Hg).
  destruct (handle_goal_shape r w k g g' Hk Hg Hg')
    as [-> | [(Hact & c & [-> | ->]) | (Hnc & body & Hr)]].
  - by apply Hinv.
  - simpl in Hc. congruence.
  - unfold settledGoal in *.
    destruct (Qle_bool _ _) eqn:Hq.
    + apply Qle_bool_iff in Hq. exact Hq.
    + simpl in Hc. congruence.
  - destruct Hr as (_ & _ & _ & _ & _ & _ & _ & Hs).
    destruct (p_status body) as [s|].
    + destruct Hs as [Hs Hv]. exfalso.
      by apply (transition_never_completes _ _ _ Hv Hs).
    + congruence.
Qed.

Lemma funded_sample g rows u :
  (g_status g = COMPLETED -> (g_targetAmount g <= g_investedAmount g)%Q) ->
  completedAreFunded (Sample.dbWith g rows u).
Proof.
  intros Hg k g' H. simpl in H.
  apply lookup_singleton_Some in H as [_ <-]. exact Hg.
Qed.

(** X11.  COMPLETED is only ever reached by funding.  When every COMPLETED
    goal has an invested amount of at least its target before, the same
    holds after any sequence of requests to the four routes: a swap
    completes a goal only when the credited total reaches the target, and
    no PATCH sets the status to COMPLETED. *)
Theorem X11_completed_goals_have_reached_their_target rs w :
  keyed (db w) ->
  completedAreFunded (db w) ->
  completedAreFunded (db (serve rs w)).
Proof.
  revert w. induction rs as [|r rs IH]; intros w Hk Hinv; simpl; [done|].
  apply IH; [by apply handle_keyed | by apply handle_funded].
Qed.

(** X11 on the sample goal, one swap short of its target: a PATCH asking
    for COMPLETED is refused, the swap completes the goal. *)
Lemma X11_completed_goals_have_reached_their_target_witness :
  let w := Sample.worldWith
             (Sample.dbWith (Sample.goalWith (999999 # 1000000) ACTIVE) []
                false) in
  let rs := [Patch Sample.calm "g1"
               (GoalsRoute.mkPatchBody None None (Some "COMPLETED"))] in
  let swap := Execute InvestExecute.Plain Sample.calm Sample.executeBody in
  completedAreFunded (db (serve (rs ++ [swap]) w))
  /\ (exists g, goals (db (serve rs w)) !! "g1" = Some g
                /\ g_status g = ACTIVE)
  /\ exists g, goals (db (serve (rs ++ [swap]) w)) !! "g1" = Some g
               /\ g_status g = COMPLETED.
Proof.
  intros w rs swap. split.
  - apply (X11_completed_goals_have_reached_their_target (rs ++ [swap]) w).
    + by apply keyed_sample.
    + apply funded_sample. discriminate.
  - split; eexists; split; vm_compute; reflexivity.
Defined.

End GoalInvariants.

(** ** app/api/invest/execute/route.js: submission and notification *)

Section Submission.

Import InvestExecute.

(** X12.  [submitAndConfirm] never touches the database, and hands at most
    one transaction to the network: the signed payload of the request, and
    only after it has been found non-empty, base64, of non-zero length and
    deserialisable and, with the block-height look, after the height read,
    if it was read, is under the last valid height.  A signature is only
    returned when the node accepted the payload and confirmed it. *)
Theorem X12_only_checked_payloads_reach_the_network rev env s l w :
  let res := submitAndConfirm rev env s l w in
  let signed := default EmptyString s in
  db (fst res) = db w
  /\ (submitted (fst res) = submitted w
      \/ submitted (fst res) = (submitted w ++ [signed])%list
         /\ Js.falsy_str s = false
         /\ Js.base64_regex signed = true
         /\ bufferLength env signed <> 0%nat
         /\ (exists tx, deserialize env signed = Ok tx)
         /\ (rev = HeightChecked ->
             forall slot h, getSlot env = Ok slot -> l = Some h -> h <> 0%Z ->
                            (slot < h)%Z))
  /\ (forall sig, snd res = Ok sig ->
        sendRawTransaction env signed = Ok sig
        /\ confirmTransaction env sig = Ok tt).
Proof.
  intros res signed. subst res signed.
  destruct (submitAndConfirm rev env s l w) as [w' r] eqn:H. simpl.
  split; [by apply submitAndConfirm_db in H|]. split.
  - clear -H. revert H.
    unfold submitAndConfirm, checkBlockHeight, sendRaw, heightExpired. run.
    destruct rev; crunch; simpl; try (by left); right.
    all: repeat split; try done.
    all: try (by apply negb_false_iff).
    all: try (by apply Nat.eqb_neq).
    all: try (by eexists).
    all: try (intros _ slot h ? -> Hh; simplify_eq; simpl in *).
    all: match goal with
         | Hx : negb (?h =? 0)%Z && (?h <=? ?slot)%Z = false |- _ =>
             apply andb_false_iff in Hx as [Hx | Hx];
             [apply negb_false_iff, Z.eqb_eq in Hx; done
             |apply Z.leb_gt in Hx; lia]
         end.
  - intros sig ->. by apply submitAndConfirm_ok in H as (_ & ? & ?).
Qed.

Lemma heightExpired_open l slot :
  (forall h, l = Some h -> h <> 0%Z -> (slot < h)%Z) ->
  heightExpired l slot = false.
Proof.
  intros H. unfold heightExpired, Js.falsy_num.
  destruct l as [h|]; simpl; [|done].
  destruct (Z.eqb_spec h 0); simpl; [done|].
  apply Z.leb_gt. by apply H.
Qed.

(** X13.  The block-height look only ever stops a request whose window is
    closed.  When the height read is at or past a non-zero last valid
    height, nothing is sent and the request fails with a validation error.
    When every height read is under the last valid height (or none is
    given, or the read fails with something else than a validation error),
    the submission with the look and the one without it give the same
    result, the same database and the same transactions on the network. *)
Theorem X13_the_height_check_only_stops_closed_windows env s l w :
  let plain := submitAndConfirm Plain env s l w in
  let checked := submitAndConfirm HeightChecked env s l w in
  (forall slot h,
      getSlot env = Ok slot -> l = Some h -> h <> 0%Z -> (h <= slot)%Z ->
      submitted (fst checked) = submitted w
      /\ exists message, snd checked = Err (ValidationError message))
  /\ ((forall slot h,
         getSlot env = Ok slot -> l = Some h -> h <> 0%Z -> (slot < h)%Z) ->
      (forall e, getSlot env = Err e -> isValidationError e = false) ->
      snd checked = snd plain
      /\ db (fst checked) = db (fst plain)
      /\ submitted (fst checked) = submitted (fst plain)).
Proof.
  intros plain checked. subst plain checked. split.
  - intros slot h Hslot -> Hh Hle.
    assert (Hexp : heightExpired (Some h) slot = true).
    { unfold heightExpired. simpl. apply andb_true_iff. split.
      - apply negb_true_iff, Z.eqb_neq, Hh.
      - apply Z.leb_le, Hle. }
    unfold submitAndConfirm, checkBlockHeight, sendRaw. run.
    rewrite Hslot, Hexp.
    repeat case_match; simplify_eq; simpl; split; try done; by eexists.
  - intros Hopen Hread.
    unfold submitAndConfirm, checkBlockHeight, sendRaw. run.
    destruct (getSlot env) as [slot|e] eqn:Hslot.
    + rewrite (heightExpired_open l slot (fun h => Hopen slot h eq_refl)).
      repeat case_match; simplify_eq; simpl; repeat split; done.
    + rewrite (Hread e eq_refl).
      repeat case_match; simplify_eq; simpl; repeat split; done.
Qed.

End Submission.

Section Notification.

Import InvestExecute Notifications.

Lemma settle_without_notification rev env c w e w1 resp :
  POST_settle rev (withNotification env (Ok tt)) c w = (w1, Ok resp) ->
  POST_settle rev (withNotification env (Err e)) c w = (w1, Err e).
Proof.
  unfold POST_settle.
  change (submitAndConfirm rev (withNotification env (Ok tt)))
    with (submitAndConfirm rev env).
  change (submitAndConfirm rev (withNotification env (Err e)))
    with (submitAndConfirm rev env).
  unfold prisma_transaction_update, prisma_transaction_create,
    prisma_goal_update.
  run. simpl.
  destruct (submitAndConfirm rev env (lk_signed c) (lk_lastValid c) w)
    as [w0 r0].
  destruct r0 as [sig|e0]; [|done].
  repeat (case_match; simplify_eq; simpl in *); intros; simplify_eq; done.
Qed.

(** X14.  The notification is sent after the ledger is written, inside the
    same try block.  When a swap is answered with success while the
    notification service answers, the same request with the service down
    leaves the same database (row stamped, goal credited) and the same
    transaction on the network, but is answered with the failure made from
    the notification error and logged as a failed investment. *)
Theorem X14_a_failed_notification_changes_only_the_answer
    rev env body w e w1 resp :
  POST rev (withNotification env (Ok tt)) body w = (w1, Ok resp) ->
  r_success resp = true ->
  exists w2,
    POST rev (withNotification env (Err e)) body w
    = (w2, Ok (errorResponse false "Failed to execute investment" e))
    /\ db w2 = db w1
    /\ submitted w2 = submitted w1
    /\ logs w2
       = (logs w1 ++ [(LError, "[INVEST] Failed to execute investment")])%list.
Proof.
  intros H Hs.
  apply POST_cases in H
    as (resp0 & [= <-]
        & [(e0 & _ & _ & ->) | [(c & w0 & e0 & _ & _ & _ & ->) | (c & Hl & Hse)]]).
  - by rewrite errorResponse_fails in Hs.
  - by rewrite errorResponse_fails in Hs.
  - change (POST_lookup (withNotification env (Ok tt)) body w)
      with (POST_lookup (withNotification env (Err e)) body w) in Hl.
    apply (settle_without_notification _ _ _ _ e) in Hse.
    unfold POST, try_catch, bind at 1. rewrite Hl, Hse.
    unfold onError. run. eexists. split; [reflexivity|]. done.
Qed.

(** X14 on a swap of the sample goal. *)
Lemma X14_a_failed_notification_changes_only_the_answer_witness :
  let e := Foreign "Error" "notification service down" in
  let w := Sample.worldWith
             (Sample.dbWith (Sample.goalWith 0 ACTIVE) [] false) in
  let ok := POST Plain (withNotification Sample.calm (Ok tt))
              Sample.executeBody w in
  let failed := POST Plain (withNotification Sample.calm (Err e))
                  Sample.executeBody w in
  db (fst failed) = db (fst ok)
  /\ submitted (fst failed) = ["AQID"]
  /\ snd failed = Ok (errorResponse false "Failed to execute investment" e).
Proof.
  intros e w ok failed. subst ok failed.
  assert (Hr : exists resp,
             snd (POST Plain (withNotification Sample.calm (Ok tt))
                    Sample.executeBody w) = Ok resp
             /\ r_success resp = true)
    by (eexists; split; vm_compute; reflexivity).
  destruct Hr as (resp & Hr & Hs).
  destruct (POST Plain (withNotification Sample.calm (Ok tt))
              Sample.executeBody w) as [w1 r1] eqn:H1.
  simpl in Hr. subst r1.
  destruct (X14_a_failed_notification_changes_only_the_answer Plain
              Sample.calm Sample.executeBody w e w1 resp H1 Hs)
    as (w2 & H2 & Hdb & Hsub & _).
  rewrite H2. simpl. split; [exact Hdb|]. split; [|reflexivity].
  rewrite Hsub.
  change w1 with (fst (w1, @Ok Response resp)). rewrite <- H1.
  vm_compute. reflexivity.
Defined.

End Notification.

(** ** lib/auth.js and the gate of app/api/internal/solana-transfer *)

Section TransferGate.

Import InternalTransferRoute TransferVocabulary.

Lemma existsb_eqb_In x l :
  existsb (String.eqb x) l = true <-> In x l.
Proof.
  rewrite existsb_exists. split.
  - intros (y & Hy & He). apply String.eqb_eq in He. by subst.
  - intros H. exists x. split; [done|apply String.eqb_refl].
Qed.

Lemma ensureAdmin_rejects env user w :
  ~ onAllowlist env user ->
  ensureAdmin env user w
  = (w, Err (AuthorizationError "Administrator access required")).
Proof.
  intros Hn. unfold ensureAdmin. run.
  assert (He : match u_email user with
               | Some e => negb (String.eqb e EmptyString)
                           && existsb (String.eqb (Js.toLowerCase e))
                                      (adminEmailAllowlist env)
               | None => false
               end = false).
  { destruct (u_email user) as [e|] eqn:Hemail; [|done].
    apply not_true_is_false. intros H. apply andb_true_iff in H as [H1 H2].
    apply Hn. left. exists e. split; [done|]. split.
    - intros ->. done.
    - by apply existsb_eqb_In. }
  assert (Hi : negb (String.eqb (u_id user) EmptyString)
               && existsb (String.eqb (u_id user)) (adminUserIdAllowlist env)
               = false).
  { apply not_true_is_false. intros H. apply andb_true_iff in H as [H1 H2].
    apply Hn. right. split.
    - intros E. rewrite E in H1. done.
    - by apply existsb_eqb_In. }
  rewrite He, Hi. reflexivity.
Qed.

(** X15.  The transfer route is closed to everyone but administrators.
    When the signed-in user, if there is one, is on neither allowlist,
    the POST handler, whatever the mode and the body of the request,
    leaves the database and the network as they were and answers with a
    failure that carries no payload: neither the prepare nor the submit
    handler runs. *)
Theorem X15_only_administrators_reach_the_transfer_handlers
    env handlePrepareMode body w :
  (forall user, requireAuth env w = (w, Ok user) -> ~ onAllowlist env user) ->
  let res := POST env handlePrepareMode body w in
  db (fst res) = db w
  /\ submitted (fst res) = submitted w
  /\ exists resp,
       snd res = Ok resp /\ r_success resp = false /\ r_payload resp = NoPayload.
Proof.
  intros Hn res. subst res.
  destruct (POST env handlePrepareMode body w) as [w' r] eqn:H. simpl.
  revert H. unfold POST, try_catch, bind at 1.
  destruct (requireAuth env w) as [w1 r1] eqn:Ha.
  pose proof (requireAuth_world _ _ _ _ Ha). subst w1.
  destruct r1 as [user|e].
  - unfold bind at 1. rewrite (ensureAdmin_rejects env user w (Hn user eq_refl)).
    run. intros [= <- <-]. simpl. repeat split; try done. by eexists.
  - run. intros [= <- <-]. simpl. repeat split; try done. by eexists.
Qed.

(** X15 on [Sample.ann] asking to submit the prepared transfer, with an
    allowlist that names someone else. *)
Lemma X15_only_administrators_reach_the_transfer_handlers_witness :
  let env := Allowlists.withAllowlists Sample.calm [] ["someone-else"] in
  let w := Sample.worldWith Sample.transferDb in
  let res := POST env (fun _ _ => ret (success 200 NoPayload))
               Sample.submitBody w in
  db (fst res) = db w
  /\ submitted (fst res) = submitted w
  /\ exists resp,
       snd res = Ok resp /\ r_success resp = false
       /\ r_payload resp = NoPayload.
Proof.
  intros env w.
  apply (X15_only_administrators_reach_the_transfer_handlers env
           (fun _ _ => ret (success 200 NoPayload)) Sample.submitBody w).
  intros user H.
  assert (E : requireAuth env w = (w, Ok Sample.ann))
    by (vm_compute; reflexivity).
  rewrite E in H. injection H as <-.
  intros [(email & He & _ & Hin) | [_ Hin]]; simpl in Hin.
  - exact Hin.
  - destruct Hin as [Hin | Hin]; [discriminate | exact Hin].
Defined.

End TransferGate.

Section Administrators.

Import InternalTransferRoute Allowlists.

Lemma toLowerCase_empty s : Js.toLowerCase s = EmptyString <-> s = EmptyString.
Proof. destruct s; simpl; split; congruence. Qed.

Lemma In_emailAllowlist raw x :
  In x (emailAllowlist raw)
  <-> x <> EmptyString
      /\ exists entry, In entry (JsText.split "," (default EmptyString raw))
                       /\ Js.toLowerCase (JsText.trim entry) = x.
Proof.
  unfold emailAllowlist. rewrite filter_In, in_map_iff, negb_true_iff.
  split.
  - intros [(entry & <- & Hin) Hne]. split.
    + intros E. rewrite E in Hne. done.
    + by exists entry.
  - intros [Hne (entry & Hin & <-)]. split; [by exists entry|].
    apply String.eqb_neq, Hne.
Qed.

Lemma In_idAllowlist raw x :
  In x (idAllowlist raw)
  <-> x <> EmptyString
      /\ exists entry, In entry (JsText.split "," (default EmptyString raw))
                       /\ JsText.trim entry = x.
Proof.
  unfold idAllowlist. rewrite filter_In, in_map_iff, negb_true_iff.
  split.
  - intros [(entry & <- & Hin) Hne]. split.
    + intros E. rewrite E in Hne. done.
    + by exists entry.
  - intros [Hne (entry & Hin & <-)]. split; [by exists entry|].
    apply String.eqb_neq, Hne.
Qed.

Lemma ensureAdmin_cases env user w :
  ensureAdmin env user w = (w, Ok tt)
  \/ ensureAdmin env user w
     = (w, Err (AuthorizationError "Administrator access required")).
Proof. unfold ensureAdmin. run. case_match; auto. Qed.

Lemma ensureAdmin_accepts env user w :
  ensureAdmin env user w = (w, Ok tt)
  <-> (exists email, u_email user = Some email /\ email <> EmptyString
                     /\ In (Js.toLowerCase email) (adminEmailAllowlist env))
      \/ (u_id user <> EmptyString /\ In (u_id user) (adminUserIdAllowlist env)).
Proof.
  split.
  - unfold ensureAdmin. run.
    destruct (negb _ && negb _) eqn:Hb; [done|]. intros _.
    apply andb_false_iff in Hb as [Hb | Hb]; apply negb_false_iff in Hb.
    + left. destruct (u_email user) as [email|]; [|done].
      apply andb_true_iff in Hb as [H1 H2].
      exists email. split; [done|]. split.
      * intros ->. done.
      * by apply existsb_eqb_In.
    + right. apply andb_true_iff in Hb as [H1 H2]. split.
      * intros E. rewrite E in H1. done.
      * by apply existsb_eqb_In.
  - intros H. destruct (ensureAdmin_cases env user w) as [E | E]; [exact E|].
    exfalso. revert E. unfold ensureAdmin. run.
    destruct H as [(email & He & Hne & Hin) | [Hne Hin]].
    + rewrite He. apply existsb_eqb_In in Hin. rewrite Hin.
      apply String.eqb_neq in Hne. rewrite Hne. simpl. done.
    + apply existsb_eqb_In in Hin. rewrite Hin.
      apply String.eqb_neq in Hne. rewrite Hne. simpl.
      rewrite andb_false_r. done.
Qed.

(** X16.  Who is an administrator is read from two comma-separated
    variables of the process environment.  A user passes [ensureAdmin]
    exactly when the user has a non-empty e-mail that equals, letter case
    and surrounding blanks aside, an entry of the first variable, or a
    non-empty id that equals, blanks aside, an entry of the second;
    everyone else is refused with the authorisation error, and with both
    variables unset everyone is refused. *)
Theorem X16_administrators_are_read_from_the_environment
    rawEmails rawIds env user w :
  (ensureAdminFrom rawEmails rawIds env user w = (w, Ok tt)
   <-> (exists email entry,
           u_email user = Some email /\ email <> EmptyString
           /\ In entry (JsText.split "," (default EmptyString rawEmails))
           /\ Js.toLowerCase (JsText.trim entry) = Js.toLowerCase email)
       \/ (u_id user <> EmptyString
           /\ exists entry,
                In entry (JsText.split "," (default EmptyString rawIds))
                /\ JsText.trim entry = u_id user))
  /\ (ensureAdminFrom rawEmails rawIds env user w <> (w, Ok tt) ->
      ensureAdminFrom rawEmails rawIds env user w
      = (w, Err (AuthorizationError "Administrator access required")))
  /\ ensureAdminFrom None None env user w
     = (w, Err (AuthorizationError "Administrator access required")).
Proof.
  unfold ensureAdminFrom. split; [|split].
  - rewrite ensureAdmin_accepts. simpl.
    split; intros [H | H].
    + left. destruct H as (email & He & Hne & Hin).
      apply In_emailAllowlist in Hin as (_ & entry & Hin & Heq).
      by exists email, entry.
    + right. destruct H as [Hne Hin].
      apply In_idAllowlist in Hin as (_ & entry & Hin & Heq).
      split; [done|]. by exists entry.
    + left. destruct H as (email & entry & He & Hne & Hin & Heq).
      exists email. split; [done|]. split; [done|].
      apply In_emailAllowlist. split.
      * intros E. apply (proj1 (toLowerCase_empty _)) in E. done.
      * by exists entry.
    + right. destruct H as (Hne & entry & Hin & Heq).
      split; [done|]. apply In_idAllowlist. split; [done|]. by exists entry.
  - intros H.
    match goal with
    | |- ensureAdmin ?e _ _ = _ =>
        destruct (ensureAdmin_cases e user w) as [E | E]; [done|exact E]
    end.
  - apply ensureAdmin_rejects. intros [(email & _ & _ & Hin) | [_ Hin]];
      simpl in Hin; done.
Qed.

End Administrators.

(** ** app/api/internal/solana-transfer/route.js: prepare and submit *)

Section PreparingTransfers.

Import InternalTransferRoute InternalTransferPrepare.

Lemma resolveSourceWallet_world env out uid addr w w' r :
  resolveSourceWallet env out uid addr w = (w', r) -> w' = w.
Proof.
  unfold resolveSourceWallet, prisma_user_findUnique. run. crunch; done.
Qed.

Lemma falsy_str_false o :
  Js.falsy_str o = false <-> exists s, o = Some s /\ s <> EmptyString.
Proof.
  destruct o as [s|]; simpl.
  - rewrite String.eqb_neq. split.
    + intros H. by exists s.
    + intros (s0 & [= <-] & H). exact H.
  - split; [done|]. intros (s0 & ? & _). done.
Qed.

Lemma resolveSourceWallet_ok env out uid addr w w' su a :
  resolveSourceWallet env out uid addr w = (w', Ok (su, a)) ->
  isValidSolanaAddress out a = true
  /\ a <> EmptyString
  /\ (Js.falsy_str uid = true ->
      su = None /\ JsText.trim <$> addr = Some a)
  /\ (Js.falsy_str uid = false ->
      exists user,
        su = Some user
        /\ users (db w) !! default EmptyString uid = Some user
        /\ u_walletAddress user = Some a
        /\ (forall given, addr = Some given ->
              JsText.trim given = EmptyString \/ JsText.trim given = a)).
Proof.
  unfold resolveSourceWallet, prisma_user_findUnique. run.
  destruct (Js.falsy_str uid) eqn:Hu; run; simpl.
  - destruct (Js.falsy_str (JsText.trim <$> addr)) eqn:Hf; run; [done|].
    apply falsy_str_false in Hf as (t & Ht & Hne). rewrite Ht. simpl.
    destruct (isValidSolanaAddress out t) eqn:Hv; run; simpl; [|done].
    intros [= <- <- <-]. repeat split; done.
  - destruct (dbFault env UserFindUnique); run; [done|].
    destruct (users (db w) !! default EmptyString uid) as [user|] eqn:Hl;
      run; [|done].
    destruct (Js.falsy_str (u_walletAddress user)) eqn:Hw; run; [done|].
    apply falsy_str_false in Hw as (wa & Hwa & Hne). rewrite Hwa. simpl.
    destruct (negb (Js.falsy_str (JsText.trim <$> addr))
              && negb (bool_decide (JsText.trim <$> addr = Some wa))) eqn:Hm;
      run; [done|].
    simpl. apply String.eqb_neq in Hne. rewrite Hne. simpl.
    apply String.eqb_neq in Hne.
    destruct (isValidSolanaAddress out wa) eqn:Hv; run; simpl; [|done].
    intros [= <- <- <-]. repeat split; try done.
    intros _. exists user. repeat split; try done.
    intros given ->. simpl in Hm.
    destruct (String.eqb_spec (JsText.trim given) EmptyString) as [E | E];
      [by left|right].
    simpl in Hm. apply negb_false_iff, bool_decide_eq_true in Hm. congruence.
Qed.


Lemma upsertTransferRecord_effect
    env out bid adminId srcUser src dst lamports memo st md w w' r :
  upsertTransferRecord env out bid adminId srcUser src dst lamports memo st md w
  = (w', r) ->
  submitted w' = submitted w /\ logs w' = logs w
  /\ match r with
     | Err _ => db w' = db w
     | Ok row =>
         db w' = with_internalTransfers (db w)
                   (<[bid := row]> (internalTransfers (db w)))
         /\ it_adminUserId row = adminId
         /\ it_sourceUserId row = srcUser
         /\ it_sourceAddress row = src
         /\ it_destinationAddress row = dst
         /\ it_lamports row = lamports
         /\ it_memo row = memoOrNull memo
         /\ it_state row = st
         /\ it_signature row
            = mbind it_signature (internalTransfers (db w) !! bid)
         /\ it_metadata row
            = Some (md (default emptyMetadata
                          (mbind it_metadata (internalTransfers (db w) !! bid))))
     end.
Proof.
  unfold upsertTransferRecord, prisma_internalTransfer_findUnique,
    prisma_internalTransfer_update, prisma_internalTransfer_create.
  run.
  destruct (dbFault env TransferFindUnique); run; [by intros [= <- <-]|].
  destruct (internalTransfers (db w) !! bid) as [old|] eqn:Hold; run; simpl.
  - destruct (dbFault env TransferUpdate); run; [by intros [= <- <-]|].
    rewrite Hold. run. intros [= <- <-]. simpl. by repeat split.
  - destruct (transferCreateFault out); run; [by intros [= <- <-]|].
    simpl. rewrite Hold. run. intros [= <- <-]. simpl. by repeat split.
Qed.

(** Everything a prepare request does. *)
Lemma handlePrepareMode_cases env out body bid admin w w' r :
  handlePrepareMode env out body bid admin w = (w', r) ->
  submitted w' = submitted w /\ logs w' = logs w
  /\ match r with
     | Err _ => db w' = db w
     | Ok resp =>
         exists rec u su,
           db w' = with_internalTransfers (db w)
                     (<[bid := rec]> (internalTransfers (db w)))
           /\ resolveSourceWallet env out (fromUserId body) (fromAddress body) w
              = (w, Ok (su, it_sourceAddress rec))
           /\ buildTransfer env (it_sourceAddress rec)
                 (it_destinationAddress rec) (it_lamports rec) = Ok u
           /\ Math_round (amountSol body * SwapCard.number LAMPORTS_PER_SOL)%float
              = Some (it_lamports rec)
           /\ (0 < it_lamports rec <= MAX_SAFE_INTEGER)%Z
           /\ toAddress body = Some (it_destinationAddress rec)
           /\ isValidSolanaAddress out (it_destinationAddress rec) = true
           /\ it_adminUserId rec = u_id admin
           /\ it_sourceUserId rec = u_id <$> su
           /\ it_memo rec = memoOrNull (memo body)
           /\ it_state rec = PREPARED
           /\ it_signature rec
              = mbind it_signature (internalTransfers (db w) !! bid)
           /\ it_metadata rec
              = Some (preparedMetadata env u
                        (default emptyMetadata
                           (mbind it_metadata (internalTransfers (db w) !! bid))))
           /\ resp = success 200
                       (RefreshedPayload bid
                          (formatTransferResponse (it_sourceAddress rec)
                             (it_destinationAddress rec) (it_lamports rec)
                             (memo body) u))
     end.
Proof.
  unfold handlePrepareMode, buildUnsignedTransfer.
  unfold bind at 1, throw_if at 1.
  destruct (Js.falsy_str (fromUserId body) && Js.falsy_str (fromAddress body));
    run; [by intros [= <- <-]|].
  destruct (Js.falsy_str (toAddress body) || _) eqn:Hto;
    run; [by intros [= <- <-]|].
  apply orb_false_iff in Hto as [Hto Hvalid].
  apply falsy_str_false in Hto as (dst & Hdst & Hne).
  rewrite Hdst in *. simpl in Hvalid |- *.
  apply negb_false_iff in Hvalid.
  destruct (negb (isFinite (amountSol body)) || _);
    run; [by intros [= <- <-]|].
  destruct (negb (isSafeInteger _) || _) eqn:Hl;
    run; [by intros [= <- <-]|].
  apply orb_false_iff in Hl as [Hsafe Hpos].
  apply negb_false_iff in Hsafe. apply Z.leb_gt in Hpos.
  destruct (Math_round _) as [lamports|] eqn:Hround; [|done].
  simpl in Hsafe, Hpos |- *. apply Z.leb_le in Hsafe.
  destruct (resolveSourceWallet env out (fromUserId body) (fromAddress body) w)
    as [w1 r1] eqn:Hr.
  pose proof (resolveSourceWallet_world _ _ _ _ _ _ _ Hr). subst w1.
  destruct r1 as [[su src]|e]; [|by intros [= <- <-]].
  simpl.
  destruct (buildTransfer env src dst lamports) as [u|e] eqn:Hb;
    [|by intros [= <- <-]].
  match goal with
  | |- context [upsertTransferRecord ?a1 ?a2 ?a3 ?a4 ?a5 ?a6 ?a7 ?a8 ?a9 ?a10 ?a11 w] =>
      destruct (upsertTransferRecord a1 a2 a3 a4 a5 a6 a7 a8 a9 a10 a11 w)
        as [w2 r2] eqn:Hu
  end.
  apply upsertTransferRecord_effect in Hu as (Hs & Hlg & Hu).
  destruct r2 as [row|e]; intros [= <- <-]; repeat split; try done.
  destruct Hu as (Hdb & H1 & H2 & H3 & H4 & H5 & H6 & H7 & H8 & H9).
  exists row, u, su. rewrite H3, H4, H5.
  repeat split; try done; try lia.
Qed.

(** X17.  A prepare request sends nothing to the network and logs no
    warning or error, and when it fails the database is as it was.
    When it succeeds, exactly the row of its batch id is written: in state
    PREPARED, under the administrator who asked, for the amount in SOL
    times 10^9 rounded to the nearest lamport, which is positive and a
    safe integer, to the destination the body names, both addresses
    having passed the address check; the row stores the blockhash of the
    transaction that was built and the time of the request, and the answer
    is 200 with that transaction: its serialised form, blockhash, last
    valid block height and fee estimate, for the source, the destination
    and the amount of the row. *)
Theorem X17_preparing_a_transfer_stores_a_checked_row env out body bid admin w :
  let res := handlePrepareMode env out body bid admin w in
  submitted (fst res) = submitted w
  /\ logs (fst res) = logs w
  /\ (forall e, snd res = Err e -> db (fst res) = db w)
  /\ (forall resp, snd res = Ok resp ->
        exists rec u,
          db (fst res)
          = with_internalTransfers (db w)
              (<[bid := rec]> (internalTransfers (db w)))
          /\ it_state rec = PREPARED
          /\ it_adminUserId rec = u_id admin
          /\ Math_round (amountSol body * SwapCard.number LAMPORTS_PER_SOL)%float
             = Some (it_lamports rec)
          /\ (0 < it_lamports rec <= MAX_SAFE_INTEGER)%Z
          /\ toAddress body = Some (it_destinationAddress rec)
          /\ isValidSolanaAddress out (it_destinationAddress rec) = true
          /\ isValidSolanaAddress out (it_sourceAddress rec) = true
          /\ buildTransfer env (it_sourceAddress rec) (it_destinationAddress rec)
                           (it_lamports rec) = Ok u
          /\ (md_recentBlockhash <$> it_metadata rec)
             = Some (Some (ut_recentBlockhash u))
          /\ (md_preparedAt <$> it_metadata rec) = Some (Some (now env))
          /\ resp = success 200
                      (RefreshedPayload bid
                         (formatTransferResponse (it_sourceAddress rec)
                            (it_destinationAddress rec) (it_lamports rec)
                            (memo body) u))
          /\ exists p,
               r_payload resp = RefreshedPayload bid p
               /\ tp_unsignedTransaction p = ut_unsignedTransaction u
               /\ tp_recentBlockhash p = ut_recentBlockhash u
               /\ tp_lastValidBlockHeight p = ut_lastValidBlockHeight u
               /\ tp_feeEstimateLamports p = ut_feeEstimateLamports u
               /\ tp_fromAddress p = it_sourceAddress rec
               /\ tp_toAddress p = it_destinationAddress rec
               /\ tp_lamports p = it_lamports rec).
Proof.
  intros res. subst res.
  destruct (handlePrepareMode env out body bid admin w) as [w' r] eqn:H.
  simpl. apply handlePrepareMode_cases in H as (Hs & Hl & H).
  split; [exact Hs|]. split; [exact Hl|]. split.
  - intros e ->. exact H.
  - intros resp ->.
    destruct H as (rec & u & su & Hdb & Hr & Hb & Hround & Hpos & Hto & Hv
                   & Ha & Hsu & Hm & Hst & Hsig & Hmd & Hresp).
    apply resolveSourceWallet_ok in Hr as (Hsrc & _).
    destruct Hpos as [Hp1 Hp2].
    exists rec, u. rewrite Hmd. subst resp.
    do 4 (split; [done|]). split; [by split|]. do 7 (split; [done|]).
    eexists. split; [reflexivity|]. by repeat split.
Qed.

(** A quarter of a SOL from the wallet of [Sample.ann] can be prepared. *)
Lemma prepare_sample :
  exists resp,
    snd (handlePrepareMode Sample.calm Examples.outside Examples.transferBody
           "t2" Sample.ann (Sample.worldWith Sample.transferDb))
    = Ok resp.
Proof. eexists. vm_compute. reflexivity. Qed.

(** X18.  The source of a prepared transfer is the wallet on record.  When
    the body names a user, the transfer leaves from the wallet address
    stored for that user and is filed under that user, and an address
    given along with it is either blank or that very address; when it
    names no user, the source is the given address, trimmed, and the
    transfer is filed under no user.  The source address is never empty. *)
Theorem X18_the_wallet_on_record_is_the_source env out body bid admin w resp :
  snd (handlePrepareMode env out body bid admin w) = Ok resp ->
  exists rec,
    internalTransfers (db (fst (handlePrepareMode env out body bid admin w)))
    !! bid = Some rec
    /\ it_sourceAddress rec <> EmptyString
    /\ (Js.falsy_str (fromUserId body) = false ->
        exists user,
          users (db w) !! default EmptyString (fromUserId body) = Some user
          /\ it_sourceUserId rec = Some (u_id user)
          /\ u_walletAddress user = Some (it_sourceAddress rec)
          /\ (forall given, fromAddress body = Some given ->
                JsText.trim given = EmptyString
                \/ JsText.trim given = it_sourceAddress rec))
    /\ (Js.falsy_str (fromUserId body) = true ->
        it_sourceUserId rec = None
        /\ JsText.trim <$> fromAddress body = Some (it_sourceAddress rec)).
Proof.
  destruct (handlePrepareMode env out body bid admin w) as [w' r] eqn:H.
  simpl. intros ->. apply handlePrepareMode_cases in H as (_ & _ & H).
  destruct H as (rec & u & su & Hdb & Hr & _ & _ & _ & _ & _ & _ & Hsu & _).
  apply resolveSourceWallet_ok in Hr as (_ & Hne & Hnone & Hsome).
  exists rec. split; [rewrite Hdb; simpl; apply lookup_insert_eq|].
  split; [exact Hne|]. split.
  - intros Hu. destruct (Hsome Hu) as (user & -> & Hl & Hw & Hg).
    exists user. by repeat split.
  - intros Hu. destruct (Hnone Hu) as [-> Ht]. by split.
Qed.

(** X18 on a transfer from [Sample.ann]: it leaves from AnnWallet. *)
Lemma X18_the_wallet_on_record_is_the_source_witness :
  let res := handlePrepareMode Sample.calm Examples.outside
               Examples.transferBody "t2" Sample.ann
               (Sample.worldWith Sample.transferDb) in
  exists rec,
    internalTransfers (db (fst res)) !! "t2" = Some rec
    /\ it_sourceUserId rec = Some "u1"
    /\ it_sourceAddress rec = "AnnWallet".
Proof.
  intros res. subst res.
  destruct prepare_sample as [resp Hr].
  destruct (X18_the_wallet_on_record_is_the_source _ _ _ _ _ _ _ Hr)
    as (rec & Hl & _ & Hsome & _).
  exists rec. split; [exact Hl|].
  destruct Hsome as (user & Hu & Hsu & Hw & _); [reflexivity|].
  vm_compute in Hu. injection Hu as <-.
  split; [exact Hsu|]. simpl in Hw. injection Hw as Hw. by symmetry.
Defined.

(** X19.  Preparing again under a batch id that is already on record
    overwrites the transfer but keeps its history: the row is back in
    state PREPARED, and its signature, its refresh counter, its failure
    reason and the time it was submitted are what they were. *)
Theorem X19_preparing_again_keeps_the_history env out body bid admin w old resp :
  internalTransfers (db w) !! bid = Some old ->
  snd (handlePrepareMode env out body bid admin w) = Ok resp ->
  exists rec,
    internalTransfers (db (fst (handlePrepareMode env out body bid admin w)))
    !! bid = Some rec
    /\ it_state rec = PREPARED
    /\ it_signature rec = it_signature old
    /\ refreshCountOf rec = refreshCountOf old
    /\ failureReasonOf rec = failureReasonOf old
    /\ (md_submittedAt <$> it_metadata rec)
       = Some (mbind md_submittedAt (it_metadata old)).
Proof.
  intros Hold.
  destruct (handlePrepareMode env out body bid admin w) as [w' r] eqn:H.
  simpl. intros ->. apply handlePrepareMode_cases in H as (_ & _ & H).
  destruct H as (rec & u & su & Hdb & _ & _ & _ & _ & _ & _ & _ & _ & _
                 & Hst & Hsig & Hmd & _).
  rewrite Hold in Hsig, Hmd. simpl in Hsig, Hmd.
  exists rec. split; [rewrite Hdb; simpl; apply lookup_insert_eq|].
  unfold refreshCountOf, failureReasonOf. rewrite Hmd. simpl.
  repeat split; try done; by destruct (it_metadata old).
Qed.

(** X19 on the prepared sample transfer, prepared once more. *)
Lemma X19_preparing_again_keeps_the_history_witness :
  let res := handlePrepareMode Sample.calm Examples.outside
               Examples.transferBody "t1" Sample.ann
               (Sample.worldWith Sample.transferDb) in
  exists rec,
    internalTransfers (db (fst res)) !! "t1" = Some rec
    /\ it_state rec = PREPARED
    /\ it_signature rec = None
    /\ refreshCountOf rec = 0%Z.
Proof.
  intros res. subst res.
  assert (Hr : exists resp,
             snd (handlePrepareMode Sample.calm Examples.outside
                    Examples.transferBody "t1" Sample.ann
                    (Sample.worldWith Sample.transferDb)) = Ok resp)
    by (eexists; vm_compute; reflexivity).
  destruct Hr as [resp Hr].
  destruct (X19_preparing_again_keeps_the_history Sample.calm
              Examples.outside Examples.transferBody "t1" Sample.ann
              (Sample.worldWith Sample.transferDb) Sample.preparedTransfer
              resp eq_refl Hr)
    as (rec & Hl & Hst & Hsig & Hc & _).
  exists rec. repeat split; assumption.
Defined.

End PreparingTransfers.

Section TransferBookkeeping.

Import InternalTransferRoute TransferVocabulary.

Lemma validSubmission_checks env body tx :
  validSubmission env body tx ->
  negb (Js.falsy_str (expectedFromAddress body))
  && negb (bool_decide (expectedFromAddress body = tx_feePayer tx)) = false.
Proof.
  intros (_ & _ & _ & _ & [-> | ->]); [done|].
  rewrite bool_decide_eq_true_2 by done. apply andb_false_r.
Qed.

(** X20.  Once the node has accepted the transaction of a submit request,
    the request is answered 201 with the signature, whatever happens to
    the bookkeeping.  When the transfer is on record and the database
    answers, it is stored SUBMITTED with the signature, the time and the
    administrator, its amount, addresses and refresh counter unchanged;
    when it is not on record, or the database fails, nothing is stored and
    a warning is logged. *)
Theorem X20_a_sent_transfer_is_answered_201 env body bid admin w tx sig latest :
  validSubmission env body tx ->
  sendRawTransaction env (default EmptyString (signedTransaction body)) = Ok sig ->
  getLatestBlockhash env = Ok latest ->
  let res := handleSubmitMode env body bid admin w in
  snd res = Ok (success 201 (SubmittedPayload bid sig))
  /\ submitted (fst res)
     = (submitted w ++ [default EmptyString (signedTransaction body)])%list
  /\ (forall rec,
        internalTransfers (db w) !! bid = Some rec ->
        dbFault env TransferFindUnique = None ->
        dbFault env TransferUpdate = None ->
        logs (fst res) = logs w
        /\ exists rec',
             internalTransfers (db (fst res)) !! bid = Some rec'
             /\ it_state rec' = SUBMITTED
             /\ it_signature rec' = Some sig
             /\ it_lamports rec' = it_lamports rec
             /\ it_sourceAddress rec' = it_sourceAddress rec
             /\ it_destinationAddress rec' = it_destinationAddress rec
             /\ refreshCountOf rec' = refreshCountOf rec
             /\ (md_submittedAt <$> it_metadata rec') = Some (Some (now env))
             /\ (md_adminUserId <$> it_metadata rec') = Some (Some (u_id admin)))
  /\ (internalTransfers (db w) !! bid = None
      \/ dbFault env TransferFindUnique <> None
      \/ dbFault env TransferUpdate <> None ->
      db (fst res) = db w
      /\ logs (fst res)
         = (logs w ++ [(LWarn, "Unable to mark transfer as submitted")])%list).
Proof.
  intros V Hsend Hlatest res. subst res.
  pose proof (validSubmission_checks _ _ _ V) as Hv5.
  destruct V as (V1 & V2 & V3 & V4 & _).
  destruct (handleSubmitMode env body bid admin w) as [w' r] eqn:H. simpl.
  revert H.
  unfold handleSubmitMode, submitTransaction, InvestExecute.sendRaw,
    markTransferSubmitted, prisma_internalTransfer_findUnique,
    prisma_internalTransfer_update.
  run. rewrite V1, V2, V3, V4. simpl. rewrite Hv5, Hsend, Hlatest. simpl.
  destruct (dbFault env TransferFindUnique) as [e1|] eqn:Hf1.
  { intros [= <- <-]. simpl. repeat split; try done; intros; done. }
  simpl.
  destruct (internalTransfers (db w) !! bid) as [rec|] eqn:Hrec.
  2: { destruct (dbFault env TransferUpdate); simpl; rewrite ?Hrec;
       intros [= <- <-]; simpl; repeat split; try done; intros; done. }
  destruct (dbFault env TransferUpdate) as [e2|] eqn:Hf2.
  { intros [= <- <-]. simpl. repeat split; try done; intros; try done.
    all: match goal with H : _ \/ _ \/ _ |- _ => destruct H as [? | [? | ?]] end;
      done. }
  simpl. rewrite Hrec. intros [= <- <-]. simpl.
  repeat split; try done.
  - simplify_eq. rewrite lookup_insert_eq. eexists. split; [reflexivity|].
    repeat split; try done.
    unfold refreshCountOf. simpl.
    match goal with |- context [it_metadata ?r] => by destruct (it_metadata r) end.
  - match goal with H : _ \/ _ \/ _ |- _ => destruct H as [? | [? | ?]] end;
      done.
  - match goal with H : _ \/ _ \/ _ |- _ => destruct H as [? | [? | ?]] end;
      done.
Qed.

(** X20 on the sample transfer. *)
Lemma X20_a_sent_transfer_is_answered_201_witness :
  let res := handleSubmitMode Sample.calm Sample.submitBody "t1" Sample.ann
               (Sample.worldWith Sample.transferDb) in
  snd res = Ok (success 201 (SubmittedPayload "t1" "sig-1"))
  /\ submitted (fst res) = ["AQID"]
  /\ exists rec',
       internalTransfers (db (fst res)) !! "t1" = Some rec'
       /\ it_state rec' = SUBMITTED
       /\ it_signature rec' = Some "sig-1".
Proof.
  intros res. subst res.
  destruct (X20_a_sent_transfer_is_answered_201 Sample.calm Sample.submitBody
              "t1" Sample.ann (Sample.worldWith Sample.transferDb)
              (mkTxInfo (Some "hash-1") (Some "AnnWallet")) "sig-1"
              ("hash-2", 250%Z))
    as (H1 & H2 & H3 & _).
  - repeat split; try reflexivity. by left.
  - reflexivity.
  - reflexivity.
  - split; [exact H1|]. split; [exact H2|].
    destruct (H3 Sample.preparedTransfer eq_refl eq_refl eq_refl)
      as (_ & rec' & Hl & Hst & Hsig & _).
    exists rec'. repeat split; assumption.
Defined.

(** X21.  A failure after the send still marks the transfer FAILED.  When
    the node has accepted the transaction but the call for the latest
    blockhash that follows fails (with anything but an expiry), the
    request fails with that error, the transaction is on the network all
    the same, and the transfer is stored FAILED with the message as its
    failure reason and without the signature the node returned. *)
Theorem X21_a_failure_after_the_send_marks_the_transfer_failed
    env body bid admin w tx sig e rec :
  validSubmission env body tx ->
  sendRawTransaction env (default EmptyString (signedTransaction body)) = Ok sig ->
  getLatestBlockhash env = Err e ->
  isBlockhashExpiredError e = false ->
  internalTransfers (db w) !! bid = Some rec ->
  dbFault env TransferFindUnique = None ->
  dbFault env TransferUpdate = None ->
  exists w' rec',
    handleSubmitMode env body bid admin w = (w', Err e)
    /\ submitted w'
       = (submitted w ++ [default EmptyString (signedTransaction body)])%list
    /\ internalTransfers (db w') !! bid = Some rec'
    /\ it_state rec' = FAILED
    /\ it_signature rec' = it_signature rec
    /\ failureReasonOf rec'
       = Some (if String.eqb (err_message e) EmptyString then "Unknown error"
               else err_message e).
Proof.
  intros V Hsend Hlatest Hexp Hrec Hf1 Hf2.
  pose proof (validSubmission_checks _ _ _ V) as Hv5.
  destruct V as (V1 & V2 & V3 & V4 & _).
  unfold handleSubmitMode, submitTransaction, InvestExecute.sendRaw,
    markTransferSubmitted, markTransferFailed,
    prisma_internalTransfer_findUnique, prisma_internalTransfer_update.
  run. rewrite V1, V2, V3, V4. simpl.
  rewrite Hv5, Hsend, Hlatest, Hexp, Hf1. simpl. rewrite Hrec, Hf2. simpl.
  rewrite Hrec.
  do 2 eexists. split; [reflexivity|]. simpl.
  rewrite lookup_insert_eq. by repeat split.
Qed.

(** X21 on the sample transfer, the node failing the second call. *)
Lemma X21_a_failure_after_the_send_marks_the_transfer_failed_witness :
  let e := Foreign "FetchError" "node unreachable" in
  let env := Examples.withLatest Sample.calm (Err e) in
  exists w' rec',
    handleSubmitMode env Sample.submitBody "t1" Sample.ann
      (Sample.worldWith Sample.transferDb) = (w', Err e)
    /\ submitted w' = ["AQID"]
    /\ internalTransfers (db w') !! "t1" = Some rec'
    /\ it_state rec' = FAILED
    /\ it_signature rec' = None
    /\ failureReasonOf rec' = Some "node unreachable".
Proof.
  intros e env.
  apply (X21_a_failure_after_the_send_marks_the_transfer_failed env
           Sample.submitBody "t1" Sample.ann
           (Sample.worldWith Sample.transferDb)
           (mkTxInfo (Some "hash-1") (Some "AnnWallet")) "sig-1" e
           Sample.preparedTransfer).
  - repeat split; try reflexivity. by left.
  - reflexivity.
  - reflexivity.
  - vm_compute. reflexivity.
  - reflexivity.
  - reflexivity.
  - reflexivity.
Defined.

Lemma refresh_step env body bid admin w rec e tx u :
  validSubmission env body tx ->
  sendRawTransaction env (default EmptyString (signedTransaction body)) = Err e ->
  isBlockhashExpiredError e = true ->
  internalTransfers (db w) !! bid = Some rec ->
  (0 < it_lamports rec)%Z ->
  dbFault env TransferFindUnique = None ->
  dbFault env TransferUpdate = None ->
  buildTransfer env (it_sourceAddress rec) (it_destinationAddress rec)
                (it_lamports rec) = Ok u ->
  handleSubmitMode env body bid admin w
  = (mkWorld
       (with_internalTransfers (db w)
          (<[bid := refreshRow
                      (refreshedMetadata env
                         (default emptyMetadata (it_metadata rec)) u) rec]>
             (internalTransfers (db w))))
       (submitted w ++ [default EmptyString (signedTransaction body)])
       (logs w ++ [(LWarn, "Internal SOL transfer blockhash expired. Refreshed transaction payload.")]),
     Ok (expiredResponse bid
           (formatTransferResponse (it_sourceAddress rec)
              (it_destinationAddress rec) (it_lamports rec) (it_memo rec) u))).
Proof.
  intros V Hsend Hexp Hrec Hpos Hf1 Hf2 Hb.
  pose proof (validSubmission_checks _ _ _ V) as Hv5.
  destruct V as (V1 & V2 & V3 & V4 & _).
  unfold handleSubmitMode, submitTransaction, InvestExecute.sendRaw,
    markTransferSubmitted, refreshExpiredTransfer, buildUnsignedTransfer,
    prisma_internalTransfer_findUnique, prisma_internalTransfer_update.
  run. rewrite V1, V2, V3, V4. simpl.
  rewrite Hv5, Hsend, Hexp, Hf1. simpl. rewrite Hrec.
  assert (Hle : (it_lamports rec <=? 0)%Z = false) by (apply Z.leb_gt; lia).
  rewrite Hle, Hb, Hf2. simpl. rewrite Hrec. reflexivity.
Qed.

Lemma refreshCount_step env rec u :
  refreshCountOf
    (refreshRow (refreshedMetadata env
                   (default emptyMetadata (it_metadata rec)) u) rec)
  = (refreshCountOf rec + 1)%Z.
Proof.
  unfold refreshCountOf. simpl.
  destruct (it_metadata rec) as [m|]; simpl; [|done].
  destruct (md_refreshCount m) as [n|]; simpl; [|done].
  destruct (n =? 0)%Z eqn:Hn; [apply Z.eqb_eq in Hn; by subst|done].
Qed.

(** X22.  Every expiry adds one refresh.  A submit request the node keeps
    refusing for an expired blockhash, sent [k] times in a row for a
    transfer on record with a positive amount, hands [k] transactions to
    the network and leaves the transfer with its refresh counter raised
    by [k], in state PREPARED without a signature, and with the amount,
    the addresses and the batch id it had: there is no limit on the number
    of refreshes. *)
Theorem X22_every_expiry_adds_one_refresh env body bid admin tx e u k :
  validSubmission env body tx ->
  sendRawTransaction env (default EmptyString (signedTransaction body)) = Err e ->
  isBlockhashExpiredError e = true ->
  dbFault env TransferFindUnique = None ->
  dbFault env TransferUpdate = None ->
  forall w rec,
    internalTransfers (db w) !! bid = Some rec ->
    (0 < it_lamports rec)%Z ->
    buildTransfer env (it_sourceAddress rec) (it_destinationAddress rec)
                  (it_lamports rec) = Ok u ->
    exists rec',
      internalTransfers (db (resubmitted k env body bid admin w)) !! bid
      = Some rec'
      /\ refreshCountOf rec' = (refreshCountOf rec + Z.of_nat k)%Z
      /\ it_lamports rec' = it_lamports rec
      /\ it_sourceAddress rec' = it_sourceAddress rec
      /\ it_destinationAddress rec' = it_destinationAddress rec
      /\ it_batchId rec' = it_batchId rec
      /\ ((0 < k)%nat -> it_state rec' = PREPARED /\ it_signature rec' = None)
      /\ length (submitted (resubmitted k env body bid admin w))
         = (length (submitted w) + k)%nat.
Proof.
  intros V Hsend Hexp Hf1 Hf2.
  induction k as [|k IH]; intros w rec Hrec Hpos Hb; simpl.
  - exists rec. repeat split; try done; try lia.
  - rewrite (refresh_step env body bid admin w rec e tx u) by done. simpl.
    set (rec1 := refreshRow (refreshedMetadata env
                   (default emptyMetadata (it_metadata rec)) u) rec).
    match goal with
    | |- context [resubmitted k env body bid admin ?w1] =>
        destruct (IH w1 rec1) as (rec' & Hl & Hc & H1 & H2 & H3 & H4 & H5 & H6)
    end.
    { simpl. apply lookup_insert_eq. }
    { exact Hpos. }
    { exact Hb. }
    exists rec'. split; [exact Hl|].
    split.
    { rewrite Hc. subst rec1. rewrite refreshCount_step. lia. }
    repeat split; try done.
    + destruct k; [|by apply H5; lia].
      simpl in Hl. rewrite lookup_insert_eq in Hl. by injection Hl as <-.
    + destruct k; [|by apply H5; lia].
      simpl in Hl. rewrite lookup_insert_eq in Hl. by injection Hl as <-.
    + rewrite H6. simpl. rewrite length_app. simpl. lia.
Qed.

(** X22 on the sample transfer, refused three times. *)
Lemma X22_every_expiry_adds_one_refresh_witness :
  let w := resubmitted 3 Examples.expiring Sample.submitBody "t1" Sample.ann
             (Sample.worldWith Sample.transferDb) in
  exists rec',
    internalTransfers (db w) !! "t1" = Some rec'
    /\ refreshCountOf rec' = 3%Z
    /\ it_state rec' = PREPARED
    /\ length (submitted w) = 3%nat.
Proof.
  intros w. subst w.
  destruct (X22_every_expiry_adds_one_refresh Examples.expiring
              Sample.submitBody "t1" Sample.ann
              (mkTxInfo (Some "hash-1") (Some "AnnWallet"))
              (Foreign "SendTransactionError"
                 "Transaction simulation failed: Blockhash not found")
              (mkUnsignedTransfer "unsigned-2" "hash-2" 250 (Some 5000%Z))
              3)
    with (w := Sample.worldWith Sample.transferDb)
         (rec := Sample.preparedTransfer)
    as (rec' & Hl & Hc & _ & _ & _ & _ & Hst & Hn).
  - repeat split; try reflexivity. by left.
  - reflexivity.
  - vm_compute. reflexivity.
  - reflexivity.
  - reflexivity.
  - reflexivity.
  - simpl. lia.
  - reflexivity.
  - exists rec'. split; [exact Hl|]. split; [exact Hc|].
    split; [apply Hst; lia | exact Hn].
Defined.

End TransferBookkeeping.

Section PrepareThenSubmit.

Import InternalTransferRoute InternalTransferPrepare TransferVocabulary.

(** X23.  A prepared transfer survives an expired blockhash.  When a
    transfer was prepared with success and the node then refuses its
    submission for an expired blockhash, the 409 answer carries a freshly
    built transaction for the same source, destination, amount and memo
    as the prepare answer, namely the transaction, blockhash, last valid
    block height and fee estimate of the transfer rebuilt for them, and the
    stored transfer is PREPARED, unsigned, with one refresh more and the
    blockhash of the rebuilt transfer. *)
Theorem X23_a_prepared_transfer_survives_an_expired_blockhash
    env out pbody bid admin w resp env' body tx e build :
  snd (handlePrepareMode env out pbody bid admin w) = Ok resp ->
  validSubmission env' body tx ->
  sendRawTransaction env' (default EmptyString (signedTransaction body)) = Err e ->
  isBlockhashExpiredError e = true ->
  dbFault env' TransferFindUnique = None ->
  dbFault env' TransferUpdate = None ->
  (forall s d l, buildTransfer env' s d l = Ok (build s d l)) ->
  let w1 := fst (handlePrepareMode env out pbody bid admin w) in
  exists rec rec' first again w2,
    internalTransfers (db w1) !! bid = Some rec
    /\ r_payload resp = RefreshedPayload bid first
    /\ handleSubmitMode env' body bid admin w1
       = (w2, Ok (expiredResponse bid again))
    /\ tp_fromAddress again = tp_fromAddress first
    /\ tp_toAddress again = tp_toAddress first
    /\ tp_lamports again = tp_lamports first
    /\ tp_memo again = tp_memo first
    /\ (0 < tp_lamports again)%Z
    /\ internalTransfers (db w2) !! bid = Some rec'
    /\ it_state rec' = PREPARED
    /\ it_signature rec' = None
    /\ refreshCountOf rec' = (refreshCountOf rec + 1)%Z
    /\ (let rebuilt := build (tp_fromAddress first) (tp_toAddress first)
                             (tp_lamports first) in
        tp_unsignedTransaction again = ut_unsignedTransaction rebuilt
        /\ tp_recentBlockhash again = ut_recentBlockhash rebuilt
        /\ tp_lastValidBlockHeight again = ut_lastValidBlockHeight rebuilt
        /\ tp_feeEstimateLamports again = ut_feeEstimateLamports rebuilt
        /\ (md_recentBlockhash <$> it_metadata rec')
           = Some (Some (ut_recentBlockhash rebuilt))).
Proof.
  destruct (handlePrepareMode env out pbody bid admin w) as [w1 r] eqn:H.
  simpl. intros -> V Hsend Hexp Hf1 Hf2 Hbuild.
  apply handlePrepareMode_cases in H as (_ & _ & H).
  destruct H as (rec & u & su & Hdb & _ & _ & _ & [Hpos _] & _ & _ & _ & _
                 & Hmemo & _ & _ & _ & ->).
  assert (Hrec : internalTransfers (db w1) !! bid = Some rec).
  { rewrite Hdb. simpl. apply lookup_insert_eq. }
  pose proof (refresh_step env' body bid admin w1 rec e tx _ V Hsend Hexp Hrec
                Hpos Hf1 Hf2 (Hbuild _ _ _)) as Hstep.
  do 5 eexists. split; [exact Hrec|]. split; [reflexivity|].
  split; [exact Hstep|]. simpl. rewrite lookup_insert_eq.
  repeat split; try done.
  - rewrite Hmemo. unfold memoOrNull.
    destruct (Js.falsy_str (memo pbody)) eqn:E; simpl; rewrite ?E; done.
  - apply refreshCount_step.
Qed.

(** X23 on a quarter of a SOL from [Sample.ann], refused once. *)
Lemma X23_a_prepared_transfer_survives_an_expired_blockhash_witness :
  let w1 := fst (handlePrepareMode Sample.calm Examples.outside
                   Examples.transferBody "t2" Sample.ann
                   (Sample.worldWith Sample.transferDb)) in
  let body := mkBody (Some "submit") (Some "t2") (Some "AQID") None in
  exists again w2 rec',
    handleSubmitMode Examples.expiring body "t2" Sample.ann w1
    = (w2, Ok (expiredResponse "t2" again))
    /\ (0 < tp_lamports again)%Z
    /\ tp_unsignedTransaction again = "unsigned-2"
    /\ tp_recentBlockhash again = "hash-2"
    /\ internalTransfers (db w2) !! "t2" = Some rec'
    /\ it_state rec' = PREPARED
    /\ it_signature rec' = None.
Proof.
  intros w1 body. subst w1.
  destruct prepare_sample as [resp Hr].
  destruct (X23_a_prepared_transfer_survives_an_expired_blockhash
              Sample.calm Examples.outside Examples.transferBody "t2"
              Sample.ann (Sample.worldWith Sample.transferDb) resp
              Examples.expiring body
              (mkTxInfo (Some "hash-1") (Some "AnnWallet"))
              (Foreign "SendTransactionError"
                 "Transaction simulation failed: Blockhash not found")
              (fun _ _ _ =>
                 mkUnsignedTransfer "unsigned-2" "hash-2" 250 (Some 5000%Z))
              Hr)
    as (rec & rec' & first & again & w2 & _ & _ & H & _ & _ & _ & _ & Hpos
        & Hl & Hst & Hsig & _ & Htx & Hbh & _).
  - repeat split; try reflexivity. by left.
  - reflexivity.
  - vm_compute. reflexivity.
  - reflexivity.
  - reflexivity.
  - intros s d l. reflexivity.
  - exists again, w2, rec'. repeat split; assumption.
Defined.

End PrepareThenSubmit.

Section TransferFlow.

Import InternalTransferRoute InternalTransferPrepare TransferVocabulary.

Lemma sent_step env body bid admin w tx sig latest rec :
  validSubmission env body tx ->
  sendRawTransaction env (default EmptyString (signedTransaction body)) = Ok sig ->
  getLatestBlockhash env = Ok latest ->
  internalTransfers (db w) !! bid = Some rec ->
  dbFault env TransferFindUnique = None ->
  dbFault env TransferUpdate = None ->
  handleSubmitMode env body bid admin w
  = (mkWorld
       (with_internalTransfers (db w)
          (<[bid := submittedRow env sig (u_id admin) (Some rec) rec]>
             (internalTransfers (db w))))
       (submitted w ++ [default EmptyString (signedTransaction body)])
       (logs w),
     Ok (success 201 (SubmittedPayload bid sig))).
Proof.
  intros V Hsend Hlatest Hrec Hf1 Hf2.
  pose proof (validSubmission_checks _ _ _ V) as Hv5.
  destruct V as (V1 & V2 & V3 & V4 & _).
  unfold handleSubmitMode, submitTransaction, InvestExecute.sendRaw,
    markTransferSubmitted, prisma_internalTransfer_findUnique,
    prisma_internalTransfer_update.
  run. rewrite V1, V2, V3, V4. simpl. rewrite Hv5, Hsend, Hlatest. simpl.
  rewrite Hf1. simpl. rewrite Hrec, Hf2. simpl. rewrite Hrec. reflexivity.
Qed.

(** What the route entry does for an administrator who names a batch and
    no mode. *)
Lemma POST_dispatch env h body w user bid :
  authenticated env (db w) user ->
  onAllowlist env user ->
  mode body = None ->
  batchId body = Some bid ->
  bid <> EmptyString ->
  POST env h body w
  = try_catch
      (if Js.falsy_str (signedTransaction body) then h bid user
       else handleSubmitMode env body bid user)
      (fun error =>
         logger LError "Internal transfer API failed" ;;;
         ret (mkResponse (if Js.falsy_num (err_statusCode error) then 500%Z
                          else default 500%Z (err_statusCode error))
                         false false None None NoPayload)) w.
Proof.
  intros Ha Hadm Hm Hb Hne.
  pose proof (authenticated_requireAuth _ _ _ Ha) as Hauth.
  assert (Hok : ensureAdmin env user w = (w, Ok tt)).
  { apply ensureAdmin_accepts. exact Hadm. }
  unfold POST, try_catch, bind at 1. rewrite Hauth.
  unfold bind at 1. rewrite Hok. rewrite Hm, Hb.
  apply String.eqb_neq in Hne.
  destruct (Js.falsy_str (signedTransaction body)); run; simpl;
    rewrite !Hne; simpl; rewrite ?Hne; reflexivity.
Qed.

(** X24.  Prepare, then submit, through the route.  An administrator who
    posts a batch id without a signed transaction gets the transfer
    prepared; posting the same batch id with the signed transaction, once
    the node accepts it, is answered 201 with the signature and leaves the
    transfer SUBMITTED, for the amount and the destination of the prepare
    request, carrying both the time it was prepared and the time it was
    submitted; the signed transaction is the only thing the two requests
    sent to the network. *)
Theorem X24_prepare_then_submit_through_the_route
    env out pbody bid user w resp env' signed tx sig latest :
  let prepare := mkBody None (Some bid) None None in
  let submit := mkBody None (Some bid) (Some signed) None in
  let first := POST env (handlePrepareMode env out pbody) prepare w in
  authenticated env (db w) user -> onAllowlist env user ->
  authenticated env' (db w) user -> onAllowlist env' user ->
  bid <> EmptyString ->
  snd first = Ok resp -> r_success resp = true ->
  validSubmission env' submit tx ->
  sendRawTransaction env' signed = Ok sig ->
  getLatestBlockhash env' = Ok latest ->
  dbFault env' TransferFindUnique = None ->
  dbFault env' TransferUpdate = None ->
  exists rec w2,
    POST env' (handlePrepareMode env' out pbody) submit (fst first)
    = (w2, Ok (success 201 (SubmittedPayload bid sig)))
    /\ internalTransfers (db w2) !! bid = Some rec
    /\ it_state rec = SUBMITTED
    /\ it_signature rec = Some sig
    /\ Math_round (amountSol pbody * SwapCard.number LAMPORTS_PER_SOL)%float
       = Some (it_lamports rec)
    /\ (0 < it_lamports rec)%Z
    /\ toAddress pbody = Some (it_destinationAddress rec)
    /\ (md_preparedAt <$> it_metadata rec) = Some (Some (now env))
    /\ (md_submittedAt <$> it_metadata rec) = Some (Some (now env'))
    /\ submitted w2 = (submitted w ++ [signed])%list.
Proof.
  intros prepare submit first Ha Hadm Ha' Hadm' Hne Hresp Hsucc V Hsend
    Hlatest Hf1 Hf2.
  subst first.
  rewrite (POST_dispatch env _ prepare w user bid Ha Hadm eq_refl eq_refl Hne)
    in Hresp |- *.
  simpl in Hresp |- *. unfold try_catch in Hresp |- *.
  destruct (handlePrepareMode env out pbody bid user w) as [w1 r1] eqn:Hp.
  apply handlePrepareMode_cases in Hp as (Hs1 & _ & Hp).
  destruct r1 as [resp1|e1].
  2: { revert Hresp. run. simpl. intros [= <-]. done. }
  simpl in Hresp |- *. injection Hresp as ->.
  destruct Hp as (rec & u & su & Hdb & _ & _ & Hround & [Hpos _] & Hto & _ & _
                  & _ & _ & _ & _ & Hmd & _).
  assert (Hrec : internalTransfers (db w1) !! bid = Some rec).
  { rewrite Hdb. simpl. apply lookup_insert_eq. }
  assert (Ha1 : authenticated env' (db w1) user).
  { destruct Ha' as (sub & ? & ? & ? & ?). exists sub. rewrite Hdb. done. }
  rewrite (POST_dispatch env' _ submit w1 user bid Ha1 Hadm' eq_refl eq_refl Hne).
  destruct V as (V1 & V').
  assert (V : validSubmission env' submit tx) by by split.
  rewrite V1. unfold try_catch.
  rewrite (sent_step env' submit bid user w1 tx sig latest rec V Hsend Hlatest
             Hrec Hf1 Hf2).
  exists (submittedRow env' sig (u_id user) (Some rec) rec). eexists.
  split; [reflexivity|]. simpl.
  rewrite lookup_insert_eq. rewrite Hmd, Hs1. simpl.
  by repeat split.
Qed.

Lemma allowlisted_sample : onAllowlist Sample.calm Sample.ann.
Proof.
  left. exists "ann@example.org". split; [reflexivity|].
  split; [discriminate | by left].
Qed.

(** X24 on a quarter of a SOL from [Sample.ann] to BobWallet. *)
Lemma X24_prepare_then_submit_through_the_route_witness :
  let w := Sample.worldWith Sample.transferDb in
  let h := handlePrepareMode Sample.calm Examples.outside
             Examples.transferBody in
  let first := POST Sample.calm h (mkBody None (Some "t2") None None) w in
  exists rec w2,
    POST Sample.calm h (mkBody None (Some "t2") (Some "AQID") None) (fst first)
    = (w2, Ok (success 201 (SubmittedPayload "t2" "sig-1")))
    /\ internalTransfers (db w2) !! "t2" = Some rec
    /\ it_state rec = SUBMITTED
    /\ it_signature rec = Some "sig-1"
    /\ it_destinationAddress rec = "BobWallet"
    /\ submitted w2 = ["AQID"].
Proof.
  intros w h first. subst h first.
  assert (Ha : authenticated Sample.calm (db w) Sample.ann)
    by (exists "u1"; repeat split; done).
  assert (Hr : exists resp,
             snd (POST Sample.calm
                    (handlePrepareMode Sample.calm Examples.outside
                       Examples.transferBody)
                    (mkBody None (Some "t2") None None) w) = Ok resp
             /\ r_success resp = true)
    by (eexists; split; vm_compute; reflexivity).
  destruct Hr as (resp & Hr & Hs).
  destruct (X24_prepare_then_submit_through_the_route Sample.calm
              Examples.outside Examples.transferBody "t2" Sample.ann w resp
              Sample.calm "AQID"
              (mkTxInfo (Some "hash-1") (Some "AnnWallet")) "sig-1"
              ("hash-2", 250%Z) Ha allowlisted_sample Ha allowlisted_sample)
    as (rec & w2 & H & Hl & Hst & Hsig & _ & _ & Hto & _ & _ & Hsub).
  - discriminate.
  - exact Hr.
  - exact Hs.
  - repeat split; try reflexivity. by left.
  - reflexivity.
  - reflexivity.
  - reflexivity.
  - reflexivity.
  - exists rec, w2. simpl in Hto. injection Hto as Hto.
    repeat split; try assumption. by symmetry.
Defined.

End TransferFlow.

(** ** app/api/internal/solana-transfer/route.js: recognising expiry *)

Section LetterCase.

Import InternalTransferRoute.

Lemma lower_upper_char c :
  Js.lower_char (JsText.upper_char c) = Js.lower_char c.
Proof. destruct c as [[] [] [] [] [] [] [] []]; reflexivity. Qed.

Lemma lower_lower_char c :
  Js.lower_char (Js.lower_char c) = Js.lower_char c.
Proof. destruct c as [[] [] [] [] [] [] [] []]; reflexivity. Qed.

Lemma toLowerCase_toUpperCase s :
  Js.toLowerCase (JsText.toUpperCase s) = Js.toLowerCase s.
Proof. induction s as [|c s IH]; simpl; [done|]. by rewrite lower_upper_char, IH. Qed.

Lemma toLowerCase_idempotent s :
  Js.toLowerCase (Js.toLowerCase s) = Js.toLowerCase s.
Proof. induction s as [|c s IH]; simpl; [done|]. by rewrite lower_lower_char, IH. Qed.

(** X25.  Whether an error counts as an expired blockhash does not depend
    on the letter case of its name or of its message: the error with both
    in upper case and the error with both in lower case are classified as
    the error itself is. *)
Theorem X25_expiry_is_recognised_whatever_the_letter_case name message :
  isBlockhashExpiredError
    (Foreign (JsText.toUpperCase name) (JsText.toUpperCase message))
  = isBlockhashExpiredError (Foreign name message)
  /\ isBlockhashExpiredError
       (Foreign (Js.toLowerCase name) (Js.toLowerCase message))
     = isBlockhashExpiredError (Foreign name message).
Proof.
  unfold isBlockhashExpiredError. simpl.
  by rewrite !toLowerCase_toUpperCase, !toLowerCase_idempotent.
Qed.

End LetterCase.

(** ** lib/user.js *)

Section Wallets.

Import UserHelpers.

Lemma hasAddress_spec account :
  hasAddress account = true
  <-> exists a, la_address account = Some a /\ a <> EmptyString.
Proof.
  unfold hasAddress. destruct (la_address account) as [a|].
  - rewrite Nat.ltb_lt. split.
    + intros H. exists a. split; [done|]. intros ->. simpl in H. lia.
    + intros (a0 & [= <-] & Hne). destruct a; [done|simpl; lia].
  - split; [done|]. intros (a & ? & _). done.
Qed.

Lemma isPrivyWallet_isWallet account :
  isPrivyWallet account = true -> isWallet account = true.
Proof.
  unfold isPrivyWallet, isWallet. rewrite !andb_true_iff. tauto.
Qed.

Lemma find_some_address (p : LinkedAccount -> bool) accounts account :
  (forall x, p x = true -> hasAddress x = true) ->
  List.find p accounts = Some account ->
  exists a, la_address account = Some a /\ a <> EmptyString.
Proof.
  intros Hp Hf. apply find_some in Hf as [_ Hf].
  by apply hasAddress_spec, Hp.
Qed.

(** X26.  [getWalletAddressFromPrivy] finds a wallet address whenever
    there is one.  An address it returns is never empty and is the primary
    wallet address or the address of a linked account of type wallet; it
    returns nothing exactly when the primary address is missing or empty
    and no linked account is a wallet with a non-empty address.  A
    non-empty primary address always wins, and without one the first
    linked wallet of the privy client is preferred to any other. *)
Theorem X26_a_wallet_address_is_found_whenever_there_is_one user :
  (forall a, getWalletAddressFromPrivy (Some user) = Some a ->
     a <> EmptyString
     /\ (wallet_address user = Some a
         \/ exists accounts account,
              linkedAccounts user = Some accounts
              /\ In account accounts
              /\ la_type account = Some "wallet"
              /\ la_address account = Some a))
  /\ (getWalletAddressFromPrivy (Some user) = None
      <-> Js.falsy_str (wallet_address user) = true
          /\ forall accounts account,
               linkedAccounts user = Some accounts ->
               In account accounts -> isWallet account = false)
  /\ (forall a, wallet_address user = Some a -> a <> EmptyString ->
        getWalletAddressFromPrivy (Some user) = Some a)
  /\ (forall accounts privy,
        Js.falsy_str (wallet_address user) = true ->
        linkedAccounts user = Some accounts ->
        List.find isPrivyWallet accounts = Some privy ->
        getWalletAddressFromPrivy (Some user) = la_address privy).
Proof.
  unfold getWalletAddressFromPrivy.
  split; [|split; [|split]].
  - intros a.
    destruct (Js.falsy_str (wallet_address user)) eqn:Hw; simpl.
    + destruct (linkedAccounts user) as [accounts|]; [|done].
      destruct (List.find isPrivyWallet accounts) as [privy|] eqn:Hp.
      * intros Ha. pose proof Hp as Hin. apply find_some in Hin as [Hin Hq].
        destruct (find_some_address isPrivyWallet accounts privy) as (a0 & E & Hne);
          [|done|].
        { unfold isPrivyWallet. intros x. rewrite !andb_true_iff. tauto. }
        rewrite E in Ha. injection Ha as <-. split; [done|]. right.
        exists accounts, privy. repeat split; try done.
        unfold isPrivyWallet in Hq. rewrite !andb_true_iff in Hq.
        destruct Hq as [[Hq _] _]. by apply bool_decide_eq_true in Hq.
      * destruct (List.find isWallet accounts) as [any|] eqn:Hany; [|done].
        intros Ha. pose proof Hany as Hin. apply find_some in Hin as [Hin Hq].
        destruct (find_some_address isWallet accounts any) as (a0 & E & Hne);
          [|done|].
        { unfold isWallet. intros x. rewrite !andb_true_iff. tauto. }
        rewrite E in Ha. injection Ha as <-. split; [done|]. right.
        exists accounts, any. repeat split; try done.
        unfold isWallet in Hq. rewrite !andb_true_iff in Hq.
        destruct Hq as [Hq _]. by apply bool_decide_eq_true in Hq.
    + intros Ha. split; [|by left].
      intros ->. rewrite Ha in Hw. done.
  - destruct (Js.falsy_str (wallet_address user)) eqn:Hw; simpl.
    + destruct (linkedAccounts user) as [accounts|].
      * destruct (List.find isPrivyWallet accounts) as [privy|] eqn:Hp.
        { pose proof Hp as Hin. apply find_some in Hin as [Hin Hq].
          destruct (find_some_address isPrivyWallet accounts privy)
            as (a0 & E & Hne); [|done|].
          { unfold isPrivyWallet. intros x. rewrite !andb_true_iff. tauto. }
          rewrite E. split; [done|]. intros [_ H].
          specialize (H accounts privy eq_refl Hin).
          apply isPrivyWallet_isWallet in Hq. congruence. }
        destruct (List.find isWallet accounts) as [any|] eqn:Hany.
        { pose proof Hany as Hin. apply find_some in Hin as [Hin Hq].
          destruct (find_some_address isWallet accounts any)
            as (a0 & E & Hne); [|done|].
          { unfold isWallet. intros x. rewrite !andb_true_iff. tauto. }
          rewrite E. split; [done|]. intros [_ H].
          specialize (H accounts any eq_refl Hin). congruence. }
        split; [|done]. intros _. split; [done|].
        intros accounts0 account [= <-] Hin.
        exact (find_none _ _ Hany account Hin).
      * split; [|done]. intros _. split; [done|]. intros ? ? ?. done.
    + split.
      * intros H. destruct (wallet_address user); done.
      * intros [? _]. done.
  - intros a Ha Hne. rewrite Ha. simpl.
    apply String.eqb_neq in Hne. by rewrite Hne.
  - intros accounts privy Hw Hl Hp. by rewrite Hw, Hl, Hp.
Qed.

End Wallets.

Section Addresses.

Import UserHelpers.

Lemma append_cons c (a b : string) : String c a ++ b = String c (a ++ b).
Proof. reflexivity. Qed.

Lemma append_nil (b : string) : EmptyString ++ b = b.
Proof. reflexivity. Qed.

Lemma length_sliceTo n s :
  String.length (JsText.sliceTo n s) = Nat.min n (String.length s).
Proof.
  revert s. induction n as [|n IH]; intros [|c s]; simpl; try done.
  by rewrite IH.
Qed.

Lemma slice_split n s :
  s = JsText.sliceTo n s ++ JsText.sliceFrom n s.
Proof.
  revert s. induction n as [|n IH]; intros [|c s]; simpl;
    rewrite ?append_nil; try done.
  rewrite append_cons. f_equal. apply IH.
Qed.

Lemma length_sliceFrom n s :
  String.length (JsText.sliceFrom n s) = (String.length s - n)%nat.
Proof.
  revert s. induction n as [|n IH]; intros [|c s]; simpl; try done.
Qed.

Lemma sliceFrom_sliceFrom n m s :
  JsText.sliceFrom m (JsText.sliceFrom n s) = JsText.sliceFrom (n + m) s.
Proof.
  revert s. induction n as [|n IH]; intros s; simpl; [done|].
  destruct s as [|c s]; simpl; [by destruct m|]. apply IH.
Qed.

Lemma length_append (a b : string) :
  String.length (a ++ b) = (String.length a + String.length b)%nat.
Proof.
  induction a as [|c a IH]; [done|]. rewrite append_cons. simpl. by rewrite IH.
Qed.

(** X27.  [shortenAddress] gives the empty text for a missing address and
    returns an address of at most twice [visible] characters as it is.  A
    longer one (for a positive [visible]) is cut to its first [visible]
    and its last [visible] characters around three dots: the address is
    head, middle, tail, the result is head, dots, tail, and its length is
    twice [visible] plus 3. *)
Theorem X27_a_shortened_address_shows_both_ends address visible :
  shortenAddress None visible = EmptyString
  /\ ((String.length address <= visible * 2)%nat ->
      shortenAddress (Some address) visible = address)
  /\ ((visible * 2 < String.length address)%nat -> (0 < visible)%nat ->
      exists head middle tail,
        address = head ++ middle ++ tail
        /\ String.length head = visible
        /\ String.length tail = visible
        /\ shortenAddress (Some address) visible = head ++ "..." ++ tail
        /\ String.length (shortenAddress (Some address) visible)
           = (visible * 2 + 3)%nat).
Proof.
  unfold shortenAddress. split; [done|]. split.
  - intros Hle. simpl. destruct (String.eqb_spec address EmptyString) as [-> | Hne];
      [done|].
    apply Nat.leb_le in Hle. by rewrite Hle.
  - intros Hlt Hv. simpl.
    destruct (String.eqb_spec address EmptyString) as [-> | Hne];
      [simpl in Hlt; lia|].
    assert (Hgt : (String.length address <=? visible * 2)%nat = false)
      by (apply Nat.leb_gt; lia).
    rewrite Hgt. unfold JsText.sliceLast.
    assert (Hv0 : (visible =? 0)%nat = false) by (apply Nat.eqb_neq; lia).
    rewrite Hv0.
    set (n := String.length address) in *.
    exists (JsText.sliceTo visible address),
           (JsText.sliceTo (n - visible * 2) (JsText.sliceFrom visible address)),
           (JsText.sliceFrom (n - visible) address).
    assert (Hh : String.length (JsText.sliceTo visible address) = visible).
    { rewrite length_sliceTo. fold n. lia. }
    assert (Ht : String.length (JsText.sliceFrom (n - visible) address) = visible).
    { rewrite length_sliceFrom. fold n. lia. }
    split.
    { rewrite (slice_split visible address) at 1. f_equal.
      rewrite (slice_split (n - visible * 2) (JsText.sliceFrom visible address))
        at 1.
      f_equal. rewrite sliceFrom_sliceFrom. f_equal. lia. }
    split; [exact Hh|]. split; [exact Ht|]. split; [done|].
    rewrite !length_append, Hh, Ht. simpl. lia.
Qed.

End Addresses.
